(** * Stock-Trend-Prediction: the time-series feature/pattern pipeline

    A shallow embedding of [src/stock_analyzer.py] (class [StockAnalyzer]) and
    of the indicator helper of [app.py], together with the properties the
    specification states about loading, indicator computation, pattern
    detection and summary statistics; then of the routes [/analyze] of
    [app.py] and [/results] of [src/app.py], of [plot_stock_trend] and of
    the sample-data generator, with further properties of the code.

    Numbers are IEEE-754 binary64 values, as Python's [float] and numpy's
    [float64] are: NaN, the infinities and the comparison rules of the
    source ([nan != 0] is true, every ordered comparison with NaN is false)
    are those of Rocq's primitive floats. *)

From Stdlib Require Import ZArith List String Ascii Floats Lia Bool Sorted
  Permutation.
From stdpp Require Import gmap.
Import ListNotations.
#[local] Open Scope string_scope.
#[local] Set Warnings "-inexact-float".

(** ** Python exceptions and the error monad *)

Inductive exn : Type :=
| NoDataFound (symbol : string)          (* ValueError("No data found for symbol: ...") *)
| MissingColumns (missing : list string) (* ValueError("Missing required columns: ...") *)
| KeyError (label : string)              (* a column label that is not in the frame *)
| IndexError                             (* positional access out of bounds *)
| LibraryError.                          (* raised inside pandas (dtype or date parsing) *)

Inductive result (A : Type) : Type :=
| Ok (a : A)
| Raise (e : exn).
Arguments Ok {A} a.
Arguments Raise {A} e.

#[global] Instance result_ret : MRet result := fun A a => Ok a.
#[global] Instance result_bind : MBind result := fun A B k m =>
  match m with
  | Ok a => k a
  | Raise e => Raise e
  end.

(** ** Python floats *)

Module PyFloat.

(** [math.isnan], i.e. [x != x]. *)
Definition isnan (x : float) : bool := negb (x =? x)%float.

(** [a > b] and [a >= b] are [b < a] and [b <= a]. *)
Definition gt (a b : float) : bool := (b <? a)%float.
Definition ge (a b : float) : bool := (b <=? a)%float.
Definition lt (a b : float) : bool := (a <? b)%float.
Definition le (a b : float) : bool := (a <=? b)%float.
(** [a != b]: true as soon as one side is NaN. *)
Definition ne (a b : float) : bool := negb (a =? b)%float.

(** [float(n)] for a row count. *)
Definition of_nat (n : nat) : float :=
  PrimFloat.of_uint63 (Uint63.of_Z (Z.of_nat n)).

End PyFloat.

(** ** The pandas operations the source calls, on one float64 column

    Sums run left to right; the kernels of pandas may round the last bits
    of a mean or a deviation differently, and no property below depends on
    them. *)

Module Pandas.
Import PyFloat.

Definition dropna (s : list float) : list float :=
  List.filter (fun x => negb (isnan x)) s.

Definition fsum (s : list float) : float :=
  fold_left PrimFloat.add s 0%float.

(** [Series.mean()], NaN skipped; NaN when nothing is left. *)
Definition mean (s : list float) : float :=
  match dropna s with
  | [] => nan
  | v => (fsum v / of_nat (length v))%float
  end.

(** [Series.var(ddof)], NaN skipped; NaN unless more than [ddof] values
    are left. *)
Definition var (ddof : nat) (s : list float) : float :=
  let v := dropna s in
  let n := length v in
  if (n <=? ddof)%nat then nan
  else
    let m := (fsum v / of_nat n)%float in
    (fsum (map (fun x => (x - m) * (x - m))%float v) / of_nat (n - ddof))%float.

(** [Series.std()] has [ddof = 1]. *)
Definition std_ddof (ddof : nat) (s : list float) : float :=
  PrimFloat.sqrt (var ddof s).
Definition std (s : list float) : float := std_ddof 1 s.

(** [Series.max()] and [Series.min()], NaN skipped. *)
Definition max (s : list float) : float :=
  match dropna s with
  | [] => nan
  | x :: v => fold_left (fun acc y => if (acc <? y)%float then y else acc) v x
  end.

Definition min (s : list float) : float :=
  match dropna s with
  | [] => nan
  | x :: v => fold_left (fun acc y => if (y <? acc)%float then y else acc) v x
  end.

(** [f(previous, current)] along the column, the first row having no
    previous value (NaN). *)
Fixpoint pairwise (f : float -> float -> float) (prev : float)
    (s : list float) : list float :=
  match s with
  | [] => []
  | x :: t => f prev x :: pairwise f x t
  end.

(** [Series.diff()]. *)
Definition diff (s : list float) : list float :=
  pairwise (fun prev cur => cur - prev)%float nan s.

(** Forward fill, the default [fill_method='pad'] of [pct_change] in
    pandas before 3.0 (later versions do not fill); it matters only for a
    column with a missing close. *)
Fixpoint ffill_from (last : float) (s : list float) : list float :=
  match s with
  | [] => []
  | x :: t =>
      let y := if isnan x then last else x in
      y :: ffill_from y t
  end.

(** [Series.pct_change()]. *)
Definition pct_change (s : list float) : list float :=
  pairwise (fun prev cur => cur / prev - 1)%float nan (ffill_from nan s).

(** [Series.iloc[a:b]] for [0 <= a <= b]. *)
Definition islice {A} (l : list A) (a b : nat) : list A :=
  skipn a (firstn b l).

(** [Series.iloc[k]] and [Series.iloc[-k]]. *)
Definition iloc {A} (l : list A) (k : nat) : result A :=
  match nth_error l k with
  | Some x => Ok x
  | None => Raise IndexError
  end.

Definition iloc_neg {A} (l : list A) (k : nat) : result A :=
  if ((1 <=? k) && (k <=? length l))%nat then iloc l (length l - k)
  else Raise IndexError.

(** [Series.rolling(window, min_periods=window).agg()]: row [k] sees the
    [window] rows ending at [k]; fewer rows, or a NaN among them, give
    NaN. *)
Definition rolling (window : nat) (agg : list float -> float)
    (s : list float) : list float :=
  map (fun k =>
         if (S k <? window)%nat then nan
         else
           let w := islice s (S k - window) (S k) in
           if forallb (fun x => negb (isnan x)) w then agg w else nan)
      (seq 0 (length s)).

(** The kernel of [Series.ewm(alpha, min_periods, adjust=False).mean()]. *)
Fixpoint ewm_from (alpha : float) (minp : nat) (weighted old_wt : float)
    (nobs : nat) (s : list float) : list float :=
  match s with
  | [] => []
  | cur :: t =>
      let is_obs := negb (isnan cur) in
      let nobs' := (nobs + if is_obs then 1 else 0)%nat in
      let '(weighted', old_wt') :=
        if negb (isnan weighted) then
          let old_wt1 := (old_wt * (1 - alpha))%float in
          if is_obs then
            ((if ne weighted cur
              then ((old_wt1 * weighted + alpha * cur) / (old_wt1 + alpha))%float
              else weighted), 1%float)
          else (weighted, old_wt1)
        else if is_obs then (cur, old_wt) else (weighted, old_wt) in
      (if (minp <=? nobs')%nat then weighted' else nan)
        :: ewm_from alpha minp weighted' old_wt' nobs' t
  end.

Definition ewm (alpha : float) (minp : nat) (s : list float) : list float :=
  match s with
  | [] => []
  | x :: t =>
      let nobs := if isnan x then 0%nat else 1%nat in
      (if (minp <=? nobs)%nat then x else nan) :: ewm_from alpha minp x 1 nobs t
  end.

(** Element-wise arithmetic of two aligned columns. *)
Fixpoint zip_with (f : float -> float -> float) (a b : list float) : list float :=
  match a, b with
  | x :: a', y :: b' => f x y :: zip_with f a' b'
  | _, _ => []
  end.

End Pandas.

(** ** The [ta] indicator library

    The indicator classes are a third-party dependency; they are modelled
    from the library's definitions with [fillna=False] and the default
    windows the source relies on. *)

Module ta.
Import PyFloat Pandas.

Definition _sma (series : list float) (periods : nat) : list float :=
  rolling periods (fun w => fsum w / of_nat periods)%float series.

Definition _ema (series : list float) (periods : nat) : list float :=
  ewm (2 / (of_nat periods + 1))%float periods series.

(** [SMAIndicator(close, window).sma_indicator()] *)
Definition sma_indicator (close : list float) (window : nat) : list float :=
  _sma close window.

(** [EMAIndicator(close, window).ema_indicator()] *)
Definition ema_indicator (close : list float) (window : nat) : list float :=
  _ema close window.

(** [MACD(close)]: slow 26, fast 12, signal 9. *)
Definition macd (close : list float) : list float :=
  zip_with PrimFloat.sub (_ema close 12) (_ema close 26).
Definition macd_signal (close : list float) : list float :=
  _ema (macd close) 9.
Definition macd_diff (close : list float) : list float :=
  zip_with PrimFloat.sub (macd close) (macd_signal close).

(** [RSIIndicator(close).rsi()]: window 14, Wilder smoothing. *)
Definition rsi (close : list float) : list float :=
  let d := diff close in
  let up := map (fun x => if gt x 0 then x else 0%float) d in
  let down := map (fun x => (- (if lt x 0 then x else 0))%float) d in
  let emaup := ewm (1 / 14)%float 14 up in
  let emadn := ewm (1 / 14)%float 14 down in
  zip_with (fun u d => if (d =? 0)%float then 100%float
                       else (100 - 100 / (1 + u / d))%float) emaup emadn.

(** [BollingerBands(close)]: window 20, 2 standard deviations. *)
Definition bollinger_mavg (close : list float) : list float :=
  rolling 20 (fun w => fsum w / of_nat 20)%float close.
Definition bollinger_mstd (close : list float) : list float :=
  rolling 20 (std_ddof 0) close.
Definition bollinger_hband (close : list float) : list float :=
  zip_with (fun m s => m + 2 * s)%float (bollinger_mavg close) (bollinger_mstd close).
Definition bollinger_lband (close : list float) : list float :=
  zip_with (fun m s => m - 2 * s)%float (bollinger_mavg close) (bollinger_mstd close).

(** [StochasticOscillator(high, low, close)]: window 14, smoothing 3. *)
Definition stoch (high low close : list float) : list float :=
  let smin := rolling 14 Pandas.min low in
  let smax := rolling 14 Pandas.max high in
  zip_with (fun num den => 100 * num / den)%float
    (zip_with PrimFloat.sub close smin)
    (zip_with PrimFloat.sub smax smin).
Definition stoch_signal (high low close : list float) : list float :=
  rolling 3 (fun w => fsum w / of_nat 3)%float (stoch high low close).

End ta.

(** ** Data frames: labelled, typed columns *)

Inductive Series : Type :=
| Float64 (xs : list float)      (* numeric column *)
| Object (xs : list string)      (* string column *)
| Datetime64 (xs : list Z).      (* timestamps, nanoseconds since the epoch *)

(** Columns in [df.columns] order. *)
Definition DataFrame : Type := list (string * Series).

Module Frame.

Definition series_len (s : Series) : nat :=
  match s with
  | Float64 xs => length xs
  | Object xs => length xs
  | Datetime64 xs => length xs
  end.

Definition columns (df : DataFrame) : list string := map fst df.

(** [label in df.columns] *)
Definition mem (label : string) (labels : list string) : bool :=
  existsb (String.eqb label) labels.

(** [len(df)] and [df.empty] *)
Definition len (df : DataFrame) : nat :=
  match df with
  | [] => 0
  | (_, s) :: _ => series_len s
  end.

Definition empty (df : DataFrame) : bool := (len df =? 0)%nat.

(** [df[label]] *)
Definition getitem (df : DataFrame) (label : string) : result Series :=
  match List.find (fun c => String.eqb (fst c) label) df with
  | Some c => Ok (snd c)
  | None => Raise (KeyError label)
  end.

(** The column as floats, for the numeric libraries. *)
Definition as_float64 (s : Series) : result (list float) :=
  match s with
  | Float64 xs => Ok xs
  | _ => Raise LibraryError
  end.

Definition getfloat (df : DataFrame) (label : string) : result (list float) :=
  s ← getitem df label; as_float64 s.

(** [df[label] = s]: an existing column is replaced where it stands, a new
    one is appended. *)
Definition setitem (df : DataFrame) (label : string) (s : Series) : DataFrame :=
  if mem label (columns df)
  then map (fun c => if String.eqb (fst c) label then (label, s) else c) df
  else (df ++ [(label, s)])%list.

(** [df.rename(columns={old: new})] *)
Definition rename (df : DataFrame) (old new : string) : DataFrame :=
  map (fun c => if String.eqb (fst c) old then (new, snd c) else c) df.

(** Row selection by a boolean mask, [df[mask]]. *)
Fixpoint select {A} (mask : list bool) (xs : list A) : list A :=
  match mask, xs with
  | m :: mask', x :: xs' => if m then x :: select mask' xs' else select mask' xs'
  | _, _ => []
  end.

Definition series_select (mask : list bool) (s : Series) : Series :=
  match s with
  | Float64 xs => Float64 (select mask xs)
  | Object xs => Object (select mask xs)
  | Datetime64 xs => Datetime64 (select mask xs)
  end.

Definition getmask (df : DataFrame) (mask : list bool) : DataFrame :=
  map (fun c => (fst c, series_select mask (snd c))) df.

(** [series == symbol] *)
Definition eq_str (s : Series) (symbol : string) : list bool :=
  match s with
  | Object xs => map (fun x => String.eqb x symbol) xs
  | Float64 xs => map (fun _ => false) xs
  | Datetime64 xs => map (fun _ => false) xs
  end.

(** Positional reindexing, [take(indexer)]. *)
Definition take_positions {A} (indexer : list nat) (xs : list A) : list A :=
  flat_map (fun i => match nth_error xs i with Some x => [x] | None => [] end) indexer.

Definition series_take (indexer : list nat) (s : Series) : Series :=
  match s with
  | Float64 xs => Float64 (take_positions indexer xs)
  | Object xs => Object (take_positions indexer xs)
  | Datetime64 xs => Datetime64 (take_positions indexer xs)
  end.

(** The ascending indexer of a key column.  Here rows with equal keys keep
    their order; the default sort of pandas does not promise that, and no
    property below depends on the order of rows that share a date. *)
Fixpoint insert_key (k : Z) (i : nat) (l : list (Z * nat)) : list (Z * nat) :=
  match l with
  | [] => [(k, i)]
  | (k', i') :: t =>
      if (k <=? k')%Z then (k, i) :: l else (k', i') :: insert_key k i t
  end.

Definition argsort (keys : list Z) : list nat :=
  map snd (fold_right (fun ki acc => insert_key (fst ki) (snd ki) acc) []
             (combine keys (seq 0 (length keys)))).

(** [df.sort_values(label)] for a timestamp column: a new frame. *)
Definition sort_values (df : DataFrame) (label : string) : result DataFrame :=
  s ← getitem df label;
  match s with
  | Datetime64 keys =>
      let indexer := argsort keys in
      Ok (map (fun c => (fst c, series_take indexer (snd c))) df)
  | _ => Raise LibraryError
  end.

End Frame.

(** ** The object store

    A pandas frame is a mutable object: [df[label] = ...] and
    [rename(..., inplace=True)] change the object every alias sees, while
    [sort_values] and [.copy()] build a new one.  Frames live in a heap and
    the Python variables hold their addresses. *)

Definition loc : Type := positive.
Abbreviation heap := (gmap positive DataFrame).

Definition M (A : Type) : Type := heap -> result A * heap.

#[global] Instance M_ret : MRet M := fun A a h => (Ok a, h).
#[global] Instance M_bind : MBind M := fun A B k m h =>
  match m h with
  | (Ok a, h') => k a h'
  | (Raise e, h') => (Raise e, h')
  end.

Module Store.

Definition lift {A} (x : result A) : M A := fun h => (x, h).

Definition raise {A} (e : exn) : M A := fun h => (Raise e, h).

(** Dereference.  The source only dereferences live objects; an address
    without an object is reported as [LibraryError]. *)
Definition load (r : loc) : M DataFrame := fun h =>
  match h !! r with
  | Some df => (Ok df, h)
  | None => (Raise LibraryError, h)
  end.

Definition store (r : loc) (df : DataFrame) : M unit := fun h =>
  (Ok tt, <[r := df]> h).

(** A new object at an unused address. *)
Definition alloc (df : DataFrame) : M loc := fun h =>
  let r := fresh (dom h) in (Ok r, <[r := df]> h).

(** [try: body except Exception: handler] *)
Definition try_except {A} (body : M A) (handler : exn -> M A) : M A := fun h =>
  match body h with
  | (Ok a, h') => (Ok a, h')
  | (Raise e, h') => handler e h'
  end.

(** [df[label]] as floats and [df[label] = s] on the object at [df]. *)
Definition df_getfloat (df : loc) (label : string) : M (list float) :=
  d ← load df; lift (Frame.getfloat d label).

Definition df_setitem (df : loc) (label : string) (s : Series) : M unit :=
  d ← load df; store df (Frame.setitem d label s).

End Store.

(** ** [app.py]: the per-ticker indicator helper *)

Module App.
Import Store.

(** [add_technical_indicators(df)]: returns the address it was given. *)
Definition add_technical_indicators (df : loc) : M loc :=
  d ← load df;
  if Frame.empty d then mret df
  else
    try_except
      (close ← df_getfloat df "close";
       df_setitem df "SMA_20" (Float64 (ta.sma_indicator close 20));;
       close ← df_getfloat df "close";
       df_setitem df "SMA_50" (Float64 (ta.sma_indicator close 50));;
       close ← df_getfloat df "close";
       df_setitem df "RSI" (Float64 (ta.rsi close));;
       close ← df_getfloat df "close";
       df_setitem df "MACD" (Float64 (ta.macd close));;
       df_setitem df "MACD_Signal" (Float64 (ta.macd_signal close));;
       mret df)
      (fun _ => mret df).

(** The columns [add_technical_indicators] assigns. *)
Definition indicator_columns : list string :=
  ["SMA_20"; "SMA_50"; "RSI"; "MACD"; "MACD_Signal"].

Section Formatting.

(** The format specifications [.2f] and [,.0f] of the f-strings. *)
Variable fmt_2f : float -> string.
Variable fmt_thousands : float -> string.

(** [calculate_statistics(df)] on the augmented frame of one ticker. *)
Definition calculate_statistics (df : DataFrame) : result (list (string * string)) :=
  close ← Frame.getfloat df "close";
  current ← Pandas.iloc_neg close 1;
  high ← Frame.getfloat df "high";
  low ← Frame.getfloat df "low";
  volume ← Frame.getfloat df "volume";
  rsi ← Frame.getfloat df "RSI";
  last_rsi ← Pandas.iloc_neg rsi 1;
  macd ← Frame.getfloat df "MACD";
  last_macd ← Pandas.iloc_neg macd 1;
  Ok [ ("Current Price", "$" ++ fmt_2f current);
       ("52 Week High", "$" ++ fmt_2f (Pandas.max high));
       ("52 Week Low", "$" ++ fmt_2f (Pandas.min low));
       ("Average Volume", fmt_thousands (Pandas.mean volume));
       ("RSI", fmt_2f last_rsi);
       ("MACD", fmt_2f last_macd) ].

End Formatting.

End App.

(** ** [stock_analyzer.py]: loading *)

Module StockAnalyzer.
Import Store.

(** [column_mapping], in the order the dictionary is written. *)
Definition column_mapping : list (string * string) :=
  [ ("date", "Date"); ("timestamp", "Date"); ("datetime", "Date");
    ("symbol", "Name"); ("ticker", "Name"); ("name", "Name"); ("Name", "Name");
    ("open", "Open"); ("high", "High"); ("low", "Low"); ("close", "Close");
    ("volume", "Volume") ].

Definition required_columns : list string :=
  ["Date"; "Name"; "Open"; "High"; "Low"; "Close"; "Volume"].

(** One turn of the renaming loop. *)
Definition rename_step (df : DataFrame) (m : string * string) : DataFrame :=
  let (old_col, new_col) := m in
  if Frame.mem old_col (Frame.columns df) && negb (Frame.mem new_col (Frame.columns df))
  then Frame.rename df old_col new_col
  else df.

Definition missing_columns (df : DataFrame) : list string :=
  List.filter (fun col => negb (Frame.mem col (Frame.columns df))) required_columns.

(** [calculate_technical_indicators(self)]: fourteen column assignments on
    the frame [self.df] refers to. *)
Definition calculate_technical_indicators (self_df : loc) : M unit :=
  close ← df_getfloat self_df "Close";
  df_setitem self_df "SMA_20" (Float64 (ta.sma_indicator close 20));;
  close ← df_getfloat self_df "Close";
  df_setitem self_df "SMA_50" (Float64 (ta.sma_indicator close 50));;
  close ← df_getfloat self_df "Close";
  df_setitem self_df "SMA_200" (Float64 (ta.sma_indicator close 200));;
  close ← df_getfloat self_df "Close";
  df_setitem self_df "EMA_20" (Float64 (ta.ema_indicator close 20));;
  close ← df_getfloat self_df "Close";
  df_setitem self_df "EMA_50" (Float64 (ta.ema_indicator close 50));;
  close ← df_getfloat self_df "Close";
  df_setitem self_df "MACD" (Float64 (ta.macd close));;
  df_setitem self_df "MACD_Signal" (Float64 (ta.macd_signal close));;
  df_setitem self_df "MACD_Hist" (Float64 (ta.macd_diff close));;
  close ← df_getfloat self_df "Close";
  df_setitem self_df "RSI" (Float64 (ta.rsi close));;
  close ← df_getfloat self_df "Close";
  df_setitem self_df "BB_Upper" (Float64 (ta.bollinger_hband close));;
  df_setitem self_df "BB_Lower" (Float64 (ta.bollinger_lband close));;
  df_setitem self_df "BB_Middle" (Float64 (ta.bollinger_mavg close));;
  high ← df_getfloat self_df "High";
  low ← df_getfloat self_df "Low";
  close ← df_getfloat self_df "Close";
  df_setitem self_df "Stoch_K" (Float64 (ta.stoch high low close));;
  df_setitem self_df "Stoch_D" (Float64 (ta.stoch_signal high low close)).

(** The columns [calculate_technical_indicators] assigns. *)
Definition indicator_columns : list string :=
  ["SMA_20"; "SMA_50"; "SMA_200"; "EMA_20"; "EMA_50"; "MACD"; "MACD_Signal";
   "MACD_Hist"; "RSI"; "BB_Upper"; "BB_Lower"; "BB_Middle"; "Stoch_K"; "Stoch_D"].

Section Loading.

(** [pd.to_datetime] on a column: the parsed timestamps, or nothing when
    pandas cannot parse it (the call raises). *)
Variable to_datetime : Series -> option (list Z).

(** [process_data(self)]: renames in place, checks the header, parses and
    sorts (a new frame, to which [self.df] is rebound), then augments.
    The result is the address [self.df] holds at the end. *)
Definition process_data (self_df : loc) : M loc :=
  d ← load self_df;
  store self_df (fold_left rename_step column_mapping d);;
  d ← load self_df;
  match missing_columns d with
  | (_ :: _) as missing => raise (MissingColumns missing)
  | [] =>
      dates ← lift (s ← Frame.getitem d "Date";
                    match to_datetime s with
                    | Some ts => Ok ts
                    | None => Raise LibraryError
                    end);
      df_setitem self_df "Date" (Datetime64 dates);;
      d ← load self_df;
      sorted ← lift (Frame.sort_values d "Date");
      self_df' ← alloc sorted;
      calculate_technical_indicators self_df';;
      mret self_df'
  end.

End Loading.

End StockAnalyzer.

(** ** The loaded table, row by row

    After [process_data] every row of [self.df] carries the seven raw
    fields and the fourteen indicator cells. *)

Record Row : Type := {
  Date : Z; Name : string;
  Open : float; High : float; Low : float; Close : float; Volume : float;
  SMA_20 : float; SMA_50 : float; SMA_200 : float;
  EMA_20 : float; EMA_50 : float;
  MACD : float; MACD_Signal : float; MACD_Hist : float;
  RSI : float;
  BB_Upper : float; BB_Lower : float; BB_Middle : float;
  Stoch_K : float; Stoch_D : float
}.

(** The rows of a frame that has all twenty-one columns, one per date. *)
Definition frame_rows (df : DataFrame) : result (list Row) :=
  s ← Frame.getitem df "Date";
  dates ← match s with Datetime64 ts => Ok ts | _ => Raise LibraryError end;
  s ← Frame.getitem df "Name";
  names ← match s with Object xs => Ok xs | _ => Raise LibraryError end;
  let col := Frame.getfloat df in
  open ← col "Open"; high ← col "High"; low ← col "Low"; close ← col "Close";
  volume ← col "Volume";
  sma20 ← col "SMA_20"; sma50 ← col "SMA_50"; sma200 ← col "SMA_200";
  ema20 ← col "EMA_20"; ema50 ← col "EMA_50";
  macd ← col "MACD"; signal ← col "MACD_Signal"; hist ← col "MACD_Hist";
  rsi ← col "RSI";
  upper ← col "BB_Upper"; lower ← col "BB_Lower"; middle ← col "BB_Middle";
  k ← col "Stoch_K"; d ← col "Stoch_D";
  let at_ (xs : list float) (i : nat) := nth i xs nan in
  Ok (map (fun i =>
             {| Date := nth i dates 0%Z; Name := nth i names "";
                Open := at_ open i; High := at_ high i; Low := at_ low i;
                Close := at_ close i; Volume := at_ volume i;
                SMA_20 := at_ sma20 i; SMA_50 := at_ sma50 i; SMA_200 := at_ sma200 i;
                EMA_20 := at_ ema20 i; EMA_50 := at_ ema50 i;
                MACD := at_ macd i; MACD_Signal := at_ signal i; MACD_Hist := at_ hist i;
                RSI := at_ rsi i;
                BB_Upper := at_ upper i; BB_Lower := at_ lower i; BB_Middle := at_ middle i;
                Stoch_K := at_ k i; Stoch_D := at_ d i |})
          (seq 0 (length dates))).

(** ** [stock_analyzer.py]: pattern detection *)

(** One dictionary appended to [patterns]. *)
Record PatternEvent : Type := {
  date : Z;
  pattern : string;
  confidence : string;
  description : string
}.

Module Patterns.
Import PyFloat Pandas.

(** [self.df[self.df['Name'] == symbol].copy()] *)
Definition rows_of_symbol (df : list Row) (symbol : string) : list Row :=
  List.filter (fun r => String.eqb (Name r) symbol) df.

Definition event (current : Row) (pattern confidence description : string)
    : PatternEvent :=
  {| date := Date current; pattern := pattern; confidence := confidence;
     description := description |}.

(** The body of the loop [for i in range(window, len(stock_data))]. *)
Definition patterns_at (stock_data : list Row) (window i : nat)
    : result (list PatternEvent) :=
  let window_data := islice stock_data (i - window) i in
  current ← iloc stock_data i;
  let current_price := Close current in
  let close := map Close window_data in
  let trend :=
    if forallb (fun d => gt d 0) (dropna (diff close)) then
      [event current "Strong Uptrend" "High" "Consistent upward price movement"]
    else if forallb (fun d => lt d 0) (dropna (diff close)) then
      [event current "Strong Downtrend" "High" "Consistent downward price movement"]
    else if lt (std close) (mean close * 0.02)%float then
      [event current "Consolidation" "Medium" "Price moving sideways in a tight range"]
    else [] in
  before ← iloc_neg window_data 2;
  last ← iloc_neg window_data 1;
  let golden :=
    if le (SMA_50 before) (SMA_200 before) && gt (SMA_50 last) (SMA_200 last) then
      [event current "Golden Cross" "High" "50-day SMA crosses above 200-day SMA"]
    else [] in
  let death :=
    if ge (SMA_50 before) (SMA_200 before) && lt (SMA_50 last) (SMA_200 last) then
      [event current "Death Cross" "High" "50-day SMA crosses below 200-day SMA"]
    else [] in
  let momentum :=
    if gt (RSI last) 70 then
      [event current "Overbought" "Medium"
         "RSI above 70 indicates potential overbought condition"]
    else if lt (RSI last) 30 then
      [event current "Oversold" "Medium"
         "RSI below 30 indicates potential oversold condition"]
    else [] in
  let band :=
    if gt current_price (BB_Upper last) then
      [event current "Above Upper Band" "Medium" "Price above upper Bollinger Band"]
    else if lt current_price (BB_Lower last) then
      [event current "Below Lower Band" "Medium" "Price below lower Bollinger Band"]
    else [] in
  Ok (trend ++ golden ++ death ++ momentum ++ band)%list.

(** [identify_patterns(self, symbol, window=20)] *)
Definition identify_patterns (df : list Row) (symbol : string) (window : nat)
    : result (list PatternEvent) :=
  let stock_data := rows_of_symbol df symbol in
  match stock_data with
  | [] => Raise (NoDataFound symbol)
  | _ :: _ =>
      let price_change := pct_change (map Close stock_data) in
      let volume_change := pct_change (map Volume stock_data) in
      fold_left
        (fun acc i =>
           patterns ← acc;
           found ← patterns_at stock_data window i;
           Ok (patterns ++ found)%list)
        (seq window (length stock_data - window))
        (Ok [])
  end.

End Patterns.

(** ** [stock_analyzer.py]: summary statistics *)

Module Summary.
Import PyFloat Pandas.

Definition daily_returns (stock_data : list Row) : list float :=
  pct_change (map Close stock_data).

Definition annualized_return (stock_data : list Row) : float :=
  (mean (daily_returns stock_data) * 252)%float.

Definition annualized_volatility (stock_data : list Row) : float :=
  (std (daily_returns stock_data) * PrimFloat.sqrt 252)%float.

Definition sharpe_ratio (stock_data : list Row) : float :=
  if ne (annualized_volatility stock_data) 0
  then (annualized_return stock_data / annualized_volatility stock_data)%float
  else 0%float.

Section Formatting.

(** The format specifications [.2f], [.2%] and [,.0f] of the f-strings. *)
Variable fmt_2f : float -> string.
Variable fmt_pct : float -> string.
Variable fmt_thousands : float -> string.

(** [get_stock_summary(self, symbol)]: the dictionary, key by key. *)
Definition get_stock_summary (df : list Row) (symbol : string)
    : result (list (string * string)) :=
  let stock_data := Patterns.rows_of_symbol df symbol in
  match stock_data with
  | [] => Raise (NoDataFound symbol)
  | _ :: _ =>
      last ← iloc_neg stock_data 1;
      Ok [ ("Symbol", symbol);
           ("Current Price", "$" ++ fmt_2f (Close last));
           ("52-Week High", "$" ++ fmt_2f (Pandas.max (map High stock_data)));
           ("52-Week Low", "$" ++ fmt_2f (Pandas.min (map Low stock_data)));
           ("Average Volume", fmt_thousands (mean (map Volume stock_data)));
           ("Volatility", fmt_pct (annualized_volatility stock_data));
           ("Annual Return", fmt_pct (annualized_return stock_data));
           ("Sharpe Ratio", fmt_2f (sharpe_ratio stock_data));
           ("RSI", fmt_2f (RSI last));
           ("MACD", fmt_2f (MACD last));
           ("SMA_20", "$" ++ fmt_2f (SMA_20 last));
           ("SMA_50", "$" ++ fmt_2f (SMA_50 last));
           ("SMA_200", "$" ++ fmt_2f (SMA_200 last)) ]
  end.

End Formatting.

End Summary.

(** ** Vocabulary of the properties *)

(** [d[key]] on a dictionary written as a list of items. *)
Definition dict_get (key : string) (d : list (string * string)) : option string :=
  option_map snd (List.find (fun kv => String.eqb (fst kv) key) d).

(** Whether an event of the given kind is among [events], and how many
    events of a group of kinds there are. *)
Definition fired (kind : string) (events : list PatternEvent) : bool :=
  existsb (fun e => String.eqb (pattern e) kind) events.

Definition count_of (kinds : list string) (events : list PatternEvent) : nat :=
  length (List.filter (fun e => Frame.mem (pattern e) kinds) events).


Definition trend_kinds : list string :=
  ["Strong Uptrend"; "Strong Downtrend"; "Consolidation"].
Definition crossover_kinds : list string := ["Golden Cross"; "Death Cross"].
Definition momentum_kinds : list string := ["Overbought"; "Oversold"].
Definition band_kinds : list string := ["Above Upper Band"; "Below Lower Band"].

(** The header labels [process_data] accepts for each required column:
    the column itself and the keys of [column_mapping] that rename to it. *)
Definition accepted_labels : list (string * list string) :=
  [ ("Date", ["Date"; "date"; "timestamp"; "datetime"]);
    ("Name", ["Name"; "symbol"; "ticker"; "name"]);
    ("Open", ["Open"; "open"]);
    ("High", ["High"; "high"]);
    ("Low", ["Low"; "low"]);
    ("Close", ["Close"; "close"]);
    ("Volume", ["Volume"; "volume"]) ].

Definition header_accepted (labels : list string) : bool :=
  forallb (fun field => existsb (fun l => Frame.mem l labels) (snd field))
          accepted_labels.


(** The greatest and the least of the values of a column that are not NaN. *)
Definition greatest_of (s : list float) (m : float) : Prop :=
  (forall x, In x s -> PyFloat.isnan x = false -> PyFloat.le x m = true) /\
  ((exists x, In x s /\ PyFloat.isnan x = false) -> In m s).

Definition least_of (s : list float) (m : float) : Prop :=
  (forall x, In x s -> PyFloat.isnan x = false -> PyFloat.le m x = true) /\
  ((exists x, In x s /\ PyFloat.isnan x = false) -> In m s).

(** Order among comparison results: less than or equal. *)
Definition at_most (c : option comparison) : bool :=
  match c with
  | Some (Lt | Eq) => true
  | _ => false
  end.

Module Turn.
Import PyFloat Pandas Patterns.

(** The events of one turn of the loop, given what the turn reads: the
    closes of the window, the window's last two rows and the current row. *)
Definition window_events (close : list float) (before last current : Row)
    : list PatternEvent :=
  ((if forallb (fun d => gt d 0) (dropna (diff close)) then
      [event current "Strong Uptrend" "High" "Consistent upward price movement"]
    else if forallb (fun d => lt d 0) (dropna (diff close)) then
      [event current "Strong Downtrend" "High" "Consistent downward price movement"]
    else if lt (std close) (mean close * 0.02)%float then
      [event current "Consolidation" "Medium" "Price moving sideways in a tight range"]
    else [])
   ++ (if le (SMA_50 before) (SMA_200 before) && gt (SMA_50 last) (SMA_200 last) then
         [event current "Golden Cross" "High" "50-day SMA crosses above 200-day SMA"]
       else [])
   ++ (if ge (SMA_50 before) (SMA_200 before) && lt (SMA_50 last) (SMA_200 last) then
         [event current "Death Cross" "High" "50-day SMA crosses below 200-day SMA"]
       else [])
   ++ (if gt (RSI last) 70 then
         [event current "Overbought" "Medium"
            "RSI above 70 indicates potential overbought condition"]
       else if lt (RSI last) 30 then
         [event current "Oversold" "Medium"
            "RSI below 30 indicates potential oversold condition"]
       else [])
   ++ (if gt (Close current) (BB_Upper last) then
         [event current "Above Upper Band" "Medium" "Price above upper Bollinger Band"]
       else if lt (Close current) (BB_Lower last) then
         [event current "Below Lower Band" "Medium" "Price below lower Bollinger Band"]
       else []))%list.

(** The events of the turn at [i]. *)
Definition turn_events (stock_data : list Row) (window i : nat) : list PatternEvent :=
  match patterns_at stock_data window i with
  | Ok found => found
  | Raise _ => []
  end.

End Turn.

Module Effects.
Import Frame Store.

(** The errors of pandas itself, as opposed to the two ValueErrors the
    source raises. *)
Definition from_library (e : exn) : Prop :=
  match e with
  | KeyError _ | IndexError | LibraryError => True
  | NoDataFound _ | MissingColumns _ => False
  end.

Definition raises_library {A} (m : M A) : Prop :=
  forall h e h', m h = (Raise e, h') -> from_library e.

(** Columns outside [labels] are the same in [d'] as in [d]. *)
Definition untouched (labels : list string) (d d' : DataFrame) : Prop :=
  forall l, mem l labels = false -> getitem d' l = getitem d l.

End Effects.

Module Spec.

(** The specification's reading of the header check: labels are compared
    without regard to letter case. *)
Definition lower_ascii (c : ascii) : ascii :=
  let n := nat_of_ascii c in
  if ((65 <=? n) && (n <=? 90))%nat then ascii_of_nat (n + 32) else c.

Fixpoint lowercase (s : string) : string :=
  match s with
  | EmptyString => EmptyString
  | String c t => String (lower_ascii c) (lowercase t)
  end.

Definition header_accepted (labels : list string) : bool :=
  forallb (fun field =>
             existsb (fun l => Frame.mem (lowercase l) (map lowercase labels))
                     (snd field))
          accepted_labels.

End Spec.

(** ** Sample data *)

Module Sample.

(** A date reader for frames whose dates are timestamps already. *)
Definition already_parsed (s : Series) : option (list Z) :=
  match s with
  | Datetime64 ts => Some ts
  | _ => None
  end.

(** Twenty business days: nineteen bars of ticker T at price [other], then
    one bar of ticker S at price 1. *)
Definition quotes (other : float) : DataFrame :=
  let price := (repeat other 19 ++ [1%float])%list in
  [ ("date", Datetime64 (map Z.of_nat (seq 1 20)));
    ("Name", Object (repeat "T" 19 ++ ["S"])%list);
    ("open", Float64 price); ("high", Float64 price); ("low", Float64 price);
    ("close", Float64 price); ("volume", Float64 price) ].

(** [StockAnalyzer(csv)] on a frame read from the file: the loaded frame. *)
Definition loaded (csv : DataFrame) : result DataFrame :=
  let h : heap := {[ 1%positive := csv ]} in
  match StockAnalyzer.process_data already_parsed 1%positive h with
  | (Ok self_df, h') =>
      match h' !! self_df with
      | Some df => Ok df
      | None => Raise LibraryError
      end
  | (Raise e, _) => Raise e
  end.

(** The rows of one symbol, [df[df['Name'] == symbol]]. *)
Definition of_symbol (df : DataFrame) (symbol : string) : result DataFrame :=
  names ← Frame.getitem df "Name";
  Ok (Frame.getmask df (Frame.eq_str names symbol)).

(** A bar with every numeric cell equal to [x]. *)
Definition bar (day : Z) (symbol : string) (x : float) : Row :=
  {| Date := day; Name := symbol;
     Open := x; High := x; Low := x; Close := x; Volume := x;
     SMA_20 := x; SMA_50 := x; SMA_200 := x; EMA_20 := x; EMA_50 := x;
     MACD := x; MACD_Signal := x; MACD_Hist := x; RSI := x;
     BB_Upper := x; BB_Lower := x; BB_Middle := x; Stoch_K := x; Stoch_D := x |}.

(** [n] consecutive days of ticker S, every cell 50. *)
Definition flat (n : nat) : list Row :=
  map (fun k => bar (Z.of_nat k) "S" 50) (seq 0 n).

(** What detection finds on 22 flat days. *)
Definition flat_events : list PatternEvent :=
  [ {| date := 20; pattern := "Consolidation"; confidence := "Medium";
       description := "Price moving sideways in a tight range" |};
    {| date := 21; pattern := "Consolidation"; confidence := "Medium";
       description := "Price moving sideways in a tight range" |} ].

(** A header in capitals. *)
Definition capitals : DataFrame :=
  [ ("DATE", Datetime64 [1%Z]); ("TICKER", Object ["S"]);
    ("OPEN", Float64 [1%float]); ("HIGH", Float64 [1%float]);
    ("LOW", Float64 [1%float]); ("CLOSE", Float64 [1%float]);
    ("VOLUME", Float64 [1%float]) ].

(** One ticker, one bar, before augmentation ([app.py] layout). *)
Definition one_bar : DataFrame :=
  [ ("open", Float64 [1%float]); ("high", Float64 [1%float]);
    ("low", Float64 [1%float]); ("close", Float64 [1%float]);
    ("volume", Float64 [1%float]); ("Name", Object ["S"]) ].

(** One ticker, one day, in the layout of [stock_analyzer.py]. *)
Definition one_day : DataFrame :=
  [ ("Date", Datetime64 [1%Z]); ("Name", Object ["S"]);
    ("Open", Float64 [1%float]); ("High", Float64 [1%float]);
    ("Low", Float64 [1%float]); ("Close", Float64 [1%float]);
    ("Volume", Float64 [1%float]) ].

(** [one_bar] after [add_technical_indicators]. *)
Definition one_bar_stats : DataFrame :=
  [ ("open", Float64 [1%float]); ("high", Float64 [1%float]);
    ("low", Float64 [1%float]); ("close", Float64 [1%float]);
    ("volume", Float64 [1%float]); ("Name", Object ["S"]);
    ("SMA_20", Float64 [nan]); ("SMA_50", Float64 [nan]);
    ("RSI", Float64 [nan]); ("MACD", Float64 [nan]);
    ("MACD_Signal", Float64 [nan]) ].

(** A formatter that prints nothing, and what the two summaries are then. *)
Definition blank (x : float) : string := "".

Definition blank_summary : list (string * string) :=
  [ ("Symbol", "S"); ("Current Price", "$"); ("52-Week High", "$");
    ("52-Week Low", "$"); ("Average Volume", ""); ("Volatility", "");
    ("Annual Return", ""); ("Sharpe Ratio", ""); ("RSI", ""); ("MACD", "");
    ("SMA_20", "$"); ("SMA_50", "$"); ("SMA_200", "$") ].

Definition blank_stats : list (string * string) :=
  [ ("Current Price", "$"); ("52 Week High", "$"); ("52 Week Low", "$");
    ("Average Volume", ""); ("RSI", ""); ("MACD", "") ].

End Sample.

Module Repeated.

(** A bar of ticker S at price 50 with the given RSI and both Bollinger
    bands at [band]. *)
Definition bar (day : Z) (rsi band : float) : Row :=
  {| Date := day; Name := "S";
     Open := 50; High := 50; Low := 50; Close := 50; Volume := 50;
     SMA_20 := 50; SMA_50 := 50; SMA_200 := 50; EMA_20 := 50; EMA_50 := 50;
     MACD := 50; MACD_Signal := 50; MACD_Hist := 50; RSI := rsi;
     BB_Upper := band; BB_Lower := band; BB_Middle := 50;
     Stoch_K := 50; Stoch_D := 50 |}.


(** What detection finds on them: the turns at the last two bars both
    stamp the date 20. *)
Definition events : list PatternEvent :=
  [ {| date := 20; pattern := "Consolidation"; confidence := "Medium";
       description := "Price moving sideways in a tight range" |};
    {| date := 20; pattern := "Overbought"; confidence := "Medium";
       description := "RSI above 70 indicates potential overbought condition" |};
    {| date := 20; pattern := "Above Upper Band"; confidence := "Medium";
       description := "Price above upper Bollinger Band" |};
    {| date := 20; pattern := "Consolidation"; confidence := "Medium";
       description := "Price moving sideways in a tight range" |};
    {| date := 20; pattern := "Oversold"; confidence := "Medium";
       description := "RSI below 30 indicates potential oversold condition" |};
    {| date := 20; pattern := "Below Lower Band"; confidence := "Medium";
       description := "Price below lower Bollinger Band" |} ].

End Repeated.

(** ** Further models and vocabulary *)

(** The frame [calculate_technical_indicators] leaves when its three reads
    succeed. *)
Definition augmented (d : DataFrame) (close high low : list float) : DataFrame :=
  fold_left (fun df ls => Frame.setitem df (fst ls) (Float64 (snd ls)))
    [ ("SMA_20", ta.sma_indicator close 20);
      ("SMA_50", ta.sma_indicator close 50);
      ("SMA_200", ta.sma_indicator close 200);
      ("EMA_20", ta.ema_indicator close 20);
      ("EMA_50", ta.ema_indicator close 50);
      ("MACD", ta.macd close);
      ("MACD_Signal", ta.macd_signal close);
      ("MACD_Hist", ta.macd_diff close);
      ("RSI", ta.rsi close);
      ("BB_Upper", ta.bollinger_hband close);
      ("BB_Lower", ta.bollinger_lband close);
      ("BB_Middle", ta.bollinger_mavg close);
      ("Stoch_K", ta.stoch high low close);
      ("Stoch_D", ta.stoch_signal high low close) ]
    d.

(** The keys of the summary, in the order the dictionary is written. *)
Definition summary_keys : list string :=
  ["Symbol"; "Current Price"; "52-Week High"; "52-Week Low"; "Average Volume";
   "Volatility"; "Annual Return"; "Sharpe Ratio"; "RSI"; "MACD";
   "SMA_20"; "SMA_50"; "SMA_200"].

Module Cases.

(** Bars whose every numeric cell is NaN. *)
Definition undefined (n : nat) : list Row :=
  map (fun k => Sample.bar (Z.of_nat k) "S" nan) (seq 0 n).

(** The heap after loading [Sample.quotes 2] from address 1: the loaded
    frame is the new object at address 2. *)
Definition loaded_heap : heap :=
  snd (StockAnalyzer.process_data Sample.already_parsed 1%positive
         {[ 1%positive := Sample.quotes 2 ]}).

End Cases.

(** A frame whose columns all have [n] rows, as every pandas frame has. *)
Definition rectangular (n : nat) (d : DataFrame) : Prop :=
  Forall (fun c => Frame.series_len (snd c) = n) d.

Module History.

(** [n] consecutive days of ticker S in the layout of the CSV file, the
    price rising by 1 a day from 1. *)
Definition rising (n : nat) : DataFrame :=
  let price := map (fun k => PyFloat.of_nat k) (seq 1 n) in
  [ ("date", Datetime64 (map Z.of_nat (seq 1 n)));
    ("Name", Object (repeat "S" n));
    ("open", Float64 price); ("high", Float64 price); ("low", Float64 price);
    ("close", Float64 price); ("volume", Float64 price) ].

(** The heap, the frame and the table after loading [rising 30]. *)
Definition loaded_heap : heap :=
  snd (StockAnalyzer.process_data Sample.already_parsed 1%positive
         {[ 1%positive := rising 30 ]}).

Definition loaded_frame : DataFrame := default [] (loaded_heap !! 2%positive).

Definition loaded_rows : list Row :=
  match frame_rows loaded_frame with
  | Ok rows => rows
  | Raise _ => []
  end.

Definition events : list PatternEvent :=
  match Patterns.identify_patterns loaded_rows "S" 20 with
  | Ok events => events
  | Raise _ => []
  end.

End History.

(** ** [app.py]: the [/analyze] route *)

Module Dashboard.
Import Store.

(** What the view returns: a redirect to an endpoint with the message
    flashed, or the dashboard template with its context. *)
Inductive response : Type :=
| Redirect (endpoint : string) (flashed : string)
| Render (plot_div : string) (ticker : string) (stats : list (string * string)).

(** [df[df['Name'] == ticker]] *)
Definition selection (d : DataFrame) (ticker : string) : result DataFrame :=
  names ← Frame.getitem d "Name";
  Ok (Frame.getmask d (Frame.eq_str names ticker)).

Section Views.

Variable fmt_2f : float -> string.
Variable fmt_thousands : float -> string.

(** [create_plot(df, ticker)]: the HTML of the plotly figure.  It reads the
    frame, assigns nothing and catches its own exceptions. *)
Variable create_plot : DataFrame -> string -> string.

(** [analyze()] for the form field [ticker]; [df] is the module-level
    frame.  The selection is copied: a new frame object. *)
Definition analyze (df : loc) (ticker : string) : M response :=
  d ← load df;
  rows ← lift (selection d ticker);
  stock_data ← alloc rows;
  d ← load stock_data;
  if Frame.empty d then
    mret (Redirect "dashboard" "No data found for the selected stock")
  else
    stock_data ← App.add_technical_indicators stock_data;
    d ← load stock_data;
    let plot_div := create_plot d ticker in
    stats ← lift (App.calculate_statistics fmt_2f fmt_thousands d);
    mret (Render plot_div ticker stats).

End Views.

End Dashboard.

(** The frame [add_technical_indicators] leaves at the address it is
    given. *)
Definition with_indicators (d : DataFrame) : DataFrame :=
  if Frame.empty d then d
  else match Frame.getfloat d "close" with
       | Ok close =>
           fold_left (fun df ls => Frame.setitem df (fst ls) (Float64 (snd ls)))
             [ ("SMA_20", ta.sma_indicator close 20);
               ("SMA_50", ta.sma_indicator close 50);
               ("RSI", ta.rsi close);
               ("MACD", ta.macd close);
               ("MACD_Signal", ta.macd_signal close) ]
             d
       | Raise _ => d
       end.

(** How many rows a mask selects. *)
Definition selected (mask : list bool) : nat := length (List.filter id mask).

Module Market.

(** A plotting function that draws nothing. *)
Definition no_plot (d : DataFrame) (ticker : string) : string := "".

(** The names of [Sample.quotes]. *)
Definition names : list string := (repeat "T" 19 ++ ["S"])%list.

(** The prices of [Sample.quotes 2]. *)
Definition prices : list float := (repeat 2%float 19 ++ [1%float])%list.

End Market.

(** The columns [calculate_technical_indicators] derives from Close alone,
    in the order it assigns them. *)
Definition close_indicator_columns : list string :=
  ["SMA_20"; "SMA_50"; "SMA_200"; "EMA_20"; "EMA_50"; "MACD"; "MACD_Signal";
   "MACD_Hist"; "RSI"; "BB_Upper"; "BB_Lower"; "BB_Middle"].

Module Broken.

(** One bar whose High is text. *)
Definition text_high : DataFrame :=
  [ ("Date", Datetime64 [1%Z]); ("Name", Object ["S"]);
    ("Open", Float64 [1%float]); ("High", Object ["n/a"]);
    ("Low", Float64 [1%float]); ("Close", Float64 [1%float]);
    ("Volume", Float64 [1%float]) ].

(** One ticker, one bar, without a close column. *)
Definition no_close : DataFrame :=
  [ ("open", Float64 [1%float]); ("high", Float64 [1%float]);
    ("low", Float64 [1%float]); ("volume", Float64 [1%float]);
    ("Name", Object ["S"]) ].

End Broken.

(** ** [stock_analyzer.py]: the figure *)

(** A trace of the plotly figure with the data it is given; colours and
    line styles are left out. *)
Inductive Trace : Type :=
| Candlestick (name : string) (x : list Z) (open high low close : list float)
| Scatter (name : string) (x : list Z) (y : list float)
| Bar (name : string) (x : list Z) (y : list float).

Record Figure : Type := {
  traces : list (Trace * nat);   (* each trace with the row of its subplot *)
  hlines : list (float * nat);
  title : string
}.

(** A date bound of the request: none given (None or the empty string,
    both false in [if start_date:]), a date, or text pandas cannot compare
    with a timestamp. *)
Inductive bound : Type :=
| Unbounded
| At (t : Z)
| Unparsable.

Module Plot.
Import Pandas.

(** [stock_data[stock_data['Date'] >= start_date]] *)
Definition from (start_date : bound) (stock_data : list Row) : result (list Row) :=
  match start_date with
  | Unbounded => Ok stock_data
  | At t => Ok (List.filter (fun r => (t <=? Date r)%Z) stock_data)
  | Unparsable => Raise LibraryError
  end.

(** [stock_data[stock_data['Date'] <= end_date]] *)
Definition upto (end_date : bound) (stock_data : list Row) : result (list Row) :=
  match end_date with
  | Unbounded => Ok stock_data
  | At t => Ok (List.filter (fun r => (Date r <=? t)%Z) stock_data)
  | Unparsable => Raise LibraryError
  end.

(** [plot_stock_trend(self, symbol, start_date, end_date)] *)
Definition plot_stock_trend (df : list Row) (symbol : string)
    (start_date end_date : bound) : result Figure :=
  let stock_data := Patterns.rows_of_symbol df symbol in
  match stock_data with
  | [] => Raise (NoDataFound symbol)
  | _ :: _ =>
      stock_data ← from start_date stock_data;
      stock_data ← upto end_date stock_data;
      let x := map Date stock_data in
      Ok {| traces :=
              [ (Candlestick "OHLC" x (map Open stock_data) (map High stock_data)
                   (map Low stock_data) (map Close stock_data), 1);
                (Scatter "SMA 20" x (map SMA_20 stock_data), 1);
                (Scatter "SMA 50" x (map SMA_50 stock_data), 1);
                (Scatter "SMA 200" x (map SMA_200 stock_data), 1);
                (Scatter "BB Upper" x (map BB_Upper stock_data), 1);
                (Scatter "BB Lower" x (map BB_Lower stock_data), 1);
                (Scatter "RSI" x (map RSI stock_data), 2);
                (Scatter "MACD" x (map MACD stock_data), 3);
                (Scatter "MACD Signal" x (map MACD_Signal stock_data), 3);
                (Bar "MACD Histogram" x (map MACD_Hist stock_data), 3) ];
            hlines := [ (70%float, 2); (30%float, 2) ];
            title := symbol ++ " Stock Analysis" |}
  end.

End Plot.

(** ** [src/app.py]: the [/results] route *)

Module Site.

Inductive response : Type :=
| Redirect (endpoint : string) (flashed : string)
| Render (symbol : string) (summary : list (string * string))
    (patterns : list PatternEvent) (plot_html : string).

(** [patterns.tail(n)] *)
Definition tail {A} (n : nat) (l : list A) : list A := skipn (length l - n) l.

Section Views.

Variable fmt_2f : float -> string.
Variable fmt_pct : float -> string.
Variable fmt_thousands : float -> string.

(** [pio.to_html(fig, full_html=False)] *)
Variable to_html : Figure -> string.

(** [str(e)] for the exceptions raised inside pandas. *)
Variable library_message : exn -> string.

(** [str(e)] *)
Definition message (e : exn) : string :=
  match e with
  | NoDataFound symbol => "No data found for symbol: " ++ symbol
  | _ => library_message e
  end.

(** [results()] for the query arguments [symbol], [start_date] and
    [end_date]; [df] is the table of the module-level analyzer. *)
Definition results (df : list Row) (symbol : string) (start_date end_date : bound)
    : response :=
  match
    (summary ← Summary.get_stock_summary fmt_2f fmt_pct fmt_thousands df symbol;
     patterns ← Patterns.identify_patterns df symbol 20;
     fig ← Plot.plot_stock_trend df symbol start_date end_date;
     let plot_html := to_html fig in
     let patterns_table :=
       match patterns with
       | [] => []
       | _ :: _ => tail 10 patterns
       end in
     Ok (Render symbol summary patterns_table plot_html))
  with
  | Ok page => page
  | Raise e => Redirect "index" (message e)
  end.

End Views.

End Site.

(** The time axis and the value series of a trace. *)
Definition trace_x (t : Trace) : list Z :=
  match t with
  | Candlestick _ x _ _ _ _ => x
  | Scatter _ x _ => x
  | Bar _ x _ => x
  end.

Definition trace_ys (t : Trace) : list (list float) :=
  match t with
  | Candlestick _ _ o h l c => [o; h; l; c]
  | Scatter _ _ y => [y]
  | Bar _ _ y => [y]
  end.

(** Whether a date lies within the bounds of the request. *)
Definition within (start_date end_date : bound) (t : Z) : bool :=
  match start_date with At s => (s <=? t)%Z | _ => true end
  && match end_date with At e => (t <=? e)%Z | _ => true end.

Module Pages.

(** A figure printer that prints the title, and exception messages that
    are empty. *)
Definition title_only (fig : Figure) : string := title fig.
Definition silent (e : exn) : string := "".

End Pages.

(** ** [generate_sample_data.py]

    The draws of [np.random.normal] are a stream: the [k]-th call since the
    program started returns [normal k loc scale], and the generator threads
    the number of draws made so far.  [pd.date_range(start, end, freq='B')]
    enters as its result, the list of business days. *)

Module Generator.
Import Pandas.

Section Draws.

Variable normal : nat -> float -> float -> float.

(** [int(x)], as the cell of a numeric column; the draws are finite, so
    [int] does not raise. *)
Variable to_int : float -> float.

(** [prices = [initial_price]] and one [prices.append(prices[-1] * (1 + change))]
    per change. *)
Fixpoint walk (last : float) (changes : list float) : list float :=
  match changes with
  | [] => [last]
  | change :: rest => last :: walk (last * (1 + change))%float rest
  end.

(** [df[[a, b, c]]], row by row. *)
Fixpoint rows3 (a b c : list float) : list (list float) :=
  match a, b, c with
  | x :: a', y :: b', z :: c' => [x; y; z] :: rows3 a' b' c'
  | _, _, _ => []
  end.

(** [pd.DataFrame({...})]: the arrays must have one length; the scalar
    Name is repeated on every row. *)
Definition new_frame (date_range : list Z) (prices high low volume : list float)
    (symbol : string) : result DataFrame :=
  if forallb (fun n => (n =? length date_range)%nat)
       [length prices; length prices; length high; length low; length volume]
  then Ok [ ("date", Datetime64 date_range);
            ("open", Float64 prices);
            ("close", Float64 prices);
            ("high", Float64 high);
            ("low", Float64 low);
            ("volume", Float64 volume);
            ("Name", Object (repeat symbol (length date_range))) ]
  else Raise LibraryError.

(** [generate_stock_data(symbol, start_date, end_date, initial_price,
    volatility)] after [drawn] draws: the frame and the number of draws
    made by the end. *)
Definition generate_stock_data (symbol : string) (date_range : list Z)
    (initial_price volatility : float) (drawn : nat) : result DataFrame * nat :=
  let changes :=
    map (fun i => normal (drawn + i) 0 volatility) (seq 0 (length date_range - 1)) in
  let prices := walk initial_price changes in
  let drawn := drawn + (length date_range - 1) in
  let high :=
    map (fun ip => (snd ip * (1 + abs (normal (drawn + fst ip) 0 0.01)))%float)
        (combine (seq 0 (length prices)) prices) in
  let drawn := drawn + length prices in
  let low :=
    map (fun ip => (snd ip * (1 - abs (normal (drawn + fst ip) 0 0.01)))%float)
        (combine (seq 0 (length prices)) prices) in
  let drawn := drawn + length prices in
  let volume :=
    map (fun i => to_int (normal (drawn + i) 1000000 500000))
        (seq 0 (length prices)) in
  let drawn := drawn + length prices in
  (df ← new_frame date_range prices high low volume symbol;
   o ← Frame.getfloat df "open";
   c ← Frame.getfloat df "close";
   hi ← Frame.getfloat df "high";
   let df := Frame.setitem df "high" (Float64 (map Pandas.max (rows3 o c hi))) in
   o ← Frame.getfloat df "open";
   c ← Frame.getfloat df "close";
   lo ← Frame.getfloat df "low";
   let df := Frame.setitem df "low" (Float64 (map Pandas.min (rows3 o c lo))) in
   Ok df,
   drawn).

End Draws.

End Generator.

Module Draws.

(** A stream whose every draw is a tenth, and an [int] that keeps its
    argument. *)
Definition tenth (k : nat) (loc scale : float) : float := 0.1%float.
Definition keep (x : float) : float := x.

(** Three days of ticker S generated from them, starting at 100. *)
Definition three_days : DataFrame :=
  match fst (Generator.generate_stock_data tenth keep "S" [1; 2; 3]%Z 100 0.02 0) with
  | Ok df => df
  | Raise _ => []
  end.

End Draws.

(** What the detection loop reads of a row. *)
Definition detection_inputs (r : Row)
    : Z * string * float * float * float * float * float * float :=
  (Date r, Name r, Close r, SMA_50 r, SMA_200 r, RSI r, BB_Upper r, BB_Lower r).

Module Quiet.

(** A bar of [Sample.flat] with every cell the detection loop does not read
    set to zero. *)
Definition bar (day : Z) : Row :=
  {| Date := day; Name := "S";
     Open := 0; High := 0; Low := 0; Close := 50; Volume := 0;
     SMA_20 := 0; SMA_50 := 50; SMA_200 := 50; EMA_20 := 0; EMA_50 := 0;
     MACD := 0; MACD_Signal := 0; MACD_Hist := 0; RSI := 50;
     BB_Upper := 50; BB_Lower := 50; BB_Middle := 0; Stoch_K := 0; Stoch_D := 0 |}.

Definition flat (n : nat) : list Row :=
  map (fun k => bar (Z.of_nat k)) (seq 0 n).

End Quiet.

(** The required columns for which a header has none of the accepted
    labels, in the order of [required_columns]. *)
Definition unnamed_columns (labels : list string) : list string :=
  map fst (List.filter
             (fun field => negb (existsb (fun l => Frame.mem l labels) (snd field)))
             accepted_labels).

(** * Properties *)

(** ** Order and NaN facts of binary64, from the float specification *)

Module FloatFacts.
Import PyFloat.

Ltac compare_cases :=
  repeat match goal with
  | |- context [Pos.compare_cont Eq ?a ?b] =>
      change (Pos.compare_cont Eq a b) with (Pos.compare a b)
  | H : context [Pos.compare_cont Eq ?a ?b] |- _ =>
      change (Pos.compare_cont Eq a b) with (Pos.compare a b) in H
  end;
  repeat match goal with
  | H : context [(?a ?= ?b)%Z] |- _ =>
      destruct (Z.compare_spec a b); simpl in H; try discriminate H
  | H : context [(?a ?= ?b)%positive] |- _ =>
      destruct (Pos.compare_spec a b); simpl in H; try discriminate H
  | |- context [(?a ?= ?b)%Z] => destruct (Z.compare_spec a b); simpl
  | |- context [(?a ?= ?b)%positive] => destruct (Pos.compare_spec a b); simpl
  end;
  subst; try reflexivity; try discriminate; try lia.


Lemma SFcompare_antisym (x y : spec_float) (c : comparison) :
  SFcompare x y = Some c -> SFcompare y x = Some (CompOpp c).
Proof.
  destruct x as [sx|sx| |sx mx ex], y as [sy|sy| |sy my ey]; simpl;
    try discriminate;
    try (destruct sx; try destruct sy; intros H; inversion H; reflexivity);
    try (destruct sy; intros H; inversion H; reflexivity).
  destruct sx, sy; intros H; inversion H; clear H; try reflexivity;
    change (Pos.compare_cont Eq mx my) with (Pos.compare mx my);
    change (Pos.compare_cont Eq my mx) with (Pos.compare my mx);
    rewrite (Z.compare_antisym ex ey);
    destruct (ex ?= ey)%Z; simpl; try reflexivity;
    rewrite (Pos.compare_antisym mx my);
    destruct (mx ?= my)%positive; reflexivity.
Qed.

Lemma SFcompare_trans (x y z : spec_float) :
  at_most (SFcompare x y) = true -> at_most (SFcompare y z) = true ->
  at_most (SFcompare x z) = true.
Proof.
  destruct x as [sx|sx| |sx mx ex], y as [sy|sy| |sy my ey],
           z as [sz|sz| |sz mz ez];
    simpl; try discriminate; try reflexivity;
    try destruct sx; try destruct sy; try destruct sz; simpl;
    try discriminate; try reflexivity; intros H1 H2; compare_cases.
Qed.

Lemma SFcompare_refl (x : spec_float) :
  x <> S754_nan -> SFcompare x x = Some Eq.
Proof.
  destruct x as [s|s| |s m e]; simpl; try congruence; intros _.
  - destruct s; reflexivity.
  - destruct s; rewrite Z.compare_refl;
      change (Pos.compare_cont Eq m m) with (Pos.compare m m);
      rewrite Pos.compare_refl; reflexivity.
Qed.

Lemma SFcompare_defined (x y : spec_float) :
  x <> S754_nan -> y <> S754_nan -> exists c, SFcompare x y = Some c.
Proof. destruct x, y; simpl; try congruence; eauto. Qed.

Lemma isnan_spec (x : float) : isnan x = true <-> Prim2SF x = S754_nan.
Proof.
  unfold isnan. rewrite FloatAxioms.eqb_spec. unfold SFeqb. split.
  - intros H. destruct (Prim2SF x) as [s|s| |s m e] eqn:E; try reflexivity;
      rewrite SFcompare_refl in H by discriminate; discriminate.
  - intros ->. reflexivity.
Qed.

Lemma not_nan_spec (x : float) : isnan x = false <-> Prim2SF x <> S754_nan.
Proof.
  rewrite <- isnan_spec. destruct (isnan x); split; congruence.
Qed.

(** There is one NaN. *)
Lemma isnan_eq (x : float) : isnan x = true -> x = nan.
Proof.
  intros H. apply isnan_spec in H. rewrite <- (SF2Prim_Prim2SF x), H. reflexivity.
Qed.

Lemma lt_asym (a b : float) : lt a b = true -> lt b a = false.
Proof.
  unfold lt. rewrite !FloatAxioms.ltb_spec. unfold SFltb.
  destruct (SFcompare (Prim2SF a) (Prim2SF b)) as [c|] eqn:E; try discriminate.
  rewrite (SFcompare_antisym _ _ _ E). destruct c; simpl; congruence.
Qed.

Lemma le_refl (a : float) : isnan a = false -> le a a = true.
Proof.
  intros H. apply not_nan_spec in H. unfold le. rewrite FloatAxioms.leb_spec. unfold SFleb.
  rewrite SFcompare_refl by assumption. reflexivity.
Qed.

Lemma le_trans (a b c : float) : le a b = true -> le b c = true -> le a c = true.
Proof. unfold le. rewrite !FloatAxioms.leb_spec. apply SFcompare_trans. Qed.

Lemma lt_le (a b : float) : lt a b = true -> le a b = true.
Proof.
  unfold lt, le. rewrite FloatAxioms.ltb_spec, FloatAxioms.leb_spec. unfold SFltb, SFleb.
  destruct (SFcompare _ _) as [[]|]; congruence.
Qed.

Lemma not_lt_le (a b : float) :
  isnan a = false -> isnan b = false -> lt a b = false -> le b a = true.
Proof.
  intros Ha Hb. apply not_nan_spec in Ha, Hb.
  unfold lt, le. rewrite FloatAxioms.ltb_spec, FloatAxioms.leb_spec. unfold SFltb, SFleb.
  destruct (SFcompare_defined _ _ Ha Hb) as [c E]. rewrite E.
  rewrite (SFcompare_antisym _ _ _ E). destruct c; simpl; congruence.
Qed.

(** NaN is absorbing for the arithmetic of [pct_change]. *)
Lemma div_nan (x : float) : (x / nan)%float = nan.
Proof.
  rewrite <- (SF2Prim_Prim2SF (x / nan)), FloatAxioms.div_spec.
  change (Prim2SF nan) with S754_nan.
  destruct (Prim2SF x) as [s|s| |s m e]; reflexivity.
Qed.

Lemma nan_sub (x : float) : (nan - x)%float = nan.
Proof.
  rewrite <- (SF2Prim_Prim2SF (nan - x)), FloatAxioms.sub_spec.
  change (Prim2SF nan) with S754_nan. reflexivity.
Qed.

End FloatFacts.

(** ** Pattern detection *)

Module PatternFacts.
Import PyFloat Pandas Patterns Turn.

Lemma islice_length {A} (l : list A) (a b : nat) :
  a <= b <= length l -> length (islice l a b) = b - a.
Proof.
  intros H. unfold islice. rewrite length_skipn, length_firstn. lia.
Qed.

Lemma islice_nth {A} (l : list A) (a b k : nat) :
  a + k < b -> nth_error (islice l a b) k = nth_error l (a + k).
Proof.
  intros H. unfold islice. rewrite nth_error_skipn, nth_error_firstn.
  destruct (Nat.ltb_spec (a + k) b); [reflexivity | lia].
Qed.

Lemma iloc_nth {A} (l : list A) (k : nat) (x : A) :
  nth_error l k = Some x -> iloc l k = Ok x.
Proof. unfold iloc. intros ->. reflexivity. Qed.

Lemma iloc_neg_islice {A} (l : list A) (a b k : nat) (x : A) :
  a <= b <= length l -> 1 <= k <= b - a ->
  nth_error l (b - k) = Some x -> iloc_neg (islice l a b) k = Ok x.
Proof.
  intros Hab Hk Hx. unfold iloc_neg. rewrite islice_length by assumption.
  destruct (Nat.leb_spec 1 k); [|lia].
  destruct (Nat.leb_spec k (b - a)); [|lia]. simpl.
  apply iloc_nth. rewrite islice_nth by lia.
  replace (a + (b - a - k)) with (b - k) by lia. assumption.
Qed.


(** Inside the loop the positional reads succeed; the turn at [i] reads the
    rows [i - 2], [i - 1] and [i] of the symbol's series. *)
Lemma patterns_at_eq (stock_data : list Row) (window i : nat)
    (before last current : Row) :
  2 <= window <= i ->
  nth_error stock_data (i - 2) = Some before ->
  nth_error stock_data (i - 1) = Some last ->
  nth_error stock_data i = Some current ->
  patterns_at stock_data window i =
    Ok (window_events (map Close (islice stock_data (i - window) i))
          before last current).
Proof.
  intros Hw Hb Hl Hc.
  assert (Hlen : i < length stock_data)
    by (apply nth_error_Some; congruence).
  unfold patterns_at.
  rewrite (iloc_nth _ _ _ Hc). cbn [mbind result_bind].
  rewrite (iloc_neg_islice stock_data (i - window) i 2 before) by (assumption || lia).
  cbn [mbind result_bind].
  rewrite (iloc_neg_islice stock_data (i - window) i 1 last) by (assumption || lia).
  reflexivity.
Qed.

Lemma patterns_at_ok (stock_data : list Row) (window i : nat) :
  2 <= window <= i -> i < length stock_data ->
  exists before last current,
    nth_error stock_data (i - 2) = Some before /\
    nth_error stock_data (i - 1) = Some last /\
    nth_error stock_data i = Some current /\
    patterns_at stock_data window i =
      Ok (window_events (map Close (islice stock_data (i - window) i))
            before last current).
Proof.
  intros Hw Hi.
  destruct (nth_error stock_data (i - 2)) as [b|] eqn:Hb;
    [|apply nth_error_None in Hb; lia].
  destruct (nth_error stock_data (i - 1)) as [l|] eqn:Hl;
    [|apply nth_error_None in Hl; lia].
  destruct (nth_error stock_data i) as [c|] eqn:Hc;
    [|apply nth_error_None in Hc; lia].
  exists b, l, c. repeat split; try reflexivity.
  now apply patterns_at_eq.
Qed.

Lemma crossovers_exclusive (a b c d : float) :
  (le a b && gt c d) && (ge a b && lt c d) = false.
Proof.
  destruct (gt c d) eqn:G; [|now rewrite andb_false_r].
  unfold gt in G. fold (lt d c) in G. apply FloatFacts.lt_asym in G.
  rewrite G, !andb_false_r. reflexivity.
Qed.

Ltac split_conditions :=
  repeat match goal with
  | |- context [if ?c then _ else _] => destruct c eqn:?
  end.

Lemma window_events_groups (close : list float) (before last current : Row) :
  let events := window_events close before last current in
  count_of trend_kinds events <= 1 /\
  count_of crossover_kinds events <= 1 /\
  count_of momentum_kinds events <= 1 /\
  count_of band_kinds events <= 1 /\
  length events <= 4.
Proof.
  pose proof (crossovers_exclusive (SMA_50 before) (SMA_200 before)
                (SMA_50 last) (SMA_200 last)) as X.
  unfold window_events. cbv zeta.
  split_conditions;
    try (match goal with
         | H1 : (le _ _ && gt _ _) = true, H2 : (ge _ _ && lt _ _) = true |- _ =>
             rewrite H1, H2 in X; discriminate X
         end);
    vm_compute; repeat split; lia.
Qed.

Lemma window_events_dates (close : list float) (before last current : Row) :
  Forall (fun e => date e = Date current) (window_events close before last current).
Proof.
  unfold window_events. split_conditions; simpl; repeat constructor.
Qed.


Lemma window_events_fired (close : list float) (before last current : Row) :
  let events := window_events close before last current in
  fired "Golden Cross" events =
    le (SMA_50 before) (SMA_200 before) && gt (SMA_50 last) (SMA_200 last) /\
  fired "Death Cross" events =
    ge (SMA_50 before) (SMA_200 before) && lt (SMA_50 last) (SMA_200 last) /\
  fired "Overbought" events = gt (RSI last) 70 /\
  fired "Oversold" events = negb (gt (RSI last) 70) && lt (RSI last) 30 /\
  fired "Above Upper Band" events = gt (Close current) (BB_Upper last) /\
  fired "Below Lower Band" events =
    negb (gt (Close current) (BB_Upper last)) && lt (Close current) (BB_Lower last).
Proof.
  unfold window_events. cbv zeta.
  split_conditions; vm_compute; repeat split.
Qed.


(** Only the date and the close of the current row enter the events. *)
Lemma window_events_current (close : list float) (before last c c' : Row) :
  Date c' = Date c -> Close c' = Close c ->
  window_events close before last c' = window_events close before last c.
Proof.
  intros Hd Hc. unfold window_events, event. rewrite Hd, Hc. reflexivity.
Qed.

Lemma islice_agree (l l' : list Row) (a b : nat) :
  a <= b -> b <= length l -> b <= length l' ->
  (forall k, a <= k < b -> nth_error l' k = nth_error l k) ->
  islice l' a b = islice l a b.
Proof.
  intros Hab Hl Hl' H. apply nth_error_ext. intros k.
  destruct (Nat.lt_ge_cases (a + k) b) as [Hk|Hk].
  - rewrite !islice_nth by assumption. apply H. lia.
  - transitivity (@None Row); [|symmetry];
      apply nth_error_None; rewrite islice_length by lia; lia.
Qed.

(** *** The whole scan *)


Lemma scan_ok (stock_data : list Row) (window : nat) :
  2 <= window ->
  forall (k start : nat) (acc : list PatternEvent),
    window <= start -> start + k <= length stock_data ->
    fold_left
      (fun acc i =>
         patterns ← acc;
         found ← patterns_at stock_data window i;
         Ok (patterns ++ found)%list)
      (seq start k) (Ok acc)
    = Ok (acc ++ concat (map (turn_events stock_data window) (seq start k)))%list.
Proof.
  intros Hw. induction k as [|k IH]; intros start acc Hs Hlen.
  - simpl. now rewrite app_nil_r.
  - cbn [seq fold_left map concat].
    destruct (patterns_at_ok stock_data window start) as (b & l & c & _ & _ & _ & E);
      [lia | lia |].
    unfold turn_events at 1. rewrite E. cbn [mbind result_bind].
    rewrite IH by lia. now rewrite <- app_assoc.
Qed.

Lemma turn_events_dates (stock_data : list Row) (window i : nat) :
  2 <= window <= i -> i < length stock_data ->
  Forall (fun e => date e = nth i (map Date stock_data) 0%Z)
         (turn_events stock_data window i).
Proof.
  intros Hw Hi.
  destruct (patterns_at_ok stock_data window i) as (b & l & c & _ & _ & Hc & E);
    [assumption | assumption |].
  unfold turn_events. rewrite E.
  replace (nth i (map Date stock_data) 0%Z) with (Date c).
  - apply window_events_dates.
  - symmetry. apply nth_error_nth. rewrite nth_error_map, Hc. reflexivity.
Qed.

(** Sorted dates, as [sort_values('Date')] leaves them. *)
Lemma sorted_rows_of_symbol (df : list Row) (symbol : string) :
  StronglySorted Z.le (map Date df) ->
  StronglySorted Z.le (map Date (rows_of_symbol df symbol)).
Proof.
  unfold rows_of_symbol. induction df as [|r df IH]; intros H; simpl.
  - constructor.
  - inversion H as [|? ? Hs Hall]; subst.
    destruct (String.eqb (Name r) symbol); simpl; [|now apply IH].
    constructor; [now apply IH|].
    rewrite List.Forall_forall in Hall |- *. intros d Hd. apply Hall.
    rewrite in_map_iff in Hd |- *. destruct Hd as (x & <- & Hx).
    exists x. split; [reflexivity|]. apply filter_In in Hx. tauto.
Qed.

Lemma sorted_nth (l : list Z) :
  StronglySorted Z.le l ->
  forall i j, i <= j < length l -> (nth i l 0 <= nth j l 0)%Z.
Proof.
  induction 1 as [|x l Hs IH Hall]; intros i j Hij; simpl in *; [lia|].
  destruct i, j; try lia.
  - rewrite List.Forall_forall in Hall. apply Hall, nth_In. lia.
  - apply IH. lia.
Qed.

Lemma sorted_app (l1 l2 : list Z) :
  StronglySorted Z.le l1 -> StronglySorted Z.le l2 ->
  (forall x y, In x l1 -> In y l2 -> (x <= y)%Z) ->
  StronglySorted Z.le (l1 ++ l2).
Proof.
  induction 1 as [|x l Hs IH Hall]; intros H2 H; simpl; [assumption|].
  constructor.
  - apply IH; [assumption|]. intros a b Ha Hb. apply H; [now right | assumption].
  - rewrite List.Forall_forall in Hall |- *. intros y Hy. apply in_app_iff in Hy.
    destruct Hy as [Hy|Hy]; [now apply Hall | apply H; [now left | assumption]].
Qed.

Lemma sorted_constant (d : Z) (l : list Z) :
  Forall (fun x => x = d) l -> StronglySorted Z.le l.
Proof.
  induction 1 as [|x l -> Hl IH]; constructor; [assumption|].
  rewrite List.Forall_forall in Hl |- *. intros y Hy. rewrite (Hl y Hy). lia.
Qed.

Lemma scan_sorted (stock_data : list Row) (window : nat) :
  2 <= window ->
  StronglySorted Z.le (map Date stock_data) ->
  forall (k start : nat),
    window <= start -> start + k <= length stock_data ->
    let dates := map date (concat (map (turn_events stock_data window) (seq start k))) in
    StronglySorted Z.le dates /\
    Forall (fun d => (nth start (map Date stock_data) 0 <= d)%Z) dates.
Proof.
  intros Hw Hs. induction k as [|k IH]; intros start Hstart Hlen; cbv zeta.
  - simpl. split; constructor.
  - cbn [seq map concat]. rewrite map_app.
    destruct (IH (S start)) as [IHs IHl]; [lia | lia |].
    pose proof (turn_events_dates stock_data window start) as Hd.
    assert (Hc : Forall (fun x => x = nth start (map Date stock_data) 0%Z)
                   (map date (turn_events stock_data window start))).
    { rewrite Forall_map. apply Hd; lia. }
    assert (Hstep : (nth start (map Date stock_data) 0
                     <= nth (S start) (map Date stock_data) 0)%Z \/ k = 0).
    { destruct k; [now right|]. left. apply sorted_nth; [assumption|].
      rewrite length_map. lia. }
    split.
    + apply sorted_app; [now apply (sorted_constant _ _ Hc) | assumption |].
      intros x y Hx Hy. rewrite List.Forall_forall in Hc, IHl.
      rewrite (Hc x Hx). specialize (IHl y Hy).
      destruct Hstep as [Hstep| ->]; [lia | now simpl in Hy].
    + apply Forall_app. split.
      * rewrite List.Forall_forall in Hc |- *. intros x Hx. rewrite (Hc x Hx). lia.
      * rewrite List.Forall_forall in IHl |- *. intros y Hy. specialize (IHl y Hy).
        destruct Hstep as [Hstep| ->]; [lia | now simpl in Hy].
Qed.

Lemma identify_patterns_scan (df : list Row) (symbol : string) (window : nat) :
  2 <= window -> rows_of_symbol df symbol <> [] ->
  identify_patterns df symbol window =
    Ok (concat (map (turn_events (rows_of_symbol df symbol) window)
                  (seq window (length (rows_of_symbol df symbol) - window)))).
Proof.
  intros Hw Hne. unfold identify_patterns.
  destruct (rows_of_symbol df symbol) as [|r rest] eqn:E; [congruence|].
  cbv zeta. destruct (Nat.le_gt_cases window (length (r :: rest))) as [Hl|Hl].
  - rewrite scan_ok; [reflexivity | assumption | lia | lia].
  - replace (length (r :: rest) - window) with 0 by lia. reflexivity.
Qed.

(** On a table sorted by date the events come out in date order. *)
Lemma identify_patterns_in_date_order (df : list Row) (symbol : string) :
  Sorted Z.le (map Date df) ->
  rows_of_symbol df symbol <> [] ->
  exists events,
    identify_patterns df symbol 20 = Ok events /\
    Sorted Z.le (map date events).
Proof.
  intros Hs Hne. eexists. split.
  - apply identify_patterns_scan; [lia | assumption].
  - apply StronglySorted_Sorted.
    set (sd := rows_of_symbol df symbol).
    destruct (Nat.le_gt_cases 20 (length sd)) as [Hl|Hl].
    + apply (scan_sorted sd 20); try lia.
      apply sorted_rows_of_symbol.
      apply Sorted_StronglySorted; [|assumption].
      intros x y z; apply Z.le_trans.
    + replace (length sd - 20) with 0 by lia. constructor.
Qed.

(** *** One date at a time *)






End PatternFacts.


(** ** Loading: the header check *)

Module HeaderFacts.
Import Frame StockAnalyzer.

Lemma columns_rename (df : DataFrame) (old new : string) :
  columns (rename df old new) =
  map (fun l => if String.eqb l old then new else l) (columns df).
Proof.
  unfold columns, rename. rewrite !map_map. apply map_ext.
  intros [l s]. simpl. destruct (String.eqb l old); reflexivity.
Qed.

Lemma mem_true (x : string) (labels : list string) :
  mem x labels = true <-> In x labels.
Proof.
  unfold mem. rewrite existsb_exists. split.
  - intros (y & Hy & E). apply String.eqb_eq in E. now subst.
  - intros H. exists x. split; [assumption | apply String.eqb_refl].
Qed.

Lemma mem_renamed_target (old new : string) (labels : list string) :
  mem new (map (fun l => if String.eqb l old then new else l) labels) =
  mem new labels || mem old labels.
Proof.
  induction labels as [|l labels IH]; [reflexivity|].
  cbn [map mem existsb] in *. fold (mem new) in *. fold (mem old) in *.
  unfold mem in *. rewrite IH.
  destruct (String.eqb_spec l old) as [->|Hne].
  - rewrite !String.eqb_refl. simpl. now rewrite orb_true_r.
  - rewrite (proj2 (String.eqb_neq old l)) by congruence.
    destruct (String.eqb new l), (existsb (String.eqb new) labels); reflexivity.
Qed.

Lemma mem_renamed_other (x old new : string) (labels : list string) :
  String.eqb x new = false -> String.eqb x old = false ->
  mem x (map (fun l => if String.eqb l old then new else l) labels) = mem x labels.
Proof.
  intros Hn Ho. induction labels as [|l labels IH]; [reflexivity|].
  cbn [map]. unfold mem in *. cbn [existsb]. rewrite IH. f_equal.
  destruct (String.eqb_spec l old) as [->|Hne]; [congruence | reflexivity].
Qed.

(** One turn of the renaming loop, seen from a required column and from a
    label the turn does not mention. *)
Lemma mem_rename_step_target (df : DataFrame) (old new : string) :
  mem new (columns (rename_step df (old, new))) =
  mem new (columns df) || mem old (columns df).
Proof.
  unfold rename_step.
  destruct (mem old (columns df)) eqn:Ho, (mem new (columns df)) eqn:Hn; simpl;
    rewrite ?columns_rename, ?mem_renamed_target, ?Ho, ?Hn; reflexivity.
Qed.

Lemma mem_rename_step_other (df : DataFrame) (x old new : string) :
  String.eqb x new = false -> String.eqb x old = false ->
  mem x (columns (rename_step df (old, new))) = mem x (columns df).
Proof.
  intros Hn Ho. unfold rename_step.
  destruct (mem old (columns df) && negb (mem new (columns df))); [|reflexivity].
  rewrite columns_rename. now apply mem_renamed_other.
Qed.

Ltac through_renaming :=
  cbn [fold_left column_mapping];
  repeat first [ rewrite mem_rename_step_other by reflexivity
               | rewrite mem_rename_step_target ].

(** After the loop a required column is present exactly when the header had
    it or one of its lower-case synonyms. *)
Lemma renamed_has (df : DataFrame) :
  let df' := fold_left rename_step column_mapping df in
  let has l := mem l (columns df) in
  mem "Date" (columns df') = has "Date" || has "date" || has "timestamp" || has "datetime" /\
  mem "Name" (columns df') = has "Name" || has "symbol" || has "ticker" || has "name" /\
  mem "Open" (columns df') = has "Open" || has "open" /\
  mem "High" (columns df') = has "High" || has "high" /\
  mem "Low" (columns df') = has "Low" || has "low" /\
  mem "Close" (columns df') = has "Close" || has "close" /\
  mem "Volume" (columns df') = has "Volume" || has "volume".
Proof.
  cbv zeta. repeat split; through_renaming; try reflexivity.
  destruct (mem "Name" (columns df)), (mem "symbol" (columns df)),
    (mem "ticker" (columns df)), (mem "name" (columns df)); reflexivity.
Qed.

Lemma missing_columns_nil (df : DataFrame) :
  missing_columns (fold_left rename_step column_mapping df) = [] <->
  header_accepted (columns df) = true.
Proof.
  unfold missing_columns, header_accepted.
  destruct (renamed_has df) as (H1 & H2 & H3 & H4 & H5 & H6 & H7).
  cbn [List.filter required_columns forallb accepted_labels existsb snd].
  rewrite H1, H2, H3, H4, H5, H6, H7. rewrite !orb_false_r, !orb_assoc.
  destruct (mem "Date" (columns df) || mem "date" (columns df)
            || mem "timestamp" (columns df) || mem "datetime" (columns df)),
    (mem "Name" (columns df) || mem "symbol" (columns df)
     || mem "ticker" (columns df) || mem "name" (columns df)),
    (mem "Open" (columns df) || mem "open" (columns df)),
    (mem "High" (columns df) || mem "high" (columns df)),
    (mem "Low" (columns df) || mem "low" (columns df)),
    (mem "Close" (columns df) || mem "close" (columns df)),
    (mem "Volume" (columns df) || mem "volume" (columns df));
    simpl; split; intros H; first [reflexivity | discriminate H].
Qed.

End HeaderFacts.

(** ** Frames and the object store *)

Module FrameFacts.
Import Frame.

Lemma columns_setitem (df : DataFrame) (label : string) (s : Series) :
  columns (setitem df label s) =
  if mem label (columns df) then columns df else (columns df ++ [label])%list.
Proof.
  unfold setitem, columns. destruct (mem label (map fst df)).
  - rewrite map_map. apply map_ext. intros [l c]. simpl.
    destruct (String.eqb_spec l label) as [->|]; reflexivity.
  - rewrite map_app. reflexivity.
Qed.

Lemma mem_app (x : string) (a b : list string) :
  mem x (a ++ b) = mem x a || mem x b.
Proof. unfold mem. apply existsb_app. Qed.

Lemma mem_setitem_same (df : DataFrame) (label : string) (s : Series) :
  mem label (columns (setitem df label s)) = true.
Proof.
  rewrite columns_setitem. destruct (mem label (columns df)) eqn:E; [assumption|].
  rewrite mem_app. unfold mem at 2. simpl. rewrite String.eqb_refl.
  now rewrite orb_true_r.
Qed.

Lemma mem_setitem_mono (df : DataFrame) (x label : string) (s : Series) :
  mem x (columns df) = true -> mem x (columns (setitem df label s)) = true.
Proof.
  intros H. rewrite columns_setitem. destruct (mem label (columns df)); [assumption|].
  rewrite mem_app, H. reflexivity.
Qed.

Lemma find_none_of_mem (df : DataFrame) (label : string) :
  mem label (columns df) = false ->
  List.find (fun c => String.eqb (fst c) label) df = None.
Proof.
  unfold mem, columns. induction df as [|[l c] df IH]; [reflexivity|].
  simpl. rewrite (String.eqb_sym l label).
  destruct (String.eqb label l); [discriminate | exact IH].
Qed.

(** Assigning one column leaves every other column as it was. *)
Lemma getitem_setitem_ne (df : DataFrame) (label other : string) (s : Series) :
  String.eqb other label = false ->
  getitem (setitem df label s) other = getitem df other.
Proof.
  intros Hne. unfold getitem, setitem.
  destruct (mem label (columns df)) eqn:Hmem.
  - clear Hmem. induction df as [|[l c] df IH]; [reflexivity|].
    cbn [map List.find fst snd].
    destruct (String.eqb_spec l label) as [->|Hl]; cbn [fst].
    + rewrite (String.eqb_sym label other), Hne. exact IH.
    + destruct (String.eqb l other); [reflexivity | exact IH].
  - induction df as [|[l c] df IH].
    + cbn. rewrite (String.eqb_sym label other), Hne. reflexivity.
    + cbn [app List.find fst].
      unfold columns, mem in Hmem. cbn in Hmem. apply orb_false_elim in Hmem.
      destruct (String.eqb l other); [reflexivity | apply IH, Hmem].
Qed.

Lemma getfloat_setitem_ne (df : DataFrame) (label other : string) (s : Series) :
  String.eqb other label = false ->
  getfloat (setitem df label s) other = getfloat df other.
Proof.
  intros H. unfold getfloat. now rewrite getitem_setitem_ne.
Qed.

End FrameFacts.

Module StoreFacts.
Import Frame Store Effects.

Lemma run_bind {A B} (m : M A) (k : A -> M B) (h : heap) :
  (mbind k m) h =
  match m h with
  | (Ok a, h') => k a h'
  | (Raise e, h') => (Raise e, h')
  end.
Proof. reflexivity. Qed.

Lemma run_getfloat (r : loc) (label : string) (h : heap) (d : DataFrame) :
  h !! r = Some d -> df_getfloat r label h = (getfloat d label, h).
Proof.
  intros H. unfold df_getfloat. rewrite run_bind. unfold load. rewrite H. reflexivity.
Qed.

Lemma run_setitem (r : loc) (label : string) (s : Series) (h : heap) (d : DataFrame) :
  h !! r = Some d -> df_setitem r label s h = (Ok tt, <[r := setitem d label s]> h).
Proof.
  intros H. unfold df_setitem. rewrite run_bind. unfold load. rewrite H. reflexivity.
Qed.


Lemma raises_library_bind {A B} (m : M A) (k : A -> M B) :
  raises_library m -> (forall a, raises_library (k a)) ->
  raises_library (mbind k m).
Proof.
  intros Hm Hk h e h'. rewrite run_bind.
  destruct (m h) as [[a|e0] h0] eqn:E.
  - apply Hk.
  - intros [= <- <-]. eapply Hm, E.
Qed.

Lemma raises_library_ret {A} (a : A) : raises_library (mret a).
Proof. intros h e h' H. discriminate H. Qed.

Lemma getitem_raises (d : DataFrame) (label : string) (e : exn) :
  getitem d label = Raise e -> from_library e.
Proof.
  unfold getitem. destruct (List.find _ d); intros [= <-]. exact I.
Qed.

Lemma getfloat_raises (d : DataFrame) (label : string) (e : exn) :
  getfloat d label = Raise e -> from_library e.
Proof.
  unfold getfloat. destruct (getitem d label) as [s|e0] eqn:E; simpl.
  - destruct s; intros [= <-]; exact I.
  - intros [= <-]. eapply getitem_raises, E.
Qed.

Lemma raises_library_load (r : loc) : raises_library (load r).
Proof.
  intros h e h'. unfold load. destruct (h !! r); intros [= <- <-]. exact I.
Qed.

Lemma raises_library_getfloat (r : loc) (label : string) :
  raises_library (df_getfloat r label).
Proof.
  apply raises_library_bind; [apply raises_library_load|].
  intros d h e h'. unfold lift. intros [= H <-]. eapply getfloat_raises, H.
Qed.

Lemma raises_library_setitem (r : loc) (label : string) (s : Series) :
  raises_library (df_setitem r label s).
Proof.
  apply raises_library_bind; [apply raises_library_load|].
  intros d h e h'. unfold store. discriminate.
Qed.

Lemma raises_library_alloc (d : DataFrame) : raises_library (alloc d).
Proof. intros h e h'. unfold alloc. discriminate. Qed.

Lemma raises_library_calculate (r : loc) :
  raises_library (StockAnalyzer.calculate_technical_indicators r).
Proof.
  unfold StockAnalyzer.calculate_technical_indicators.
  repeat first [ apply raises_library_getfloat
               | apply raises_library_setitem
               | apply raises_library_bind; [|intros ?] ].
Qed.

End StoreFacts.

Module AugmentFacts.
Import Frame Store Effects.
Import FrameFacts StoreFacts.


Lemma untouched_refl (labels : list string) (d : DataFrame) : untouched labels d d.
Proof. intros l _. reflexivity. Qed.

Lemma untouched_setitem (labels : list string) (d d' : DataFrame)
    (label : string) (s : Series) :
  mem label labels = true -> untouched labels d d' ->
  untouched labels d (setitem d' label s).
Proof.
  intros Hin H l Hl. rewrite getitem_setitem_ne; [now apply H|].
  destruct (String.eqb_spec l label) as [->|]; congruence.
Qed.

(** One statement of the straight-line code, run on a heap whose cell [r]
    is known. *)
Ltac run_statement :=
  rewrite run_bind;
  first
    [ erewrite run_getfloat by (first [eassumption | apply lookup_insert_eq])
    | erewrite run_setitem by (first [eassumption | apply lookup_insert_eq]) ];
  rewrite ?insert_insert_eq;
  rewrite ?getfloat_setitem_ne by reflexivity;
  cbv beta iota.

Lemma add_technical_indicators_run (r : loc) (h : heap) (d : DataFrame) :
  h !! r = Some d ->
  App.add_technical_indicators r h =
    (Ok r,
     if empty d then h
     else match getfloat d "close" with
          | Ok close =>
              <[r := setitem (setitem (setitem (setitem (setitem d
                       "SMA_20" (Float64 (ta.sma_indicator close 20)))
                       "SMA_50" (Float64 (ta.sma_indicator close 50)))
                       "RSI" (Float64 (ta.rsi close)))
                       "MACD" (Float64 (ta.macd close)))
                       "MACD_Signal" (Float64 (ta.macd_signal close))]> h
          | Raise _ => h
          end).
Proof.
  intros H. unfold App.add_technical_indicators.
  rewrite run_bind. unfold load at 1. rewrite H. cbv beta iota.
  destruct (empty d); [reflexivity|].
  unfold try_except.
  destruct (getfloat d "close") as [close|e] eqn:E.
  - run_statement. rewrite E. cbv beta iota.
    do 8 (run_statement; rewrite ?E; cbv beta iota).
    reflexivity.
  - run_statement. rewrite E. reflexivity.
Qed.

Ltac present :=
  repeat first [ apply List.Forall_nil | apply List.Forall_cons ];
  repeat first [ apply mem_setitem_same | apply mem_setitem_mono ].

Ltac kept :=
  repeat (apply untouched_setitem; [reflexivity|]); apply untouched_refl.

Lemma calculate_technical_indicators_run (r : loc) (h : heap) (d : DataFrame) :
  h !! r = Some d ->
  exists res d',
    StockAnalyzer.calculate_technical_indicators r h = (res, <[r := d']> h) /\
    untouched StockAnalyzer.indicator_columns d d' /\
    (res = Ok tt ->
     Forall (fun l => mem l (columns d') = true) StockAnalyzer.indicator_columns).
Proof.
  intros H. unfold StockAnalyzer.calculate_technical_indicators.
  destruct (getfloat d "Close") as [close|e] eqn:EC.
  - destruct (getfloat d "High") as [high|e] eqn:EH;
      [destruct (getfloat d "Low") as [low|e] eqn:EL|];
      repeat (run_statement; rewrite ?EC, ?EH, ?EL; cbv beta iota).
    + rewrite run_setitem with (d := setitem _ "Stoch_K" _)
        by apply lookup_insert_eq.
      rewrite insert_insert_eq.
      do 2 eexists. split; [reflexivity|]. split; [kept|]. intros _. present.
    + do 2 eexists. split; [reflexivity|]. split; [kept | discriminate].
    + do 2 eexists. split; [reflexivity|]. split; [kept | discriminate].
  - run_statement. rewrite EC. cbv beta iota.
    exists (Raise e), d. rewrite insert_id by assumption.
    split; [reflexivity|]. split; [apply untouched_refl | discriminate].
Qed.

End AugmentFacts.

Module LoadingFacts.
Import Frame Store StockAnalyzer Effects.
Import FrameFacts StoreFacts HeaderFacts.

Lemma raises_library_lift {A} (x : result A) :
  (forall e, x = Raise e -> from_library e) -> raises_library (lift x).
Proof. intros H h e h'. unfold lift. intros [= E <-]. now apply H. Qed.

Lemma sort_values_raises (d : DataFrame) (label : string) (e : exn) :
  sort_values d label = Raise e -> from_library e.
Proof.
  unfold sort_values. destruct (getitem d label) as [s|e0] eqn:E; simpl.
  - destruct s; intros [= <-]; exact I.
  - intros [= <-]. eapply getitem_raises, E.
Qed.

Lemma parse_dates_raises (to_datetime : Series -> option (list Z))
    (d : DataFrame) (e : exn) :
  (s ← getitem d "Date";
   match to_datetime s with
   | Some ts => Ok ts
   | None => Raise LibraryError
   end) = Raise e -> from_library e.
Proof.
  destruct (getitem d "Date") as [s|e0] eqn:E; simpl.
  - destruct (to_datetime s); intros [= <-]; exact I.
  - intros [= <-]. eapply getitem_raises, E.
Qed.

(** [process_data] up to the header check. *)
Lemma process_data_missing (to_datetime : Series -> option (list Z))
    (r : loc) (h : heap) (df : DataFrame) :
  h !! r = Some df ->
  let renamed := fold_left rename_step column_mapping df in
  match missing_columns renamed with
  | [] =>
      forall e h', process_data to_datetime r h = (Raise e, h') -> from_library e
  | missing =>
      process_data to_datetime r h =
        (Raise (MissingColumns missing), <[r := renamed]> h)
  end.
Proof.
  intros H renamed.
  assert (E : forall k : DataFrame -> M loc,
             (d ← load r; store r (fold_left rename_step column_mapping d);;
              d ← load r; k d) h = k renamed (<[r := renamed]> h)).
  { intros k. rewrite run_bind. unfold load at 1. rewrite H. cbv beta iota.
    rewrite run_bind. unfold store at 1. cbv beta iota.
    rewrite run_bind. unfold load at 1. rewrite lookup_insert_eq. reflexivity. }
  destruct (missing_columns renamed) as [|c missing] eqn:EM.
  - intros e h'. unfold process_data. rewrite E, EM.
    match goal with
    | |- ?m ?h0 = _ -> _ => assert (L : raises_library m)
    end.
    { repeat first [ apply raises_library_setitem
                   | apply raises_library_load
                   | apply raises_library_alloc
                   | apply raises_library_calculate
                   | apply raises_library_ret
                   | apply raises_library_lift;
                     first [ apply parse_dates_raises | apply sort_values_raises ]
                   | apply raises_library_bind; [|intros ?] ]. }
    apply L.
  - unfold process_data. rewrite E, EM. reflexivity.
Qed.

End LoadingFacts.

(** ** Loading: the sort by date *)

Module SortFacts.
Import Frame Store StockAnalyzer Effects.
Import FrameFacts StoreFacts HeaderFacts AugmentFacts.

Lemma insert_key_head (k : Z) (i : nat) (l : list (Z * nat)) (x : Z) :
  (x <= k)%Z -> HdRel Z.le x (map fst l) -> HdRel Z.le x (map fst (insert_key k i l)).
Proof.
  intros Hk Hl. destruct l as [|[k' i'] t]; simpl.
  - now constructor.
  - destruct (k <=? k')%Z; simpl; constructor; [assumption|].
    now inversion Hl.
Qed.

Lemma insert_key_sorted (k : Z) (i : nat) (l : list (Z * nat)) :
  Sorted Z.le (map fst l) -> Sorted Z.le (map fst (insert_key k i l)).
Proof.
  induction l as [|[k' i'] t IH]; intros Hs; simpl.
  - repeat constructor.
  - destruct (Z.leb_spec k k') as [Hle|Hgt]; simpl.
    + constructor; [assumption | now constructor].
    + inversion Hs as [|? ? Hs' Hd]; subst.
      constructor; [now apply IH | apply insert_key_head; [lia | assumption]].
Qed.

Lemma insert_key_valid (keys : list Z) (k : Z) (i : nat) (l : list (Z * nat)) :
  nth_error keys i = Some k ->
  Forall (fun p => nth_error keys (snd p) = Some (fst p)) l ->
  Forall (fun p => nth_error keys (snd p) = Some (fst p)) (insert_key k i l).
Proof.
  intros Hk. induction 1 as [|[k' i'] t Hp Ht IH]; simpl.
  - repeat constructor. assumption.
  - destruct (k <=? k')%Z; repeat (constructor; try assumption).
Qed.

Lemma combine_seq_valid (prefix keys : list Z) :
  Forall (fun p => nth_error (prefix ++ keys) (snd p) = Some (fst p))
         (combine keys (seq (length prefix) (length keys))).
Proof.
  revert prefix. induction keys as [|k keys IH]; intros prefix; simpl; [constructor|].
  constructor.
  - simpl. rewrite nth_error_app2 by lia. now rewrite Nat.sub_diag.
  - specialize (IH (prefix ++ [k])%list).
    rewrite length_app, <- app_assoc in IH. simpl in IH.
    now rewrite Nat.add_1_r in IH.
Qed.

Lemma take_positions_valid (keys : list Z) (l : list (Z * nat)) :
  Forall (fun p => nth_error keys (snd p) = Some (fst p)) l ->
  take_positions (map snd l) keys = map fst l.
Proof.
  unfold take_positions. induction 1 as [|p l Hp Hl IH]; simpl; [reflexivity|].
  rewrite Hp, IH. reflexivity.
Qed.

(** Reading the key column through its own indexer gives it in ascending
    order. *)
Lemma argsort_sorted (keys : list Z) :
  Sorted Z.le (take_positions (argsort keys) keys).
Proof.
  unfold argsort.
  set (pairs := combine keys (seq 0 (length keys))).
  assert (V : Forall (fun p => nth_error keys (snd p) = Some (fst p)) pairs)
    by apply (combine_seq_valid [] keys).
  assert (I : Sorted Z.le
                (map fst (fold_right (fun ki acc => insert_key (fst ki) (snd ki) acc)
                            [] pairs)) /\
              Forall (fun p => nth_error keys (snd p) = Some (fst p))
                (fold_right (fun ki acc => insert_key (fst ki) (snd ki) acc) [] pairs)).
  { induction V as [|p l Hp Hl IH]; simpl; [split; constructor|].
    destruct IH as [S F].
    split; [now apply insert_key_sorted | now apply insert_key_valid]. }
  destruct I as [S F]. now rewrite take_positions_valid.
Qed.

Lemma getitem_map_snd (f : Series -> Series) (d : DataFrame) (label : string) :
  getitem (map (fun c => (fst c, f (snd c))) d) label =
  (s ← getitem d label; Ok (f s)).
Proof.
  unfold getitem. induction d as [|[l c] d IH]; [reflexivity|].
  cbn [map List.find fst snd]. destruct (String.eqb l label); [reflexivity | exact IH].
Qed.

Lemma sort_values_sorted (d sorted : DataFrame) :
  sort_values d "Date" = Ok sorted ->
  exists dates, getitem sorted "Date" = Ok (Datetime64 dates) /\ Sorted Z.le dates.
Proof.
  unfold sort_values. destruct (getitem d "Date") as [s|] eqn:G; [|discriminate].
  cbn [mbind result_bind]. destruct s as [| |keys]; try discriminate.
  intros [= <-]. rewrite getitem_map_snd, G. cbn [mbind result_bind series_take].
  eexists. split; [reflexivity | apply argsort_sorted].
Qed.

(** The frame [self.df] refers to after [process_data] has its Date column
    in ascending order. *)
Lemma process_data_sorted (to_datetime : Series -> option (list Z))
    (r r' : loc) (h h' : heap) :
  process_data to_datetime r h = (Ok r', h') ->
  exists d' dates,
    h' !! r' = Some d' /\
    getitem d' "Date" = Ok (Datetime64 dates) /\ Sorted Z.le dates.
Proof.
  unfold process_data. rewrite run_bind. unfold load at 1.
  destruct (h !! r) as [df|]; [|discriminate]. cbv beta iota.
  rewrite run_bind. unfold store at 1. cbv beta iota.
  rewrite run_bind. unfold load at 1. rewrite lookup_insert_eq. cbv beta iota.
  destruct (missing_columns _); [|discriminate].
  rewrite run_bind. unfold lift at 1.
  match goal with
  | |- context [mbind ?k (getitem ?d "Date")] =>
      destruct (mbind k (getitem d "Date")) as [dates0|]; [|discriminate]
  end.
  cbv beta iota.
  rewrite run_bind. erewrite run_setitem by apply lookup_insert_eq.
  rewrite insert_insert_eq. cbv beta iota.
  rewrite run_bind. unfold load at 1. rewrite lookup_insert_eq. cbv beta iota.
  rewrite run_bind. unfold lift at 1.
  destruct (sort_values _ "Date") as [sorted|] eqn:S; [|discriminate].
  cbv beta iota.
  rewrite run_bind. unfold alloc at 1. cbv beta iota zeta.
  set (r0 := fresh _). set (h0 := <[r := _]> h).
  rewrite run_bind.
  match goal with
  | |- context [calculate_technical_indicators ?a ?hp] =>
      destruct (calculate_technical_indicators_run a hp sorted)
        as (res & d' & E & U & _); [apply lookup_insert_eq|]; rewrite E
  end.
  destruct res as [[]|]; [|discriminate].
  unfold mret, M_ret. intros [= <- <-].
  destruct (sort_values_sorted _ _ S) as (dates & G & Hs).
  exists d', dates. split; [apply lookup_insert_eq|].
  split; [|assumption]. rewrite U by reflexivity. assumption.
Qed.

Lemma frame_rows_dates (d : DataFrame) (rows : list Row) :
  frame_rows d = Ok rows ->
  exists dates, getitem d "Date" = Ok (Datetime64 dates) /\ map Date rows = dates.
Proof.
  unfold frame_rows.
  destruct (getitem d "Date") as [s|]; [|discriminate].
  cbn [mbind result_bind]. destruct s as [| |dates]; try discriminate.
  cbn [mbind result_bind].
  repeat match goal with
  | |- (mbind _ ?m) = _ -> _ =>
      let x := fresh in destruct m as [x|]; [|discriminate]; cbn [mbind result_bind]
  | |- (mbind _ (match ?s with _ => _ end)) = _ -> _ =>
      destruct s; try discriminate; cbn [mbind result_bind]
  end.
  intros [= <-]. exists dates. split; [reflexivity|].
  rewrite map_map. cbn [Date].
  apply nth_error_ext. intros n. rewrite nth_error_map.
  destruct (Nat.lt_ge_cases n (length dates)) as [Hn|Hn].
  - rewrite nth_error_seq, (proj2 (Nat.ltb_lt _ _) Hn). cbn.
    symmetry. now apply nth_error_nth'.
  - rewrite (proj2 (nth_error_None (seq 0 (length dates)) n)) by (rewrite length_seq; lia).
    symmetry. now apply nth_error_None.
Qed.

(** The table read off a loaded frame is sorted by date. *)
Lemma loaded_rows_sorted (to_datetime : Series -> option (list Z))
    (r r' : loc) (h h' : heap) (d' : DataFrame) (rows : list Row) :
  process_data to_datetime r h = (Ok r', h') ->
  h' !! r' = Some d' ->
  frame_rows d' = Ok rows ->
  Sorted Z.le (map Date rows).
Proof.
  intros P L R.
  destruct (process_data_sorted _ _ _ _ _ P) as (d & dates & L' & G & S).
  destruct (frame_rows_dates _ _ R) as (dates' & G' & <-).
  congruence.
Qed.

(** Detection on a loaded table returns its events in date order. *)
Corollary detection_after_loading (to_datetime : Series -> option (list Z))
    (r r' : loc) (h h' : heap) (d' : DataFrame) (rows : list Row) (symbol : string) :
  process_data to_datetime r h = (Ok r', h') ->
  h' !! r' = Some d' ->
  frame_rows d' = Ok rows ->
  Patterns.rows_of_symbol rows symbol <> [] ->
  exists events,
    Patterns.identify_patterns rows symbol 20 = Ok events /\
    Sorted Z.le (map date events).
Proof.
  intros P L R Hne.
  apply PatternFacts.identify_patterns_in_date_order; [|assumption].
  eapply loaded_rows_sorted; eassumption.
Qed.

End SortFacts.

(** ** Summary statistics *)

Module SummaryFacts.
Import PyFloat Pandas Summary.

Lemma dropna_not_nan (s : list float) :
  Forall (fun x => isnan x = false) (dropna s).
Proof.
  apply List.Forall_forall. intros x Hx. apply filter_In in Hx.
  destruct Hx as [_ Hx]. now destruct (isnan x).
Qed.

Lemma fold_max_spec (v : list float) :
  Forall (fun y => isnan y = false) v ->
  forall acc, isnan acc = false ->
    let m := fold_left (fun acc y => if (acc <? y)%float then y else acc) v acc in
    isnan m = false /\ le acc m = true /\
    Forall (fun y => le y m = true) v /\ (m = acc \/ In m v).
Proof.
  induction 1 as [|y v Hy Hv IH]; intros acc Hacc; cbn [fold_left]; cbv zeta.
  - repeat split; [assumption | now apply FloatFacts.le_refl | constructor | now left].
  - destruct (acc <? y)%float eqn:C.
    + destruct (IH y Hy) as (Hm & Hle & Hall & Hin).
      repeat split; try assumption.
      * eapply FloatFacts.le_trans; [apply FloatFacts.lt_le, C | exact Hle].
      * constructor; assumption.
      * destruct Hin as [->|Hin]; right; [now left | now right].
    + destruct (IH acc Hacc) as (Hm & Hle & Hall & Hin).
      repeat split; try assumption.
      * constructor; [|assumption].
        eapply FloatFacts.le_trans; [|exact Hle].
        now apply FloatFacts.not_lt_le.
      * destruct Hin as [->|Hin]; [now left | right; now right].
Qed.

Lemma fold_min_spec (v : list float) :
  Forall (fun y => isnan y = false) v ->
  forall acc, isnan acc = false ->
    let m := fold_left (fun acc y => if (y <? acc)%float then y else acc) v acc in
    isnan m = false /\ le m acc = true /\
    Forall (fun y => le m y = true) v /\ (m = acc \/ In m v).
Proof.
  induction 1 as [|y v Hy Hv IH]; intros acc Hacc; cbn [fold_left]; cbv zeta.
  - repeat split; [assumption | now apply FloatFacts.le_refl | constructor | now left].
  - destruct (y <? acc)%float eqn:C.
    + destruct (IH y Hy) as (Hm & Hle & Hall & Hin).
      repeat split; try assumption.
      * eapply FloatFacts.le_trans; [exact Hle | apply FloatFacts.lt_le, C].
      * constructor; assumption.
      * destruct Hin as [->|Hin]; right; [now left | now right].
    + destruct (IH acc Hacc) as (Hm & Hle & Hall & Hin).
      repeat split; try assumption.
      * constructor; [|assumption].
        eapply FloatFacts.le_trans; [exact Hle|].
        now apply FloatFacts.not_lt_le.
      * destruct Hin as [->|Hin]; [now left | right; now right].
Qed.

(** [Series.max()] is the greatest of the values that are not NaN, and one
    of them. *)
Lemma max_is_maximum (s : list float) :
  (forall x, In x s -> isnan x = false -> le x (Pandas.max s) = true) /\
  ((exists x, In x s /\ isnan x = false) -> In (Pandas.max s) s).
Proof.
  unfold Pandas.max. pose proof (dropna_not_nan s) as Hn.
  assert (Hin : forall x, In x s -> isnan x = false -> In x (dropna s)).
  { intros x Hx Hx'. apply filter_In. split; [assumption | now rewrite Hx']. }
  assert (Hsub : forall x, In x (dropna s) -> In x s).
  { intros x Hx. apply filter_In in Hx. tauto. }
  destruct (dropna s) as [|a v].
  - split; [intros x Hx Hx'; destruct (Hin x Hx Hx') |].
    intros (x & Hx & Hx'). destruct (Hin x Hx Hx').
  - inversion Hn as [|? ? Ha Hv]; subst.
    destruct (fold_max_spec v Hv a Ha) as (_ & Hle & Hall & Hm).
    split.
    + intros x Hx Hx'. destruct (Hin x Hx Hx') as [<-|Hxv]; [assumption|].
      rewrite List.Forall_forall in Hall. now apply Hall.
    + intros _. apply Hsub. destruct Hm as [->|Hm]; [now left | now right].
Qed.

Lemma min_is_minimum (s : list float) :
  (forall x, In x s -> isnan x = false -> le (Pandas.min s) x = true) /\
  ((exists x, In x s /\ isnan x = false) -> In (Pandas.min s) s).
Proof.
  unfold Pandas.min. pose proof (dropna_not_nan s) as Hn.
  assert (Hin : forall x, In x s -> isnan x = false -> In x (dropna s)).
  { intros x Hx Hx'. apply filter_In. split; [assumption | now rewrite Hx']. }
  assert (Hsub : forall x, In x (dropna s) -> In x s).
  { intros x Hx. apply filter_In in Hx. tauto. }
  destruct (dropna s) as [|a v].
  - split; [intros x Hx Hx'; destruct (Hin x Hx Hx') |].
    intros (x & Hx & Hx'). destruct (Hin x Hx Hx').
  - inversion Hn as [|? ? Ha Hv]; subst.
    destruct (fold_min_spec v Hv a Ha) as (_ & Hle & Hall & Hm).
    split.
    + intros x Hx Hx'. destruct (Hin x Hx Hx') as [<-|Hxv]; [assumption|].
      rewrite List.Forall_forall in Hall. now apply Hall.
    + intros _. apply Hsub. destruct Hm as [->|Hm]; [now left | now right].
Qed.

(** A single close has no previous close: its return is NaN. *)
Lemma pct_change_single (c : float) : pct_change [c] = [nan].
Proof.
  unfold pct_change. cbn [ffill_from pairwise].
  now rewrite FloatFacts.div_nan, FloatFacts.nan_sub.
Qed.

Lemma get_stock_summary_ok (fmt_2f fmt_pct fmt_thousands : float -> string)
    (df : list Row) (symbol : string) :
  Patterns.rows_of_symbol df symbol <> [] ->
  exists last,
    iloc_neg (Patterns.rows_of_symbol df symbol) 1 = Ok last /\
    get_stock_summary fmt_2f fmt_pct fmt_thousands df symbol =
      Ok (let stock_data := Patterns.rows_of_symbol df symbol in
          [ ("Symbol", symbol);
            ("Current Price", "$" ++ fmt_2f (Close last));
            ("52-Week High", "$" ++ fmt_2f (Pandas.max (map High stock_data)));
            ("52-Week Low", "$" ++ fmt_2f (Pandas.min (map Low stock_data)));
            ("Average Volume", fmt_thousands (mean (map Volume stock_data)));
            ("Volatility", fmt_pct (annualized_volatility stock_data));
            ("Annual Return", fmt_pct (annualized_return stock_data));
            ("Sharpe Ratio", fmt_2f (sharpe_ratio stock_data));
            ("RSI", fmt_2f (RSI last));
            ("MACD", fmt_2f (MACD last));
            ("SMA_20", "$" ++ fmt_2f (SMA_20 last));
            ("SMA_50", "$" ++ fmt_2f (SMA_50 last));
            ("SMA_200", "$" ++ fmt_2f (SMA_200 last)) ]).
Proof.
  intros Hne. unfold get_stock_summary.
  destruct (Patterns.rows_of_symbol df symbol) as [|r rest] eqn:E; [congruence|].
  assert (Hl : exists last, iloc_neg (r :: rest) 1 = Ok last).
  { unfold iloc_neg, iloc.
    replace ((1 <=? 1)%nat && (1 <=? length (r :: rest))%nat) with true by reflexivity.
    destruct (nth_error (r :: rest) (length (r :: rest) - 1)) as [x|] eqn:N.
    - eauto.
    - apply nth_error_None in N. simpl in N. lia. }
  destruct Hl as [last Hl]. exists last. split; [assumption|].
  rewrite Hl. reflexivity.
Qed.

Lemma calculate_statistics_ok (fmt_2f fmt_thousands : float -> string)
    (frame : DataFrame) (stats : list (string * string)) :
  App.calculate_statistics fmt_2f fmt_thousands frame = Ok stats ->
  exists high low,
    Frame.getfloat frame "high" = Ok high /\
    Frame.getfloat frame "low" = Ok low /\
    dict_get "52 Week High" stats = Some ("$" ++ fmt_2f (Pandas.max high)) /\
    dict_get "52 Week Low" stats = Some ("$" ++ fmt_2f (Pandas.min low)).
Proof.
  unfold App.calculate_statistics.
  destruct (Frame.getfloat frame "close") as [close|]; [|discriminate].
  cbn [mbind result_bind].
  destruct (Pandas.iloc_neg close 1) as [current|]; [|discriminate].
  cbn [mbind result_bind].
  destruct (Frame.getfloat frame "high") as [high|]; [|discriminate].
  destruct (Frame.getfloat frame "low") as [low|]; [|discriminate].
  cbn [mbind result_bind].
  destruct (Frame.getfloat frame "volume") as [volume|]; [|discriminate].
  destruct (Frame.getfloat frame "RSI") as [rsi|]; [|discriminate].
  cbn [mbind result_bind].
  destruct (Pandas.iloc_neg rsi 1) as [last_rsi|]; [|discriminate].
  destruct (Frame.getfloat frame "MACD") as [macd|]; [|discriminate].
  cbn [mbind result_bind].
  destruct (Pandas.iloc_neg macd 1) as [last_macd|]; [|discriminate].
  cbn [mbind result_bind].
  intros [= <-]. exists high, low. repeat split.
Qed.

End SummaryFacts.

(** ** Facts for the further properties *)

Module NanFacts.
Import PyFloat.

Lemma lt_nan_l (x : float) : lt nan x = false.
Proof.
  unfold lt. rewrite FloatAxioms.ltb_spec. change (Prim2SF nan) with S754_nan.
  reflexivity.
Qed.

Lemma lt_nan_r (x : float) : lt x nan = false.
Proof.
  unfold lt. rewrite FloatAxioms.ltb_spec. change (Prim2SF nan) with S754_nan.
  unfold SFltb. destruct (Prim2SF x); reflexivity.
Qed.

Lemma le_nan_l (x : float) : le nan x = false.
Proof.
  unfold le. rewrite FloatAxioms.leb_spec. change (Prim2SF nan) with S754_nan.
  reflexivity.
Qed.

Lemma le_nan_r (x : float) : le x nan = false.
Proof.
  unfold le. rewrite FloatAxioms.leb_spec. change (Prim2SF nan) with S754_nan.
  unfold SFleb. destruct (Prim2SF x); reflexivity.
Qed.

Lemma sub_nan (x : float) : (x - nan)%float = nan.
Proof.
  rewrite <- (SF2Prim_Prim2SF (x - nan)), FloatAxioms.sub_spec.
  change (Prim2SF nan) with S754_nan.
  destruct (Prim2SF x) as [s|s| |s m e]; reflexivity.
Qed.

End NanFacts.

Module ScanFacts.
Import PyFloat Pandas Patterns Turn.
Import PatternFacts.

Lemma scan_raised (stock_data : list Row) (window : nat) (e : exn) (turns : list nat) :
  fold_left
    (fun acc i =>
       patterns ← acc;
       found ← patterns_at stock_data window i;
       Ok (patterns ++ found)%list)
    turns (Raise e)
  = Raise e.
Proof. induction turns as [|i turns IH]; [reflexivity | exact IH]. Qed.

(** With a window of fewer than two rows the first turn has no row at
    position -2. *)
Lemma patterns_at_narrow (stock_data : list Row) (window i : nat) :
  window < 2 -> i < length stock_data ->
  patterns_at stock_data window i = Raise IndexError.
Proof.
  intros Hw Hi. unfold patterns_at, iloc.
  destruct (nth_error stock_data i) as [c|] eqn:E;
    [|apply nth_error_None in E; lia].
  cbn [mbind result_bind]. unfold iloc_neg.
  assert (L : length (islice stock_data (i - window) i) < 2).
  { unfold islice. rewrite length_skipn, length_firstn. lia. }
  destruct (Nat.leb_spec 2 (length (islice stock_data (i - window) i))); [lia|].
  reflexivity.
Qed.

Lemma identify_patterns_narrow (df : list Row) (symbol : string) (window : nat) :
  window < 2 -> window < length (rows_of_symbol df symbol) ->
  identify_patterns df symbol window = Raise IndexError.
Proof.
  intros Hw Hl. unfold identify_patterns.
  destruct (rows_of_symbol df symbol) as [|r rest] eqn:E; [simpl in Hl; lia|].
  cbv zeta.
  destruct (length (r :: rest) - window) as [|k] eqn:K; [lia|].
  cbn [seq fold_left]. cbn [mbind result_bind].
  rewrite patterns_at_narrow by lia. cbn [mbind result_bind].
  apply scan_raised.
Qed.

Lemma turn_events_length (stock_data : list Row) (window i : nat) :
  2 <= window <= i -> i < length stock_data ->
  length (turn_events stock_data window i) <= 4.
Proof.
  intros Hw Hi. unfold turn_events.
  destruct (patterns_at_ok stock_data window i) as (b & l & c & _ & _ & _ & E);
    [assumption | assumption |].
  rewrite E. apply window_events_groups.
Qed.

Lemma scan_length (stock_data : list Row) (window : nat) :
  2 <= window ->
  forall k start, window <= start -> start + k <= length stock_data ->
    length (concat (map (turn_events stock_data window) (seq start k))) <= 4 * k.
Proof.
  intros Hw. induction k as [|k IH]; intros start Hs Hl; [simpl; lia|].
  cbn [seq map concat]. rewrite length_app.
  pose proof (turn_events_length stock_data window start ltac:(lia) ltac:(lia)).
  specialize (IH (S start) ltac:(lia) ltac:(lia)). lia.
Qed.

Lemma scan_dates (stock_data : list Row) (window : nat) :
  2 <= window ->
  forall k start, window <= start -> start + k <= length stock_data ->
    Forall (fun e => exists i r, start <= i < start + k /\
                                 nth_error stock_data i = Some r /\ date e = Date r)
           (concat (map (turn_events stock_data window) (seq start k))).
Proof.
  intros Hw. induction k as [|k IH]; intros start Hs Hl; [constructor|].
  cbn [seq map concat]. apply List.Forall_app. split.
  - destruct (patterns_at_ok stock_data window start) as (b & l & c & _ & _ & Hc & E);
      [lia | lia |].
    unfold turn_events. rewrite E.
    eapply List.Forall_impl; [|apply window_events_dates].
    intros e He. exists start, c. repeat split; (lia || assumption).
  - eapply List.Forall_impl; [|apply (IH (S start)); lia].
    intros e (i & r & Hi & Hr & Hd). exists i, r. repeat split; (lia || assumption).
Qed.

Lemma all_nan_diff (close : list float) (prev : float) :
  Forall (fun x => isnan x = true) close ->
  dropna (pairwise (fun prev cur => cur - prev)%float prev close) = [].
Proof.
  intros H. revert prev. induction H as [|x l Hx Hl IH]; intros prev; [reflexivity|].
  cbn [pairwise]. rewrite (FloatFacts.isnan_eq x Hx), FloatFacts.nan_sub.
  unfold dropna in *. cbn [List.filter]. apply IH.
Qed.

End ScanFacts.

Module VolatilityFacts.
Import PyFloat Pandas Summary.

Lemma iloc_neg_last {A} (l : list A) (x : A) :
  iloc_neg (l ++ [x]) 1 = Ok x.
Proof.
  unfold iloc_neg, iloc. rewrite length_app. cbn [length].
  destruct (Nat.leb_spec 1 (length l + 1)); [|lia]. cbn [Nat.leb andb].
  replace (length l + 1 - 1) with (length l) by lia.
  rewrite nth_error_app2 by lia. now rewrite Nat.sub_diag.
Qed.

Lemma std_short (s : list float) :
  length (dropna s) <= 1 -> std s = nan.
Proof.
  intros H. unfold std, std_ddof, var.
  destruct (Nat.leb_spec (length (dropna s)) 1); [reflexivity | lia].
Qed.

Lemma pct_change_length (s : list float) : length (pct_change s) = length s.
Proof.
  unfold pct_change. generalize nan at 1 2.
  induction s as [|x s IH]; intros p; [reflexivity|].
  cbn [ffill_from pairwise length]. f_equal. apply IH.
Qed.

Lemma pct_change_head (x : float) (s : list float) :
  exists t, pct_change (x :: s) = nan :: t.
Proof.
  unfold pct_change. cbn [ffill_from pairwise].
  rewrite FloatFacts.div_nan, FloatFacts.nan_sub. eauto.
Qed.

Lemma dropna_length (s : list float) : length (dropna s) <= length s.
Proof. apply List.filter_length_le. Qed.

(** Fewer than three closes leave at most one defined return. *)
Lemma few_returns (stock_data : list Row) :
  length stock_data <= 2 -> length (dropna (daily_returns stock_data)) <= 1.
Proof.
  intros H. unfold daily_returns.
  destruct stock_data as [|r rest]; [simpl; lia|].
  cbn [map]. destruct (pct_change_head (Close r) (map Close rest)) as [t E].
  pose proof (pct_change_length (Close r :: map Close rest)) as L.
  rewrite E in *. cbn [length] in L. rewrite length_map in L.
  unfold dropna. cbn [List.filter]. change (isnan nan) with true. cbn [negb].
  pose proof (List.filter_length_le (fun x => negb (isnan x)) t).
  simpl in H. lia.
Qed.

End VolatilityFacts.

(** *** Renaming, sorting and the loaded frame *)

Module RenameFacts.
Import Frame StockAnalyzer.
Import HeaderFacts.

Lemma renamed_distinct (old new : string) (labels : list string) :
  List.NoDup labels -> ~ In new labels ->
  List.NoDup (map (fun l => if String.eqb l old then new else l) labels).
Proof.
  induction 1 as [|x l Hx Hl IH]; intros Hn; cbn [map]; [constructor|].
  assert (Hn' : ~ In new l) by (intros ?; apply Hn; now right).
  constructor; [|now apply IH].
  rewrite in_map_iff. intros (y & Ey & Hy).
  destruct (String.eqb_spec x old) as [Hxo|Hxo];
    destruct (String.eqb_spec y old) as [Hyo|Hyo].
  - apply Hx. congruence.
  - apply Hn'. congruence.
  - apply Hn. left. congruence.
  - apply Hx. congruence.
Qed.

Lemma rename_step_distinct (df : DataFrame) (m : string * string) :
  List.NoDup (columns df) -> List.NoDup (columns (rename_step df m)).
Proof.
  intros H. destruct m as [old new]. unfold rename_step.
  destruct (mem old (columns df)) eqn:Ho; [|assumption].
  destruct (mem new (columns df)) eqn:Hn; [assumption|]. cbn [negb andb].
  rewrite columns_rename. apply renamed_distinct; [assumption|].
  intros Hin. apply mem_true in Hin. congruence.
Qed.

Lemma rename_step_data (df : DataFrame) (m : string * string) :
  map snd (rename_step df m) = map snd df.
Proof.
  destruct m as [old new]. unfold rename_step.
  destruct (mem old (columns df) && negb (mem new (columns df))); [|reflexivity].
  unfold rename. rewrite map_map. apply map_ext.
  intros [l s]. cbn. now destruct (String.eqb l old).
Qed.

Lemma renaming_distinct (mapping : list (string * string)) (df : DataFrame) :
  List.NoDup (columns df) ->
  List.NoDup (columns (fold_left rename_step mapping df)).
Proof.
  revert df. induction mapping as [|m mapping IH]; intros df H; [assumption|].
  cbn [fold_left]. apply IH. now apply rename_step_distinct.
Qed.

Lemma renaming_data (mapping : list (string * string)) (df : DataFrame) :
  map snd (fold_left rename_step mapping df) = map snd df.
Proof.
  revert df. induction mapping as [|m mapping IH]; intros df; [reflexivity|].
  cbn [fold_left]. rewrite IH. apply rename_step_data.
Qed.

End RenameFacts.

Module PermFacts.
Import Frame.

Lemma insert_key_perm (k : Z) (i : nat) (l : list (Z * nat)) :
  Permutation ((k, i) :: l) (insert_key k i l).
Proof.
  induction l as [|[k' i'] t IH]; cbn [insert_key]; [reflexivity|].
  destruct (k <=? k')%Z; [reflexivity|].
  rewrite perm_swap. now apply perm_skip.
Qed.

Lemma map_fst_combine_seq (keys : list Z) (start : nat) :
  map fst (combine keys (seq start (length keys))) = keys.
Proof.
  revert start. induction keys as [|k keys IH]; intros start; [reflexivity|].
  cbn. now rewrite IH.
Qed.

(** The indexer visits every row once. *)
Lemma argsort_perm (keys : list Z) :
  Permutation (take_positions (argsort keys) keys) keys.
Proof.
  unfold argsort.
  set (pairs := combine keys (seq 0 (length keys))).
  assert (V : Forall (fun p => nth_error keys (snd p) = Some (fst p)) pairs)
    by apply (SortFacts.combine_seq_valid [] keys).
  assert (I : Permutation
                (fold_right (fun ki acc => insert_key (fst ki) (snd ki) acc) [] pairs)
                pairs /\
              Forall (fun p => nth_error keys (snd p) = Some (fst p))
                (fold_right (fun ki acc => insert_key (fst ki) (snd ki) acc) [] pairs)).
  { induction V as [|[k i] l Hp Hl IH]; cbn [fold_right fst snd]; [split; constructor|].
    destruct IH as [P F]. split.
    - rewrite <- insert_key_perm. now apply perm_skip.
    - now apply SortFacts.insert_key_valid. }
  destruct I as [P F]. rewrite SortFacts.take_positions_valid by assumption.
  rewrite (Permutation_map fst P). unfold pairs. now rewrite map_fst_combine_seq.
Qed.

Lemma columns_map_snd (f : Series -> Series) (d : DataFrame) :
  columns (map (fun c => (fst c, f (snd c))) d) = columns d.
Proof. unfold columns. rewrite map_map. reflexivity. Qed.

End PermFacts.

Module ColumnFacts.
Import Frame Store StockAnalyzer Effects.
Import FrameFacts StoreFacts HeaderFacts AugmentFacts.

Lemma find_app_none {A} (f : A -> bool) (a b : list A) :
  List.find f a = None -> List.find f (a ++ b) = List.find f b.
Proof.
  induction a as [|x a IH]; [reflexivity|]. cbn [List.find app].
  destruct (f x); [discriminate | exact IH].
Qed.

(** Reading back the column just assigned. *)
Lemma getitem_setitem_eq (d : DataFrame) (label : string) (s : Series) :
  getitem (setitem d label s) label = Ok s.
Proof.
  unfold getitem, setitem. destruct (mem label (columns d)) eqn:M.
  - induction d as [|[l c] d IH]; [discriminate M|].
    cbn [map List.find fst snd].
    destruct (String.eqb_spec l label) as [->|Hl]; cbn [fst snd].
    + rewrite String.eqb_refl. reflexivity.
    + rewrite (proj2 (String.eqb_neq l label) Hl). apply IH.
      unfold mem, columns in M |- *. cbn in M.
      rewrite (String.eqb_sym label l), (proj2 (String.eqb_neq l label) Hl) in M.
      exact M.
  - rewrite find_app_none by now apply find_none_of_mem.
    cbn. now rewrite String.eqb_refl.
Qed.

Lemma sort_values_columns (d sorted : DataFrame) (label : string) :
  sort_values d label = Ok sorted -> columns sorted = columns d.
Proof.
  unfold sort_values. destruct (getitem d label) as [s|]; [|discriminate].
  cbn [mbind result_bind]. destruct s; try discriminate.
  intros [= <-]. apply PermFacts.columns_map_snd.
Qed.

Lemma sort_values_getitem (d sorted : DataFrame) (keys : list Z) :
  getitem d "Date" = Ok (Datetime64 keys) ->
  sort_values d "Date" = Ok sorted ->
  forall label,
    getitem sorted label = (s ← getitem d label; Ok (series_take (argsort keys) s)).
Proof.
  intros G. unfold sort_values. rewrite G. cbn [mbind result_bind].
  intros [= <-] label. apply SortFacts.getitem_map_snd.
Qed.

Lemma getfloat_take (d : DataFrame) (label : string) (positions : list nat)
    (xs : list float) :
  getfloat d label = Ok xs ->
  getfloat (map (fun c => (fst c, series_take positions (snd c))) d) label =
  Ok (take_positions positions xs).
Proof.
  unfold getfloat. rewrite SortFacts.getitem_map_snd.
  destruct (getitem d label) as [[]|]; try discriminate.
  cbn [mbind result_bind as_float64 series_take]. now intros [= ->].
Qed.

Lemma getitem_none (d : DataFrame) (label : string) :
  mem label (columns d) = false -> getitem d label = Raise (KeyError label).
Proof. intros H. unfold getitem. now rewrite find_none_of_mem. Qed.

Lemma renamed_no_symbol (df : DataFrame) :
  mem "Symbol" (columns (fold_left rename_step column_mapping df)) =
  mem "Symbol" (columns df).
Proof. HeaderFacts.through_renaming. reflexivity. Qed.

End ColumnFacts.

Module LoadFacts.
Import Frame Store StockAnalyzer Effects.
Import FrameFacts StoreFacts HeaderFacts AugmentFacts.

Lemma augmented_untouched (d : DataFrame) (close high low : list float) :
  untouched indicator_columns d (augmented d close high low).
Proof. unfold augmented. cbn [fold_left fst snd]. AugmentFacts.kept. Qed.

Lemma augmented_present (d : DataFrame) (close high low : list float) :
  Forall (fun l => mem l (columns (augmented d close high low)) = true)
         indicator_columns.
Proof. unfold augmented. cbn [fold_left fst snd]. AugmentFacts.present. Qed.

Lemma augmented_keeps (d : DataFrame) (close high low : list float) (l : string) :
  mem l (columns d) = true -> mem l (columns (augmented d close high low)) = true.
Proof.
  intros H. unfold augmented. cbn [fold_left fst snd].
  repeat apply mem_setitem_mono. assumption.
Qed.

(** The whole of [calculate_technical_indicators] when Close, High and Low
    are numeric columns. *)
Lemma calculate_ok (r : loc) (h : heap) (d : DataFrame) (close high low : list float) :
  h !! r = Some d ->
  getfloat d "Close" = Ok close ->
  getfloat d "High" = Ok high ->
  getfloat d "Low" = Ok low ->
  calculate_technical_indicators r h = (Ok tt, <[r := augmented d close high low]> h).
Proof.
  intros H EC EH EL. unfold calculate_technical_indicators.
  repeat (AugmentFacts.run_statement; rewrite ?EC, ?EH, ?EL; cbv beta iota).
  rewrite run_setitem with (d := setitem _ "Stoch_K" _) by apply lookup_insert_eq.
  rewrite insert_insert_eq. unfold augmented. cbn [fold_left fst snd]. reflexivity.
Qed.

Lemma calculate_ok_inv (r : loc) (h h' : heap) (d : DataFrame) :
  h !! r = Some d ->
  calculate_technical_indicators r h = (Ok tt, h') ->
  exists close high low,
    getfloat d "Close" = Ok close /\ getfloat d "High" = Ok high /\
    getfloat d "Low" = Ok low /\ h' = <[r := augmented d close high low]> h.
Proof.
  intros H.
  destruct (getfloat d "Close") as [close|e] eqn:EC.
  - destruct (getfloat d "High") as [high|e] eqn:EH.
    + destruct (getfloat d "Low") as [low|e] eqn:EL.
      * rewrite (calculate_ok r h d close high low H EC EH EL).
        intros [= <-]. exists close, high, low. repeat split.
      * unfold calculate_technical_indicators.
        repeat (AugmentFacts.run_statement; rewrite ?EC, ?EH, ?EL; cbv beta iota).
        discriminate.
    + unfold calculate_technical_indicators.
      repeat (AugmentFacts.run_statement; rewrite ?EC, ?EH; cbv beta iota).
      discriminate.
  - unfold calculate_technical_indicators.
    AugmentFacts.run_statement. rewrite EC. discriminate.
Qed.

Section Loading.
Variable to_datetime : Series -> option (list Z).

(** What a normal return of [process_data] means, step by step. *)
Lemma process_data_ok_inv (r r' : loc) (h h' : heap) :
  process_data to_datetime r h = (Ok r', h') ->
  exists df s ts sorted close high low,
    h !! r = Some df /\
    missing_columns (fold_left rename_step column_mapping df) = [] /\
    getitem (fold_left rename_step column_mapping df) "Date" = Ok s /\
    to_datetime s = Some ts /\
    sort_values (setitem (fold_left rename_step column_mapping df) "Date" (Datetime64 ts))
      "Date" = Ok sorted /\
    getfloat sorted "Close" = Ok close /\
    getfloat sorted "High" = Ok high /\
    getfloat sorted "Low" = Ok low /\
    r' = fresh (dom (<[r := setitem (fold_left rename_step column_mapping df) "Date"
                             (Datetime64 ts)]> h)) /\
    h' = <[r' := augmented sorted close high low]>
           (<[r := setitem (fold_left rename_step column_mapping df) "Date"
                     (Datetime64 ts)]> h).
Proof.
  unfold process_data. rewrite run_bind. unfold load at 1.
  destruct (h !! r) as [df|] eqn:Hr; [|discriminate]. cbv beta iota.
  rewrite run_bind. unfold store at 1. cbv beta iota.
  rewrite run_bind. unfold load at 1. rewrite lookup_insert_eq. cbv beta iota.
  set (d1 := fold_left rename_step column_mapping df).
  destruct (missing_columns d1) eqn:EM; [|discriminate].
  rewrite run_bind. unfold lift at 1.
  destruct (getitem d1 "Date") as [s|] eqn:G; [|discriminate].
  cbn [mbind result_bind].
  destruct (to_datetime s) as [ts|] eqn:T; [|discriminate]. cbv beta iota.
  rewrite run_bind. erewrite run_setitem by apply lookup_insert_eq.
  rewrite insert_insert_eq. cbv beta iota.
  rewrite run_bind. unfold load at 1. rewrite lookup_insert_eq. cbv beta iota.
  rewrite run_bind. unfold lift at 1.
  destruct (sort_values _ "Date") as [sorted|] eqn:S; [|discriminate].
  cbv beta iota.
  rewrite run_bind. unfold alloc at 1. cbv beta iota zeta.
  set (h0 := <[r := _]> h). set (r0 := fresh (dom h0)).
  rewrite run_bind.
  destruct (calculate_technical_indicators r0 (<[r0 := sorted]> h0)) as [[[]|e] h1] eqn:C;
    [|discriminate].
  destruct (calculate_ok_inv r0 _ _ sorted (lookup_insert_eq _ _ _) C)
    as (close & high & low & EC & EH & EL & ->).
  unfold mret, M_ret. intros [= <- <-].
  exists df, s, ts, sorted, close, high, low.
  rewrite insert_insert_eq. repeat split; assumption.
Qed.

End Loading.

Lemma missing_nil_present (d : DataFrame) :
  missing_columns d = [] ->
  Forall (fun l => mem l (columns d) = true) required_columns.
Proof.
  unfold missing_columns, required_columns. intros H.
  repeat (apply List.Forall_cons || apply List.Forall_nil);
    match goal with
    | |- mem ?l _ = true =>
        destruct (mem l (columns d)) eqn:E; [reflexivity|];
        cbn [List.filter] in H; rewrite ?E in H; cbn [negb] in H;
        repeat match type of H with
               | context [if negb ?b then _ else _] => destruct b; cbn [negb] in H
               end; discriminate H
    end.
Qed.

(** [process_data] on an accepted header with parsable dates and numeric
    prices runs to the end. *)
Lemma process_data_ok
    (to_datetime : Series -> option (list Z)) (r : loc) (h : heap) (df : DataFrame)
    (s : Series) (parsed : list Z) (close high low : list float) :
  h !! r = Some df ->
  header_accepted (Frame.columns df) = true ->
  Frame.getitem (fold_left StockAnalyzer.rename_step StockAnalyzer.column_mapping df)
    "Date" = Ok s ->
  to_datetime s = Some parsed ->
  Frame.getfloat (fold_left StockAnalyzer.rename_step StockAnalyzer.column_mapping df)
    "Close" = Ok close ->
  Frame.getfloat (fold_left StockAnalyzer.rename_step StockAnalyzer.column_mapping df)
    "High" = Ok high ->
  Frame.getfloat (fold_left StockAnalyzer.rename_step StockAnalyzer.column_mapping df)
    "Low" = Ok low ->
  exists r' h', StockAnalyzer.process_data to_datetime r h = (Ok r', h').
Proof.
  intros Hr Ha G T EC EH EL.
  apply HeaderFacts.missing_columns_nil in Ha.
  unfold StockAnalyzer.process_data.
  rewrite StoreFacts.run_bind. unfold Store.load at 1. rewrite Hr. cbv beta iota.
  rewrite StoreFacts.run_bind. unfold Store.store at 1. cbv beta iota.
  rewrite StoreFacts.run_bind. unfold Store.load at 1. rewrite lookup_insert_eq.
  cbv beta iota. rewrite Ha.
  rewrite StoreFacts.run_bind. unfold Store.lift at 1. rewrite G.
  cbn [mbind result_bind]. rewrite T. cbv beta iota.
  rewrite StoreFacts.run_bind.
  erewrite StoreFacts.run_setitem by apply lookup_insert_eq.
  rewrite insert_insert_eq. cbv beta iota.
  rewrite StoreFacts.run_bind. unfold Store.load at 1. rewrite lookup_insert_eq.
  cbv beta iota.
  set (d2 := Frame.setitem _ "Date" (Datetime64 parsed)).
  assert (S : Frame.sort_values d2 "Date"
              = Ok (map (fun c => (fst c, Frame.series_take (Frame.argsort parsed) (snd c)))
                      d2)).
  { unfold Frame.sort_values, d2. rewrite ColumnFacts.getitem_setitem_eq. reflexivity. }
  rewrite StoreFacts.run_bind. unfold Store.lift at 1. rewrite S. cbv beta iota.
  rewrite StoreFacts.run_bind. unfold Store.alloc at 1. cbv beta iota zeta.
  set (h0 := <[r := d2]> h). set (r0 := fresh (dom h0)).
  rewrite StoreFacts.run_bind.
  rewrite (calculate_ok r0 _ _
             (Frame.take_positions (Frame.argsort parsed) close)
             (Frame.take_positions (Frame.argsort parsed) high)
             (Frame.take_positions (Frame.argsort parsed) low)
             (lookup_insert_eq _ _ _)).
  - cbv beta iota. unfold mret, M_ret. eauto.
  - apply ColumnFacts.getfloat_take. unfold d2.
    now rewrite FrameFacts.getfloat_setitem_ne.
  - apply ColumnFacts.getfloat_take. unfold d2.
    now rewrite FrameFacts.getfloat_setitem_ne.
  - apply ColumnFacts.getfloat_take. unfold d2.
    now rewrite FrameFacts.getfloat_setitem_ne.
Qed.

(** No step of [process_data] creates a Symbol column. *)
Lemma symbol_missing
    (to_datetime : Series -> option (list Z)) (r r' : loc) (h h' : heap)
    (df : DataFrame) :
  h !! r = Some df ->
  Frame.mem "Symbol" (Frame.columns df) = false ->
  StockAnalyzer.process_data to_datetime r h = (Ok r', h') ->
  exists d', h' !! r' = Some d' /\
             Frame.getitem d' "Symbol" = Raise (KeyError "Symbol").
Proof.
  intros Hr Hs P.
  destruct (process_data_ok_inv _ _ _ _ _ P)
    as (df' & s & ts & sorted & close & high & low & Hr' & _ & G & T & S & _ & _ & _ & _ & ->).
  assert (df' = df) by congruence. subst df'.
  eexists. split; [apply lookup_insert_eq|].
  rewrite (augmented_untouched sorted close high low "Symbol" eq_refl).
  rewrite (ColumnFacts.sort_values_getitem _ _ ts (ColumnFacts.getitem_setitem_eq _ _ _) S).
  rewrite FrameFacts.getitem_setitem_ne by reflexivity.
  rewrite ColumnFacts.getitem_none; [reflexivity|].
  now rewrite ColumnFacts.renamed_no_symbol.
Qed.

End LoadFacts.

(** *** Row counts and warm-up of the indicators *)

Module IndicatorFacts.
Import PyFloat Pandas ta.

Lemma rolling_length (window : nat) (agg : list float -> float) (s : list float) :
  length (rolling window agg s) = length s.
Proof. unfold rolling. now rewrite length_map, length_seq. Qed.

(** The first [window - 1] rows of a rolling aggregate are NaN. *)
Lemma rolling_warm_up (window : nat) (agg : list float -> float) (s : list float)
    (k : nat) :
  S k < window -> nth k (rolling window agg s) nan = nan.
Proof.
  intros H. unfold rolling.
  destruct (Nat.lt_ge_cases k (length s)) as [Hk|Hk].
  - apply nth_error_nth. rewrite nth_error_map, nth_error_seq.
    rewrite (proj2 (Nat.ltb_lt _ _) Hk). cbn [option_map Nat.add].
    now rewrite (proj2 (Nat.ltb_lt _ _) H).
  - apply nth_overflow. now rewrite length_map, length_seq.
Qed.

Lemma pairwise_length (f : float -> float -> float) (prev : float) (s : list float) :
  length (pairwise f prev s) = length s.
Proof.
  revert prev. induction s as [|x s IH]; intros prev; [reflexivity|].
  cbn [pairwise length]. now rewrite IH.
Qed.

Lemma diff_length (s : list float) : length (diff s) = length s.
Proof. apply pairwise_length. Qed.

Lemma ewm_from_length (alpha : float) (minp : nat) (weighted old_wt : float)
    (nobs : nat) (s : list float) :
  length (ewm_from alpha minp weighted old_wt nobs s) = length s.
Proof.
  revert weighted old_wt nobs.
  induction s as [|x s IH]; intros weighted old_wt nobs; [reflexivity|].
  cbn [ewm_from].
  match goal with
  | |- context [let '(_, _) := ?p in _] => destruct p as [w o]
  end.
  cbn [length]. now rewrite IH.
Qed.

Lemma ewm_length (alpha : float) (minp : nat) (s : list float) :
  length (ewm alpha minp s) = length s.
Proof.
  destruct s as [|x s]; [reflexivity|].
  cbn [ewm length]. now rewrite ewm_from_length.
Qed.

Lemma zip_with_length (f : float -> float -> float) (a b : list float) :
  length a = length b -> length (zip_with f a b) = length a.
Proof.
  revert b. induction a as [|x a IH]; intros [|y b] H; try discriminate; [reflexivity|].
  cbn [zip_with length]. f_equal. apply IH. now injection H.
Qed.

Lemma sma_length (close : list float) (window : nat) :
  length (sma_indicator close window) = length close.
Proof. apply rolling_length. Qed.

Lemma ema_length (close : list float) (window : nat) :
  length (ema_indicator close window) = length close.
Proof. apply ewm_length. Qed.

Lemma macd_length (close : list float) : length (macd close) = length close.
Proof.
  unfold macd, _ema. rewrite zip_with_length; rewrite !ewm_length; reflexivity.
Qed.

Lemma macd_signal_length (close : list float) :
  length (macd_signal close) = length close.
Proof. unfold macd_signal, _ema. now rewrite ewm_length, macd_length. Qed.

Lemma macd_diff_length (close : list float) :
  length (macd_diff close) = length close.
Proof.
  unfold macd_diff.
  rewrite zip_with_length; rewrite ?macd_signal_length, macd_length; reflexivity.
Qed.

Lemma rsi_length (close : list float) : length (rsi close) = length close.
Proof.
  unfold rsi. cbv zeta.
  rewrite zip_with_length; rewrite !ewm_length, !length_map, ?diff_length; reflexivity.
Qed.

Lemma bollinger_hband_length (close : list float) :
  length (bollinger_hband close) = length close.
Proof.
  unfold bollinger_hband, bollinger_mavg, bollinger_mstd.
  rewrite zip_with_length; rewrite !rolling_length; reflexivity.
Qed.

Lemma bollinger_lband_length (close : list float) :
  length (bollinger_lband close) = length close.
Proof.
  unfold bollinger_lband, bollinger_mavg, bollinger_mstd.
  rewrite zip_with_length; rewrite !rolling_length; reflexivity.
Qed.

Lemma bollinger_mavg_length (close : list float) :
  length (bollinger_mavg close) = length close.
Proof. apply rolling_length. Qed.

Lemma stoch_length (high low close : list float) :
  length high = length close -> length low = length close ->
  length (stoch high low close) = length close.
Proof.
  intros Hh Hl. unfold stoch. cbv zeta.
  assert (A : length (zip_with PrimFloat.sub close (rolling 14 Pandas.min low))
              = length close)
    by (apply zip_with_length; now rewrite rolling_length).
  assert (B : length (zip_with PrimFloat.sub (rolling 14 Pandas.max high)
                        (rolling 14 Pandas.min low)) = length close)
    by (rewrite zip_with_length; rewrite !rolling_length; congruence).
  rewrite zip_with_length; congruence.
Qed.

Lemma stoch_signal_length (high low close : list float) :
  length high = length close -> length low = length close ->
  length (stoch_signal high low close) = length close.
Proof.
  intros Hh Hl. unfold stoch_signal. now rewrite rolling_length, stoch_length.
Qed.

End IndicatorFacts.

Module IndexerFacts.
Import Frame.

Lemma map_snd_combine_seq (keys : list Z) (start : nat) :
  map snd (combine keys (seq start (length keys))) = seq start (length keys).
Proof.
  revert start. induction keys as [|k keys IH]; intros start; [reflexivity|].
  cbn. now rewrite IH.
Qed.

(** The indexer is a rearrangement of the row positions. *)
Lemma argsort_perm_seq (keys : list Z) :
  Permutation (argsort keys) (seq 0 (length keys)).
Proof.
  unfold argsort.
  assert (P : forall pairs : list (Z * nat),
             Permutation
               (fold_right (fun ki acc => insert_key (fst ki) (snd ki) acc) [] pairs)
               pairs).
  { induction pairs as [|[k i] l IH]; cbn [fold_right fst snd]; [reflexivity|].
    rewrite <- PermFacts.insert_key_perm. now apply perm_skip. }
  rewrite (Permutation_map snd (P _)). now rewrite map_snd_combine_seq.
Qed.

Lemma argsort_length (keys : list Z) : length (argsort keys) = length keys.
Proof. now rewrite (Permutation_length (argsort_perm_seq keys)), length_seq. Qed.

Lemma argsort_range (keys : list Z) :
  Forall (fun i => i < length keys) (argsort keys).
Proof.
  apply List.Forall_forall. intros i Hi.
  apply (Permutation_in _ (argsort_perm_seq keys)) in Hi.
  apply in_seq in Hi. lia.
Qed.

Lemma take_positions_length {A} (positions : list nat) (xs : list A) :
  Forall (fun i => i < length xs) positions ->
  length (take_positions positions xs) = length positions.
Proof.
  unfold take_positions. induction 1 as [|i l Hi _ IH]; [reflexivity|].
  cbn [flat_map]. rewrite length_app, IH.
  destruct (nth_error xs i) eqn:E; [reflexivity|].
  apply nth_error_None in E. lia.
Qed.

Lemma series_take_length (keys : list Z) (s : Series) :
  series_len s = length keys ->
  series_len (series_take (argsort keys) s) = length keys.
Proof.
  intros H. destruct s; cbn [series_take series_len] in *;
    rewrite take_positions_length, ?argsort_length; try reflexivity;
    rewrite H; apply argsort_range.
Qed.

End IndexerFacts.

Module RectFacts.
Import Frame StockAnalyzer.

Lemma rectangular_data (n : nat) (d d' : DataFrame) :
  map snd d = map snd d' -> rectangular n d -> rectangular n d'.
Proof.
  unfold rectangular. intros E H.
  apply (proj1 (List.Forall_map snd (fun s => series_len s = n) d')).
  rewrite <- E. now apply List.Forall_map.
Qed.

Lemma rectangular_getitem (n : nat) (d : DataFrame) (label : string) (s : Series) :
  rectangular n d -> getitem d label = Ok s -> series_len s = n.
Proof.
  unfold getitem. intros H.
  destruct (List.find _ d) as [c|] eqn:E; [|discriminate].
  intros [= <-]. apply find_some in E.
  exact (proj1 (List.Forall_forall _ _) H c (proj1 E)).
Qed.

Lemma rectangular_getfloat (n : nat) (d : DataFrame) (label : string)
    (xs : list float) :
  rectangular n d -> getfloat d label = Ok xs -> length xs = n.
Proof.
  unfold getfloat. intros H.
  destruct (getitem d label) as [s|] eqn:E; [|discriminate].
  destruct s; try discriminate. intros [= <-].
  exact (rectangular_getitem n d label _ H E).
Qed.

Lemma rectangular_setitem (n : nat) (d : DataFrame) (label : string) (s : Series) :
  rectangular n d -> series_len s = n -> rectangular n (setitem d label s).
Proof.
  unfold rectangular, setitem. intros H Hs.
  destruct (mem label (columns d)).
  - apply List.Forall_map. eapply List.Forall_impl; [|exact H].
    intros c Hc. cbv beta. now destruct (String.eqb (fst c) label).
  - apply List.Forall_app. split; [assumption|]. now repeat constructor.
Qed.

Lemma rectangular_sort (n : nat) (d sorted : DataFrame) :
  rectangular n d -> sort_values d "Date" = Ok sorted -> rectangular n sorted.
Proof.
  intros H. unfold sort_values.
  destruct (getitem d "Date") as [s|] eqn:G; [|discriminate].
  cbn [mbind result_bind]. destruct s as [| |keys]; try discriminate.
  intros [= <-].
  pose proof (rectangular_getitem n d "Date" _ H G) as L. cbn [series_len] in L.
  apply List.Forall_map. eapply List.Forall_impl; [|exact H].
  intros c Hc. cbn [snd]. rewrite IndexerFacts.series_take_length; congruence.
Qed.

Lemma rectangular_augmented (n : nat) (d : DataFrame) (close high low : list float) :
  rectangular n d -> length close = n -> length high = n -> length low = n ->
  rectangular n (augmented d close high low).
Proof.
  intros H Hc Hh Hl. unfold augmented. cbn [fold_left fst snd].
  repeat (apply rectangular_setitem; [|cbn [series_len]]);
    [ assumption | .. ];
    rewrite ?IndicatorFacts.sma_length, ?IndicatorFacts.ema_length,
      ?IndicatorFacts.macd_length, ?IndicatorFacts.macd_signal_length,
      ?IndicatorFacts.macd_diff_length, ?IndicatorFacts.rsi_length,
      ?IndicatorFacts.bollinger_hband_length, ?IndicatorFacts.bollinger_lband_length,
      ?IndicatorFacts.bollinger_mavg_length;
    try assumption;
    first [ rewrite IndicatorFacts.stoch_length | rewrite IndicatorFacts.stoch_signal_length ];
    congruence.
Qed.

End RectFacts.

Module WarmUpFacts.
Import Frame Store StockAnalyzer.

Lemma augmented_sma200 (d : DataFrame) (close high low : list float) :
  getfloat (augmented d close high low) "SMA_200" = Ok (ta.sma_indicator close 200).
Proof.
  unfold augmented. cbn [fold_left fst snd].
  rewrite !FrameFacts.getfloat_setitem_ne by reflexivity.
  unfold getfloat. now rewrite ColumnFacts.getitem_setitem_eq.
Qed.

(** The SMA_200 cell of each row of the table is the cell of the column at
    the row's position. *)
Lemma frame_rows_sma200 (d : DataFrame) (rows : list Row) :
  frame_rows d = Ok rows ->
  exists sma200,
    getfloat d "SMA_200" = Ok sma200 /\
    Forall (fun r => exists i, i < length rows /\ SMA_200 r = nth i sma200 nan) rows.
Proof.
  unfold frame_rows.
  destruct (getfloat d "SMA_200") as [sma200|] eqn:E200.
  - repeat match goal with
    | |- (mbind _ (Ok _)) = _ -> _ => cbn [mbind result_bind]
    | |- (mbind _ (match ?s with _ => _ end)) = _ -> _ =>
        destruct s; try discriminate; cbn [mbind result_bind]
    | |- (mbind _ ?m) = _ -> _ =>
        let x := fresh in destruct m as [x|]; [|discriminate]; cbn [mbind result_bind]
    end.
    intros [= <-]. exists sma200. split; [reflexivity|].
    rewrite length_map, length_seq.
    apply List.Forall_forall. intros r Hr. apply in_map_iff in Hr.
    destruct Hr as (i & <- & Hi). apply in_seq in Hi. exists i. cbn [SMA_200].
    split; [lia | reflexivity].
  - repeat match goal with
    | |- (mbind _ (Raise _)) = _ -> _ => cbn [mbind result_bind]
    | |- (mbind _ (Ok _)) = _ -> _ => cbn [mbind result_bind]
    | |- (mbind _ (match ?s with _ => _ end)) = _ -> _ =>
        destruct s; try discriminate; cbn [mbind result_bind]
    | |- (mbind _ ?m) = _ -> _ =>
        let x := fresh in destruct m as [x|]; [|discriminate]; cbn [mbind result_bind]
    end.
    discriminate.
Qed.

Section Loading.

Variable to_datetime : Series -> option (list Z).

(** In a loaded table of fewer than 200 rows no row has an SMA_200. *)
Lemma loaded_sma200_nan (r r' : loc) (h h' : heap) (d' : DataFrame)
    (rows : list Row) :
  process_data to_datetime r h = (Ok r', h') ->
  h' !! r' = Some d' ->
  frame_rows d' = Ok rows ->
  length rows < 200 ->
  Forall (fun row => PyFloat.isnan (SMA_200 row) = true) rows.
Proof.
  intros P L R Hlen.
  destruct (LoadFacts.process_data_ok_inv _ _ _ _ _ P)
    as (df & s & ts & sorted & close & high & low & _ & _ & _ & _ & _ & _ & _ & _ & _ & ->).
  rewrite lookup_insert_eq in L. injection L as <-.
  destruct (frame_rows_sma200 _ _ R) as (sma200 & G & F).
  rewrite augmented_sma200 in G. injection G as <-.
  eapply List.Forall_impl; [|exact F].
  intros row (i & Hi & ->).
  unfold ta.sma_indicator, ta._sma.
  rewrite IndicatorFacts.rolling_warm_up by lia. reflexivity.
Qed.

End Loading.

End WarmUpFacts.

Module CrossFacts.
Import PyFloat Pandas Patterns Turn.

Lemma fired_app (kind : string) (a b : list PatternEvent) :
  fired kind (a ++ b) = fired kind a || fired kind b.
Proof. apply existsb_app. Qed.

Lemma fired_concat (kind : string) (turns : list (list PatternEvent)) :
  Forall (fun events => fired kind events = false) turns ->
  fired kind (concat turns) = false.
Proof.
  induction 1 as [|events turns H _ IH]; [reflexivity|].
  cbn [concat]. now rewrite fired_app, H, IH.
Qed.

(** A turn whose rows have no SMA_200 reports no crossover. *)
Lemma turn_no_cross (stock_data : list Row) (window i : nat) :
  2 <= window <= i ->
  Forall (fun row => isnan (SMA_200 row) = true) stock_data ->
  fired "Golden Cross" (turn_events stock_data window i) = false /\
  fired "Death Cross" (turn_events stock_data window i) = false.
Proof.
  intros Hw Hnan. unfold turn_events.
  destruct (Nat.lt_ge_cases i (length stock_data)) as [Hi|Hi].
  - destruct (PatternFacts.patterns_at_ok stock_data window i Hw Hi)
      as (before & last & current & _ & Hl & _ & ->).
    destruct (PatternFacts.window_events_fired
                (map Close (islice stock_data (i - window) i)) before last current)
      as (-> & -> & _).
    apply nth_error_In in Hl.
    pose proof (proj1 (List.Forall_forall _ _) Hnan last Hl) as N. cbv beta in N.
    unfold gt. rewrite (FloatFacts.isnan_eq _ N).
    now rewrite NanFacts.lt_nan_l, NanFacts.lt_nan_r, !andb_false_r.
  - unfold patterns_at, iloc.
    rewrite (proj2 (nth_error_None stock_data i) Hi). split; reflexivity.
Qed.

Lemma identify_patterns_no_cross (df : list Row) (symbol : string)
    (events : list PatternEvent) :
  Forall (fun row => isnan (SMA_200 row) = true) df ->
  identify_patterns df symbol 20 = Ok events ->
  fired "Golden Cross" events = false /\ fired "Death Cross" events = false.
Proof.
  intros Hnan E.
  assert (Hne : rows_of_symbol df symbol <> []).
  { intros R. unfold identify_patterns in E. rewrite R in E. discriminate E. }
  rewrite PatternFacts.identify_patterns_scan in E by (lia || assumption).
  injection E as <-.
  assert (Hsym : Forall (fun row => isnan (SMA_200 row) = true) (rows_of_symbol df symbol)).
  { apply List.Forall_forall. intros row Hr. apply filter_In in Hr.
    exact (proj1 (List.Forall_forall _ _) Hnan row (proj1 Hr)). }
  split; apply fired_concat; apply List.Forall_map, List.Forall_forall;
    intros i Hi; apply in_seq in Hi;
    apply (turn_no_cross (rows_of_symbol df symbol) 20 i); (lia || assumption).
Qed.

End CrossFacts.

(** *** Selection by ticker and the [/analyze] route *)

Module SelectFacts.
Import Frame.

Lemma select_none {A} (mask : list bool) (xs : list A) :
  forallb negb mask = true -> select mask xs = [].
Proof.
  revert xs. induction mask as [|m mask IH]; intros xs H; [reflexivity|].
  cbn [forallb] in H. apply andb_prop in H. destruct H as [Hm H].
  destruct m; [discriminate Hm|]. destruct xs; [reflexivity|].
  cbn [select]. now apply IH.
Qed.

Lemma select_length {A} (mask : list bool) (xs : list A) :
  length xs = length mask -> length (select mask xs) = selected mask.
Proof.
  unfold selected. revert xs.
  induction mask as [|m mask IH]; intros [|x xs] H; try discriminate H; [reflexivity|].
  injection H as H. cbn [select List.filter id].
  destruct m; cbn [length]; now rewrite IH.
Qed.

Lemma eq_str_none (names : list string) (ticker : string) :
  ~ In ticker names ->
  forallb negb (eq_str (Object names) ticker) = true.
Proof.
  intros H. cbn [eq_str]. apply forallb_forall. intros b Hb.
  apply in_map_iff in Hb. destruct Hb as (x & <- & Hx).
  destruct (String.eqb_spec x ticker) as [->|]; [contradiction | reflexivity].
Qed.

Lemma eq_str_some (names : list string) (ticker : string) :
  In ticker names -> 0 < selected (eq_str (Object names) ticker).
Proof.
  intros H. unfold selected. cbn [eq_str].
  induction names as [|x names IH]; [contradiction|].
  cbn [map List.filter]. destruct (String.eqb_spec x ticker) as [->|Hx].
  - cbn. lia.
  - cbn [id]. apply IH. destruct H; [contradiction | assumption].
Qed.

Lemma eq_str_length (s : Series) (ticker : string) :
  length (eq_str s ticker) = series_len s.
Proof. destruct s; cbn [eq_str series_len]; apply length_map. Qed.

Lemma series_select_length (mask : list bool) (s : Series) :
  series_len s = length mask -> series_len (series_select mask s) = selected mask.
Proof. destruct s; cbn [series_select series_len]; apply select_length. Qed.

Lemma getitem_getmask (d : DataFrame) (mask : list bool) (label : string) :
  getitem (getmask d mask) label = (s ← getitem d label; Ok (series_select mask s)).
Proof. apply SortFacts.getitem_map_snd. Qed.

Lemma getfloat_getmask (d : DataFrame) (mask : list bool) (label : string)
    (xs : list float) :
  getfloat d label = Ok xs -> getfloat (getmask d mask) label = Ok (select mask xs).
Proof.
  unfold getfloat. rewrite getitem_getmask.
  destruct (getitem d label) as [[]|]; try discriminate.
  cbn [mbind result_bind as_float64 series_select]. now intros [= ->].
Qed.

Lemma empty_getmask_none (d : DataFrame) (mask : list bool) :
  forallb negb mask = true -> empty (getmask d mask) = true.
Proof.
  intros H. unfold empty, len, getmask. destruct d as [|[l s] d]; [reflexivity|].
  cbn [map fst snd]. destruct s; cbn [series_select series_len];
    now rewrite select_none.
Qed.

Lemma rectangular_getmask (n : nat) (d : DataFrame) (mask : list bool) :
  rectangular n d -> length mask = n ->
  rectangular (selected mask) (getmask d mask).
Proof.
  unfold rectangular, getmask. intros H Hm. apply List.Forall_map.
  eapply List.Forall_impl; [|exact H]. intros c Hc. cbn [snd].
  apply series_select_length. congruence.
Qed.

Lemma rectangular_empty (n : nat) (d : DataFrame) (label : string) (s : Series) :
  rectangular n d -> getitem d label = Ok s -> 0 < n -> empty d = false.
Proof.
  unfold empty, len. intros H G Hn. destruct d as [|[l c] d]; [discriminate G|].
  apply List.Forall_inv in H. cbn [snd] in H. rewrite H.
  apply Nat.eqb_neq. lia.
Qed.

End SelectFacts.

Module DashboardFacts.
Import Frame Store Dashboard.
Import FrameFacts StoreFacts.

Lemma add_technical_indicators_frame (r : loc) (h : heap) (d : DataFrame) :
  h !! r = Some d ->
  App.add_technical_indicators r h = (Ok r, <[r := with_indicators d]> h).
Proof.
  intros H. rewrite (AugmentFacts.add_technical_indicators_run r h d H).
  unfold with_indicators. destruct (empty d); [now rewrite insert_id|].
  destruct (getfloat d "close"); [reflexivity | now rewrite insert_id].
Qed.

Section Views.

Variable fmt_2f : float -> string.
Variable fmt_thousands : float -> string.
Variable create_plot : DataFrame -> string -> string.

(** The route, statement by statement. *)
Lemma analyze_run (r : loc) (ticker : string) (h : heap) (d : DataFrame) :
  h !! r = Some d ->
  analyze fmt_2f fmt_thousands create_plot r ticker h =
  match selection d ticker with
  | Raise e => (Raise e, h)
  | Ok sd =>
      if empty sd then
        (Ok (Redirect "dashboard" "No data found for the selected stock"),
         <[fresh (dom h) := sd]> h)
      else
        (stats ← App.calculate_statistics fmt_2f fmt_thousands (with_indicators sd);
         Ok (Render (create_plot (with_indicators sd) ticker) ticker stats),
         <[fresh (dom h) := with_indicators sd]> h)
  end.
Proof.
  intros H. unfold analyze.
  rewrite run_bind. unfold load at 1. rewrite H. cbv beta iota.
  rewrite run_bind. unfold lift at 1.
  destruct (selection d ticker) as [sd|e]; [|reflexivity]. cbv beta iota.
  rewrite run_bind. unfold alloc at 1. cbv beta iota zeta.
  set (r0 := fresh (dom h)).
  rewrite run_bind. unfold load at 1. rewrite lookup_insert_eq. cbv beta iota.
  destruct (empty sd); [reflexivity|].
  rewrite run_bind.
  rewrite (add_technical_indicators_frame r0 _ sd (lookup_insert_eq _ _ _)).
  rewrite insert_insert_eq. cbv beta iota.
  rewrite run_bind. unfold load at 1. rewrite lookup_insert_eq. cbv beta iota.
  rewrite run_bind. unfold lift at 1.
  destruct (App.calculate_statistics fmt_2f fmt_thousands (with_indicators sd));
    reflexivity.
Qed.

End Views.

(** The statistics of a frame with rows and numeric price columns, after
    [add_technical_indicators]. *)
Lemma statistics_of_selection (fmt_2f fmt_thousands : float -> string)
    (sd : DataFrame) (close high low volume : list float) (latest : float)
    (earlier : list float) :
  empty sd = false ->
  getfloat sd "close" = Ok close -> getfloat sd "high" = Ok high ->
  getfloat sd "low" = Ok low -> getfloat sd "volume" = Ok volume ->
  close = (earlier ++ [latest])%list ->
  exists last_rsi last_macd,
    Pandas.iloc_neg (ta.rsi close) 1 = Ok last_rsi /\
    Pandas.iloc_neg (ta.macd close) 1 = Ok last_macd /\
    App.calculate_statistics fmt_2f fmt_thousands (with_indicators sd) =
    Ok [ ("Current Price", "$" ++ fmt_2f latest);
         ("52 Week High", "$" ++ fmt_2f (Pandas.max high));
         ("52 Week Low", "$" ++ fmt_2f (Pandas.min low));
         ("Average Volume", fmt_thousands (Pandas.mean volume));
         ("RSI", fmt_2f last_rsi);
         ("MACD", fmt_2f last_macd) ].
Proof.
  intros Em EC EH EL EV Hc.
  assert (Hlen : 1 <= length close) by (rewrite Hc, length_app; cbn; lia).
  assert (R : exists x, Pandas.iloc_neg (ta.rsi close) 1 = Ok x).
  { unfold Pandas.iloc_neg, Pandas.iloc. rewrite IndicatorFacts.rsi_length.
    rewrite (proj2 (Nat.leb_le _ _) Hlen). cbn [andb].
    destruct (nth_error (ta.rsi close) (length close - 1)) eqn:E; [eauto|].
    apply nth_error_None in E. rewrite IndicatorFacts.rsi_length in E. lia. }
  assert (Mc : exists x, Pandas.iloc_neg (ta.macd close) 1 = Ok x).
  { unfold Pandas.iloc_neg, Pandas.iloc. rewrite IndicatorFacts.macd_length.
    rewrite (proj2 (Nat.leb_le _ _) Hlen). cbn [andb].
    destruct (nth_error (ta.macd close) (length close - 1)) eqn:E; [eauto|].
    apply nth_error_None in E. rewrite IndicatorFacts.macd_length in E. lia. }
  destruct R as [last_rsi R], Mc as [last_macd Mc].
  exists last_rsi, last_macd. split; [exact R|]. split; [exact Mc|].
  unfold with_indicators. rewrite Em, EC. cbn [fold_left fst snd].
  unfold App.calculate_statistics.
  rewrite !(getfloat_setitem_ne _ _ "close"), !(getfloat_setitem_ne _ _ "high"),
    !(getfloat_setitem_ne _ _ "low"), !(getfloat_setitem_ne _ _ "volume")
    by reflexivity.
  rewrite EC. cbn [mbind result_bind].
  rewrite Hc at 1. rewrite VolatilityFacts.iloc_neg_last. cbn [mbind result_bind].
  rewrite EH, EL, EV. cbn [mbind result_bind].
  assert (GR : getfloat
                 (setitem (setitem (setitem (setitem (setitem sd
                    "SMA_20" (Float64 (ta.sma_indicator close 20)))
                    "SMA_50" (Float64 (ta.sma_indicator close 50)))
                    "RSI" (Float64 (ta.rsi close)))
                    "MACD" (Float64 (ta.macd close)))
                    "MACD_Signal" (Float64 (ta.macd_signal close))) "RSI"
               = Ok (ta.rsi close)).
  { rewrite !getfloat_setitem_ne by reflexivity.
    unfold getfloat. now rewrite ColumnFacts.getitem_setitem_eq. }
  assert (GM : getfloat
                 (setitem (setitem (setitem (setitem (setitem sd
                    "SMA_20" (Float64 (ta.sma_indicator close 20)))
                    "SMA_50" (Float64 (ta.sma_indicator close 50)))
                    "RSI" (Float64 (ta.rsi close)))
                    "MACD" (Float64 (ta.macd close)))
                    "MACD_Signal" (Float64 (ta.macd_signal close))) "MACD"
               = Ok (ta.macd close)).
  { rewrite !getfloat_setitem_ne by reflexivity.
    unfold getfloat. now rewrite ColumnFacts.getitem_setitem_eq. }
  rewrite GR. cbn [mbind result_bind]. rewrite R. cbn [mbind result_bind].
  rewrite GM. cbn [mbind result_bind]. rewrite Mc. reflexivity.
Qed.

End DashboardFacts.

(** *** The figure and the [/results] route *)

Module PlotFacts.
Import Plot.

Lemma filter_filter {A} (f g : A -> bool) (l : list A) :
  List.filter g (List.filter f l) = List.filter (fun x => f x && g x) l.
Proof.
  induction l as [|x l IH]; [reflexivity|]. cbn [List.filter].
  destruct (f x); cbn [List.filter andb]; [destruct (g x)|]; now rewrite IH.
Qed.

Lemma filter_true {A} (l : list A) : List.filter (fun _ => true) l = l.
Proof. induction l as [|x l IH]; [reflexivity|]. cbn. now rewrite IH. Qed.

(** The rows that are plotted. *)
Lemma window_rows (start_date end_date : bound) (stock_data : list Row) :
  start_date <> Unparsable -> end_date <> Unparsable ->
  (rows ← from start_date stock_data; upto end_date rows)
  = Ok (List.filter (fun r => within start_date end_date (Date r)) stock_data).
Proof.
  intros Hs He. unfold within.
  destruct start_date as [|s|], end_date as [|e|]; try congruence;
    cbn [from upto mbind result_bind andb].
  - now rewrite filter_true.
  - reflexivity.
  - f_equal. apply filter_ext. intros r. now rewrite andb_true_r.
  - now rewrite filter_filter.
Qed.

End PlotFacts.

Module SiteFacts.
Import Site.

Lemma tail_suffix {A} (n : nat) (l : list A) :
  exists earlier, l = (earlier ++ tail n l)%list /\ length (tail n l) = Nat.min n (length l).
Proof.
  exists (firstn (length l - n) l). unfold tail. split.
  - symmetry. apply firstn_skipn.
  - rewrite length_skipn. lia.
Qed.

End SiteFacts.

(** *** The generator *)

Module GeneratorFacts.
Import Generator.

Lemma walk_length (last : float) (changes : list float) :
  length (walk last changes) = S (length changes).
Proof.
  revert last. induction changes as [|c rest IH]; intros last; [reflexivity|].
  cbn [walk length]. now rewrite IH.
Qed.

Lemma walk_head (last : float) (changes : list float) :
  nth_error (walk last changes) 0 = Some last.
Proof. destruct changes; reflexivity. Qed.

Lemma rows3_nth (agg : list float -> float) (a b c : list float) (i : nat)
    (x y z : float) :
  nth_error a i = Some x -> nth_error b i = Some y -> nth_error c i = Some z ->
  nth_error (map agg (rows3 a b c)) i = Some (agg [x; y; z]).
Proof.
  revert b c i. induction a as [|x0 a IH]; intros [|y0 b] [|z0 c] [|i] Ha Hb Hc;
    try discriminate.
  - cbn in Ha, Hb, Hc |- *. congruence.
  - cbn [rows3 map nth_error] in *. now apply IH.
Qed.

Lemma rows3_length (a b c : list float) :
  length b = length a -> length c = length a -> length (rows3 a b c) = length a.
Proof.
  revert b c. induction a as [|x a IH]; intros [|y b] [|z c] Hb Hc;
    try discriminate; [reflexivity|].
  cbn [rows3 length] in *. f_equal. apply IH; [now injection Hb | now injection Hc].
Qed.

Lemma scaled_length (f : nat * float -> float) (prices : list float) :
  length (map f (combine (seq 0 (length prices)) prices)) = length prices.
Proof. rewrite length_map, length_combine, length_seq. apply Nat.min_id. Qed.

Lemma scaled_nth (f : nat * float -> float) (prices : list float) (i : nat)
    (p : float) :
  nth_error prices i = Some p ->
  nth_error (map f (combine (seq 0 (length prices)) prices)) i = Some (f (i, p)).
Proof.
  intros H. rewrite nth_error_map.
  assert (Hi : i < length prices) by (apply nth_error_Some; congruence).
  assert (E : forall start,
             nth_error (combine (seq start (length prices)) prices) i
             = Some (start + i, p)).
  { revert i H Hi. induction prices as [|q prices IH];
      intros [|i] H Hi start; try discriminate; cbn [length seq combine nth_error] in *.
    - rewrite Nat.add_0_r. congruence.
    - rewrite (IH i H ltac:(lia) (S start)). f_equal. f_equal. lia. }
  rewrite (E 0). reflexivity.
Qed.

Section Draws.

Variable normal : nat -> float -> float -> float.
Variable to_int : float -> float.

(** The frame of a date range that is not empty. *)
Lemma generate_ok (symbol : string) (date_range : list Z)
    (initial_price volatility : float) (drawn : nat) :
  date_range <> [] ->
  exists prices high low volume,
    length prices = length date_range /\
    length high = length date_range /\
    length low = length date_range /\
    length volume = length date_range /\
    nth_error prices 0 = Some initial_price /\
    (forall i p, nth_error prices i = Some p ->
                 exists h l, nth_error high i = Some (Pandas.max [p; p; h]) /\
                             nth_error low i = Some (Pandas.min [p; p; l])) /\
    generate_stock_data normal to_int symbol date_range initial_price volatility drawn
    = (Ok [ ("date", Datetime64 date_range);
            ("open", Float64 prices);
            ("close", Float64 prices);
            ("high", Float64 high);
            ("low", Float64 low);
            ("volume", Float64 volume);
            ("Name", Object (repeat symbol (length date_range))) ],
       drawn + (length date_range - 1) + 3 * length date_range).
Proof.
  intros Hne. unfold generate_stock_data. cbv zeta.
  set (changes := map (fun i => normal (drawn + i) 0%float volatility)
                    (seq 0 (length date_range - 1))).
  set (prices := walk initial_price changes).
  assert (Hp : length prices = length date_range).
  { unfold prices. rewrite walk_length. unfold changes.
    rewrite length_map, length_seq. destruct date_range; [congruence | cbn; lia]. }
  set (high := map _ (combine (seq 0 (length prices)) prices)).
  set (low := map _ (combine (seq 0 (length prices)) prices)).
  set (volume := map _ (seq 0 (length prices))).
  assert (Hh : length high = length prices) by apply scaled_length.
  assert (Hl : length low = length prices) by apply scaled_length.
  assert (Hv : length volume = length prices)
    by (unfold volume; now rewrite length_map, length_seq).
  exists prices, (map Pandas.max (rows3 prices prices high)),
    (map Pandas.min (rows3 prices prices low)), volume.
  split; [exact Hp|].
  split; [rewrite length_map, rows3_length; congruence|].
  split; [rewrite length_map, rows3_length; congruence|].
  split; [congruence|].
  split; [apply walk_head|].
  split.
  { intros i p Hi.
    eexists. eexists. split.
    - apply rows3_nth; [exact Hi | exact Hi |]. apply scaled_nth. exact Hi.
    - apply rows3_nth; [exact Hi | exact Hi |]. apply scaled_nth. exact Hi. }
  unfold new_frame. cbn [forallb]. rewrite Hh, Hl, Hv, Hp, Nat.eqb_refl.
  cbn [andb]. f_equal. lia.
Qed.

Lemma generate_empty (symbol : string) (initial_price volatility : float)
    (drawn : nat) :
  generate_stock_data normal to_int symbol [] initial_price volatility drawn
  = (Raise LibraryError, drawn + 3).
Proof. unfold generate_stock_data. cbn. f_equal. lia. Qed.

End Draws.

End GeneratorFacts.

(** *** What detection reads *)

Module InputFacts.
Import PyFloat Pandas Patterns Turn.

Lemma rows_of_symbol_inputs (a b : list Row) (symbol : string) :
  map detection_inputs a = map detection_inputs b ->
  map detection_inputs (rows_of_symbol a symbol)
  = map detection_inputs (rows_of_symbol b symbol).
Proof.
  unfold rows_of_symbol. revert b.
  induction a as [|x a IH]; intros [|y b] E; try discriminate E; [reflexivity|].
  cbn [map] in E.
  pose proof (f_equal (fun l => hd (detection_inputs x) l) E) as Ex.
  apply (f_equal (@tl _)) in E. cbn [hd tl] in Ex, E. cbn [List.filter].
  assert (N : Name x = Name y) by (unfold detection_inputs in Ex; congruence).
  rewrite N. destruct (String.eqb (Name y) symbol); cbn [map];
    [rewrite Ex; f_equal|]; now apply IH.
Qed.

Lemma inputs_nth (a b : list Row) (k : nat) (x y : Row) :
  map detection_inputs a = map detection_inputs b ->
  nth_error a k = Some x -> nth_error b k = Some y ->
  detection_inputs x = detection_inputs y.
Proof.
  intros E Hx Hy.
  pose proof (f_equal (fun l => nth_error l k) E) as N. cbv beta in N.
  rewrite !nth_error_map, Hx, Hy in N. cbn [option_map] in N.
  exact (f_equal (fun o => match o with Some t => t | None => detection_inputs x end) N).
Qed.

Lemma inputs_close (a b : list Row) :
  map detection_inputs a = map detection_inputs b -> map Close a = map Close b.
Proof.
  revert b. induction a as [|x a IH]; intros [|y b] E; try discriminate E; [reflexivity|].
  cbn [map] in E |- *.
  pose proof (f_equal (fun l => hd (detection_inputs x) l) E) as Ex.
  apply (f_equal (@tl _)) in E. cbn [hd tl] in Ex, E. f_equal; [|now apply IH].
  unfold detection_inputs in Ex. congruence.
Qed.

Lemma islice_map {A B} (f : A -> B) (l : list A) (a b : nat) :
  map f (islice l a b) = islice (map f l) a b.
Proof. unfold islice. now rewrite List.firstn_map, List.skipn_map. Qed.

Lemma window_events_inputs (close : list float) (b1 l1 c1 b2 l2 c2 : Row) :
  detection_inputs b1 = detection_inputs b2 ->
  detection_inputs l1 = detection_inputs l2 ->
  detection_inputs c1 = detection_inputs c2 ->
  window_events close b1 l1 c1 = window_events close b2 l2 c2.
Proof.
  unfold detection_inputs. intros Eb El Ec.
  assert (Eb50 : SMA_50 b1 = SMA_50 b2) by congruence.
  assert (Eb200 : SMA_200 b1 = SMA_200 b2) by congruence.
  assert (El50 : SMA_50 l1 = SMA_50 l2) by congruence.
  assert (El200 : SMA_200 l1 = SMA_200 l2) by congruence.
  assert (Elr : RSI l1 = RSI l2) by congruence.
  assert (Elu : BB_Upper l1 = BB_Upper l2) by congruence.
  assert (Ell : BB_Lower l1 = BB_Lower l2) by congruence.
  assert (Ecd : Date c1 = Date c2) by congruence.
  assert (Ecc : Close c1 = Close c2) by congruence.
  unfold window_events, event.
  now rewrite Eb50, Eb200, El50, El200, Elr, Elu, Ell, Ecd, Ecc.
Qed.

Lemma turn_events_inputs (a b : list Row) (window i : nat) :
  2 <= window <= i ->
  map detection_inputs a = map detection_inputs b ->
  turn_events a window i = turn_events b window i.
Proof.
  intros Hw E.
  assert (Hlen : length a = length b)
    by (rewrite <- (length_map detection_inputs a), E; apply length_map).
  unfold turn_events.
  destruct (Nat.lt_ge_cases i (length a)) as [Hi|Hi].
  - destruct (PatternFacts.patterns_at_ok a window i Hw Hi)
      as (b1 & l1 & c1 & Hb1 & Hl1 & Hc1 & ->).
    destruct (PatternFacts.patterns_at_ok b window i Hw ltac:(lia))
      as (b2 & l2 & c2 & Hb2 & Hl2 & Hc2 & ->).
    rewrite !islice_map, (inputs_close a b E).
    apply window_events_inputs; eapply inputs_nth; eassumption.
  - unfold patterns_at, iloc.
    rewrite (proj2 (nth_error_None a i) Hi),
      (proj2 (nth_error_None b i) ltac:(lia)).
    reflexivity.
Qed.

Lemma identify_patterns_inputs (df1 df2 : list Row) (symbol : string) (window : nat) :
  2 <= window ->
  map detection_inputs df1 = map detection_inputs df2 ->
  identify_patterns df1 symbol window = identify_patterns df2 symbol window.
Proof.
  intros Hw E.
  pose proof (rows_of_symbol_inputs df1 df2 symbol E) as R.
  assert (Hlen : length (rows_of_symbol df1 symbol) = length (rows_of_symbol df2 symbol))
    by (rewrite <- (length_map detection_inputs (rows_of_symbol df1 symbol)), R;
        apply length_map).
  destruct (rows_of_symbol df1 symbol) as [|x1 r1] eqn:R1.
  - destruct (rows_of_symbol df2 symbol) as [|x2 r2] eqn:R2; [|discriminate Hlen].
    unfold identify_patterns. now rewrite R1, R2.
  - destruct (rows_of_symbol df2 symbol) as [|x2 r2] eqn:R2; [discriminate Hlen|].
    rewrite !PatternFacts.identify_patterns_scan
      by (assumption || (rewrite ?R1, ?R2; discriminate)).
    rewrite R1, R2, Hlen. f_equal. f_equal. apply map_ext_in.
    intros i Hi. apply in_seq in Hi. apply turn_events_inputs; [lia | exact R].
Qed.

End InputFacts.

Module PrefixFacts.
Import PyFloat Pandas Patterns Turn.

(** A turn reads no row after the current one. *)
Lemma turn_events_app (a b : list Row) (window i : nat) :
  2 <= window <= i -> i < length a ->
  turn_events (a ++ b) window i = turn_events a window i.
Proof.
  intros Hw Hi. unfold turn_events.
  destruct (PatternFacts.patterns_at_ok a window i Hw Hi)
    as (b1 & l1 & c1 & Hb1 & Hl1 & Hc1 & ->).
  rewrite (PatternFacts.patterns_at_eq (a ++ b) window i b1 l1 c1 Hw);
    try (rewrite nth_error_app1 by lia; assumption).
  rewrite (PatternFacts.islice_agree a (a ++ b) (i - window) i);
    [reflexivity | lia | lia | rewrite length_app; lia |].
  intros k Hk. apply nth_error_app1. lia.
Qed.

Lemma rows_of_symbol_app (a b : list Row) (symbol : string) :
  rows_of_symbol (a ++ b) symbol
  = (rows_of_symbol a symbol ++ rows_of_symbol b symbol)%list.
Proof. apply List.filter_app. Qed.

Lemma identify_patterns_app (df later : list Row) (symbol : string) (window : nat) :
  2 <= window -> rows_of_symbol df symbol <> [] ->
  exists events more,
    identify_patterns df symbol window = Ok events /\
    identify_patterns (df ++ later) symbol window = Ok (events ++ more)%list.
Proof.
  intros Hw Hne.
  assert (Hne' : rows_of_symbol (df ++ later) symbol <> []).
  { rewrite rows_of_symbol_app. intros E. apply app_eq_nil in E. tauto. }
  rewrite !PatternFacts.identify_patterns_scan by assumption.
  rewrite rows_of_symbol_app, length_app.
  set (a := rows_of_symbol df symbol). set (b := rows_of_symbol later symbol).
  destruct (Nat.le_gt_cases window (length a)) as [Hl|Hl].
  - replace (length a + length b - window)
      with ((length a - window) + length b) by lia.
    rewrite seq_app, map_app, concat_app.
    do 2 eexists. split; [reflexivity|]. f_equal. f_equal. f_equal.
    apply map_ext_in. intros i Hi. apply in_seq in Hi.
    apply turn_events_app; lia.
  - replace (length a - window) with 0 by lia.
    do 2 eexists. split; reflexivity.
Qed.

End PrefixFacts.

(** *** The missing columns *)

Module RejectFacts.
Import Frame StockAnalyzer.

Lemma filter_fields {A B} (f : A -> bool) (g : A * B -> bool) (fields : list (A * B)) :
  Forall (fun field => f (fst field) = g field) fields ->
  List.filter (fun c => negb (f c)) (map fst fields)
  = map fst (List.filter (fun field => negb (g field)) fields).
Proof.
  induction 1 as [|field fields H _ IH]; [reflexivity|].
  cbn [map List.filter]. rewrite H, IH. now destruct (g field).
Qed.

(** The columns reported missing, read off the header of the file. *)
Lemma missing_columns_unnamed (df : DataFrame) :
  missing_columns (fold_left rename_step column_mapping df)
  = unnamed_columns (columns df).
Proof.
  unfold missing_columns, unnamed_columns.
  change required_columns with (map fst accepted_labels).
  apply (filter_fields
           (fun c => mem c (columns (fold_left rename_step column_mapping df)))).
  destruct (HeaderFacts.renamed_has df) as (H1 & H2 & H3 & H4 & H5 & H6 & H7).
  unfold accepted_labels.
  repeat (apply List.Forall_cons;
          [cbn [fst snd existsb];
           first [rewrite H1 | rewrite H2 | rewrite H3 | rewrite H4
                 | rewrite H5 | rewrite H6 | rewrite H7];
           now rewrite !orb_false_r, ?orb_assoc|]).
  apply List.Forall_nil.
Qed.

End RejectFacts.

(** * The claims of the specification *)

(** C1: the indicator cells of a symbol depend on the bars of the other
    symbols.  The two data sets below have the same single bar for ticker
    S and differ only in the bars of ticker T; after loading, the SMA(20)
    attached to the bar of S is 1 in one and 1.95 in the other, because
    [calculate_technical_indicators] rolls over the whole frame. *)
Lemma indicators_follow_other_symbols :
  Sample.of_symbol (Sample.quotes 1) "S" = Sample.of_symbol (Sample.quotes 2) "S" /\
  (d ← Sample.loaded (Sample.quotes 1); s ← Sample.of_symbol d "S";
   Frame.getfloat s "SMA_20") = Ok [1%float] /\
  (d ← Sample.loaded (Sample.quotes 2); s ← Sample.of_symbol d "S";
   Frame.getfloat s "SMA_20") = Ok [1.95%float].
Proof. repeat split; vm_compute; reflexivity. Qed.

(** C2, as the code has it: for a symbol with exactly one bar the summary
    is produced, no daily return is defined, and the annualized return and
    the annualized volatility are NaN, reported as such. *)
Theorem single_bar_summary_undefined
    (fmt_2f fmt_pct fmt_thousands : float -> string)
    (df : list Row) (symbol : string) (only : Row) :
  Patterns.rows_of_symbol df symbol = [only] ->
  (exists summary,
      Summary.get_stock_summary fmt_2f fmt_pct fmt_thousands df symbol = Ok summary /\
      dict_get "Annual Return" summary = Some (fmt_pct nan) /\
      dict_get "Volatility" summary = Some (fmt_pct nan)) /\
  Pandas.dropna (Summary.daily_returns [only]) = [] /\
  Summary.annualized_return [only] = nan /\
  Summary.annualized_volatility [only] = nan.
Proof.
  intros E.
  assert (R : Summary.daily_returns [only] = [nan])
    by apply SummaryFacts.pct_change_single.
  assert (A : Summary.annualized_return [only] = nan)
    by (unfold Summary.annualized_return; rewrite R; reflexivity).
  assert (V : Summary.annualized_volatility [only] = nan)
    by (unfold Summary.annualized_volatility; rewrite R; reflexivity).
  split; [|rewrite R; repeat split; assumption].
  destruct (SummaryFacts.get_stock_summary_ok fmt_2f fmt_pct fmt_thousands df symbol)
    as (last & _ & S); [rewrite E; discriminate|].
  eexists. split; [exact S|]. cbv zeta. rewrite E, A, V. split; reflexivity.
Qed.

Lemma single_bar_summary_undefined_witness :
  Patterns.rows_of_symbol (Sample.flat 1) "S" = [Sample.bar 0 "S" 50] /\
  (exists summary,
      Summary.get_stock_summary Sample.blank Sample.blank Sample.blank
        (Sample.flat 1) "S" = Ok summary /\
      dict_get "Annual Return" summary = Some "" /\
      dict_get "Volatility" summary = Some "") /\
  Pandas.dropna (Summary.daily_returns [Sample.bar 0 "S" 50]) = [] /\
  Summary.annualized_return [Sample.bar 0 "S" 50] = nan /\
  Summary.annualized_volatility [Sample.bar 0 "S" 50] = nan.
Proof.
  assert (H : Patterns.rows_of_symbol (Sample.flat 1) "S" = [Sample.bar 0 "S" 50])
    by reflexivity.
  exact (conj H (single_bar_summary_undefined Sample.blank Sample.blank Sample.blank
                   (Sample.flat 1) "S" _ H)).
Defined.

(** C2 as stated fails: with a single bar the annualized return, the
    annualized volatility and the Sharpe ratio are NaN, none of them 0. *)
Lemma single_bar_metrics_are_nan :
  length (Patterns.rows_of_symbol (Sample.flat 1) "S") = 1 /\
  PyFloat.isnan (Summary.annualized_return (Sample.flat 1)) = true /\
  PyFloat.isnan (Summary.annualized_volatility (Sample.flat 1)) = true /\
  PyFloat.isnan (Summary.sharpe_ratio (Sample.flat 1)) = true /\
  ~ (Summary.annualized_return (Sample.flat 1) = 0%float /\
     Summary.annualized_volatility (Sample.flat 1) = 0%float /\
     Summary.sharpe_ratio (Sample.flat 1) = 0%float).
Proof.
  repeat split; try (vm_compute; reflexivity).
  intros (H & _). apply (f_equal PyFloat.isnan) in H. vm_compute in H. discriminate H.
Qed.

(** C3, as the code has it: detection with window 20 raises exactly when the
    symbol has no bar at all (the "No data found" ValueError), not when it
    has fewer than 20; for every symbol with at least one bar it returns a
    sequence of events, and on a table sorted by date the events come in
    date order. *)
Theorem identify_patterns_raises_iff_no_rows (df : list Row) (symbol : string) :
  Sorted Z.le (map Date df) ->
  ((exists e, Patterns.identify_patterns df symbol 20 = Raise e) <->
   Patterns.rows_of_symbol df symbol = []) /\
  (Patterns.rows_of_symbol df symbol = [] ->
   Patterns.identify_patterns df symbol 20 = Raise (NoDataFound symbol)) /\
  (Patterns.rows_of_symbol df symbol <> [] ->
   exists events,
     Patterns.identify_patterns df symbol 20 = Ok events /\
     Sorted Z.le (map date events)).
Proof.
  intros Hs.
  assert (Hempty : Patterns.rows_of_symbol df symbol = [] ->
                   Patterns.identify_patterns df symbol 20 = Raise (NoDataFound symbol)).
  { intros E. unfold Patterns.identify_patterns. rewrite E. reflexivity. }
  assert (Hfull : Patterns.rows_of_symbol df symbol <> [] ->
                  exists events,
                    Patterns.identify_patterns df symbol 20 = Ok events /\
                    Sorted Z.le (map date events))
    by apply (PatternFacts.identify_patterns_in_date_order df symbol Hs).
  split; [|split; assumption].
  split.
  - intros [e He].
    destruct (Patterns.rows_of_symbol df symbol) as [|r rest] eqn:E; [reflexivity|].
    destruct Hfull as (events & Hev & _); [discriminate|]. congruence.
  - intros E. eauto.
Qed.

Lemma identify_patterns_raises_iff_no_rows_witness :
  Sorted Z.le (map Date (Sample.flat 22)) /\
  ((exists e, Patterns.identify_patterns (Sample.flat 22) "S" 20 = Raise e) <->
   Patterns.rows_of_symbol (Sample.flat 22) "S" = []) /\
  (Patterns.rows_of_symbol (Sample.flat 22) "S" = [] ->
   Patterns.identify_patterns (Sample.flat 22) "S" 20 = Raise (NoDataFound "S")) /\
  (Patterns.rows_of_symbol (Sample.flat 22) "S" <> [] ->
   exists events,
     Patterns.identify_patterns (Sample.flat 22) "S" 20 = Ok events /\
     Sorted Z.le (map date events)).
Proof.
  assert (H : Sorted Z.le (map Date (Sample.flat 22))).
  { simpl.
    repeat first [apply Sorted_nil | apply Sorted_cons | apply HdRel_nil
                 | apply HdRel_cons | lia]. }
  split; [exact H | exact (identify_patterns_raises_iff_no_rows (Sample.flat 22) "S" H)].
Defined.

(** C3 as stated fails: a series of five bars is shorter than the window and
    detection does not raise. *)
Lemma short_series_does_not_raise :
  ~ (length (Patterns.rows_of_symbol (Sample.flat 5) "S") < 20 <->
     exists e, Patterns.identify_patterns (Sample.flat 5) "S" 20 = Raise e).
Proof.
  intros [H _]. destruct H as [e He]; [simpl; lia|].
  vm_compute in He. discriminate He.
Qed.

(** C4, as the code has it: for every symbol with at least one bar and fewer
    than 20, detection returns the empty sequence and raises nothing; with
    no bar at all it raises the "No data found" ValueError. *)
Theorem short_series_no_events (df : list Row) (symbol : string) :
  (Patterns.rows_of_symbol df symbol <> [] ->
   length (Patterns.rows_of_symbol df symbol) < 20 ->
   Patterns.identify_patterns df symbol 20 = Ok []) /\
  (Patterns.rows_of_symbol df symbol = [] ->
   Patterns.identify_patterns df symbol 20 = Raise (NoDataFound symbol)).
Proof.
  split.
  - intros Hne Hlen.
    rewrite PatternFacts.identify_patterns_scan by (lia || assumption).
    replace (length (Patterns.rows_of_symbol df symbol) - 20) with 0 by lia.
    reflexivity.
  - intros E. unfold Patterns.identify_patterns. rewrite E. reflexivity.
Qed.

Lemma short_series_no_events_witness :
  Patterns.rows_of_symbol (Sample.flat 5) "S" <> [] /\
  length (Patterns.rows_of_symbol (Sample.flat 5) "S") < 20 /\
  Patterns.identify_patterns (Sample.flat 5) "S" 20 = Ok [] /\
  Patterns.rows_of_symbol [] "S" = [] /\
  Patterns.identify_patterns [] "S" 20 = Raise (NoDataFound "S").
Proof.
  assert (H1 : Patterns.rows_of_symbol (Sample.flat 5) "S" <> []) by (simpl; discriminate).
  assert (H2 : length (Patterns.rows_of_symbol (Sample.flat 5) "S") < 20) by (simpl; lia).
  assert (H3 : Patterns.rows_of_symbol [] "S" = []) by reflexivity.
  exact (conj H1 (conj H2
           (conj (proj1 (short_series_no_events (Sample.flat 5) "S") H1 H2)
              (conj H3 (proj2 (short_series_no_events [] "S") H3))))).
Defined.

(** C4 as stated fails on the empty series: detection raises. *)
Lemma empty_series_raises :
  length (Patterns.rows_of_symbol [] "S") < 20 /\
  Patterns.identify_patterns [] "S" 20 = Raise (NoDataFound "S") /\
  Patterns.identify_patterns [] "S" 20 <> Ok [].
Proof.
  repeat split; [simpl; lia | discriminate].
Qed.




(** C6, as the code has it: [process_data] raises the missing-columns error
    exactly when, for some required column, the header has neither the
    column itself nor one of the lower-case keys of [column_mapping] that
    rename to it.  Labels are compared exactly: a header in another letter
    case is not recognised.  Headers that use the label Symbol, which the
    usage text of [analyze_stocks.py] lists and [column_mapping] lacks, are
    left aside. *)
Theorem missing_columns_iff_not_accepted
    (to_datetime : Series -> option (list Z)) (r : loc) (h : heap) (df : DataFrame) :
  h !! r = Some df ->
  Frame.mem "Symbol" (Frame.columns df) = false ->
  ((exists missing h',
      StockAnalyzer.process_data to_datetime r h = (Raise (MissingColumns missing), h'))
   <-> header_accepted (Frame.columns df) = false).
Proof.
  intros H _.
  pose proof (LoadingFacts.process_data_missing to_datetime r h df H) as P.
  pose proof (HeaderFacts.missing_columns_nil df) as N.
  cbv zeta in P.
  destruct (StockAnalyzer.missing_columns
              (fold_left StockAnalyzer.rename_step StockAnalyzer.column_mapping df))
    as [|c missing].
  - rewrite (proj1 N eq_refl). split; [|discriminate].
    intros (missing & h' & E). destruct (P _ _ E).
  - split.
    + intros _. destruct (header_accepted (Frame.columns df)); [|reflexivity].
      destruct N as [_ N]. discriminate (N eq_refl).
    + intros _. eauto.
Qed.

Lemma missing_columns_iff_not_accepted_witness :
  ({[ 1%positive := Sample.capitals ]} : heap) !! 1%positive = Some Sample.capitals /\
  Frame.mem "Symbol" (Frame.columns Sample.capitals) = false /\
  ((exists missing h',
      StockAnalyzer.process_data Sample.already_parsed 1%positive
        {[ 1%positive := Sample.capitals ]} = (Raise (MissingColumns missing), h'))
   <-> header_accepted (Frame.columns Sample.capitals) = false).
Proof.
  assert (H : ({[ 1%positive := Sample.capitals ]} : heap) !! 1%positive
              = Some Sample.capitals) by reflexivity.
  assert (H' : Frame.mem "Symbol" (Frame.columns Sample.capitals) = false)
    by reflexivity.
  exact (conj H (conj H'
           (missing_columns_iff_not_accepted Sample.already_parsed 1%positive _ _ H H'))).
Defined.

(** C6 as stated fails: a header that has every required name in capitals
    passes the case-insensitive check of the specification, and the load
    raises with all seven columns missing. *)
Lemma capital_header_rejected :
  Spec.header_accepted (Frame.columns Sample.capitals) = true /\
  Sample.loaded Sample.capitals = Raise (MissingColumns StockAnalyzer.required_columns).
Proof. split; vm_compute; reflexivity. Qed.

(** C7, as the code has it: both augmenting functions assign columns on the
    frame object they are given.  [add_technical_indicators] returns the
    address it received and [calculate_technical_indicators] returns
    nothing; afterwards only the cell of that object has changed in the
    heap, every column other than the indicator columns (so every raw
    field) is the one the frame had before, and when the call completes
    normally on a frame with rows and a close column the indicator columns
    are present. *)
Theorem augment_assigns_in_place (r : loc) (h : heap) (d : DataFrame) :
  h !! r = Some d ->
  (exists d',
      App.add_technical_indicators r h = (Ok r, <[r := d']> h) /\
      (forall l, Frame.mem l App.indicator_columns = false ->
                 Frame.getitem d' l = Frame.getitem d l) /\
      Forall (fun l => Frame.getitem d' l = Frame.getitem d l)
             ["open"; "high"; "low"; "close"; "volume"; "Name"] /\
      (Frame.empty d = false ->
       (exists close, Frame.getfloat d "close" = Ok close) ->
       Forall (fun l => Frame.mem l (Frame.columns d') = true) App.indicator_columns)) /\
  (exists res d',
      StockAnalyzer.calculate_technical_indicators r h = (res, <[r := d']> h) /\
      (forall l, Frame.mem l StockAnalyzer.indicator_columns = false ->
                 Frame.getitem d' l = Frame.getitem d l) /\
      Forall (fun l => Frame.getitem d' l = Frame.getitem d l)
             StockAnalyzer.required_columns /\
      (res = Ok tt ->
       Forall (fun l => Frame.mem l (Frame.columns d') = true)
              StockAnalyzer.indicator_columns)).
Proof.
  intros H. split.
  - rewrite (AugmentFacts.add_technical_indicators_run r h d H).
    destruct (Frame.empty d) eqn:Em.
    + exists d. rewrite insert_id by assumption.
      split; [reflexivity|]. split; [reflexivity|].
      split; [repeat constructor | discriminate].
    + destruct (Frame.getfloat d "close") as [close|e] eqn:E.
      * eexists. split; [reflexivity|].
        assert (U : Effects.untouched App.indicator_columns d
                      (Frame.setitem (Frame.setitem (Frame.setitem (Frame.setitem
                         (Frame.setitem d
                            "SMA_20" (Float64 (ta.sma_indicator close 20)))
                            "SMA_50" (Float64 (ta.sma_indicator close 50)))
                            "RSI" (Float64 (ta.rsi close)))
                            "MACD" (Float64 (ta.macd close)))
                            "MACD_Signal" (Float64 (ta.macd_signal close))))
          by AugmentFacts.kept.
        split; [exact U|].
        split; [repeat (apply List.Forall_cons; [apply U; reflexivity|]); constructor|].
        intros _ _. AugmentFacts.present.
      * exists d. rewrite insert_id by assumption.
        split; [reflexivity|]. split; [reflexivity|].
        split; [repeat constructor|]. intros _ [close Hc]. discriminate Hc.
  - destruct (AugmentFacts.calculate_technical_indicators_run r h d H)
      as (res & d' & E & U & P).
    exists res, d'. split; [exact E|]. split; [exact U|].
    split; [|exact P].
    repeat (apply List.Forall_cons; [apply U; reflexivity|]); constructor.
Qed.

Lemma augment_assigns_in_place_witness :
  ({[ 1%positive := Sample.one_bar ]} : heap) !! 1%positive = Some Sample.one_bar /\
  ((exists d',
      App.add_technical_indicators 1%positive {[ 1%positive := Sample.one_bar ]} = (Ok 1%positive, <[1%positive := d']> {[ 1%positive := Sample.one_bar ]}) /\
      (forall l, Frame.mem l App.indicator_columns = false ->
                 Frame.getitem d' l = Frame.getitem Sample.one_bar l) /\
      Forall (fun l => Frame.getitem d' l = Frame.getitem Sample.one_bar l)
             ["open"; "high"; "low"; "close"; "volume"; "Name"] /\
      (Frame.empty Sample.one_bar = false ->
       (exists close, Frame.getfloat Sample.one_bar "close" = Ok close) ->
       Forall (fun l => Frame.mem l (Frame.columns d') = true) App.indicator_columns)) /\
  (exists res d',
      StockAnalyzer.calculate_technical_indicators 1%positive {[ 1%positive := Sample.one_bar ]} = (res, <[1%positive := d']> {[ 1%positive := Sample.one_bar ]}) /\
      (forall l, Frame.mem l StockAnalyzer.indicator_columns = false ->
                 Frame.getitem d' l = Frame.getitem Sample.one_bar l) /\
      Forall (fun l => Frame.getitem d' l = Frame.getitem Sample.one_bar l)
             StockAnalyzer.required_columns /\
      (res = Ok tt ->
       Forall (fun l => Frame.mem l (Frame.columns d') = true)
              StockAnalyzer.indicator_columns))).
Proof.
  assert (H : ({[ 1%positive := Sample.one_bar ]} : heap) !! 1%positive = Some Sample.one_bar)
    by reflexivity.
  exact (conj H (augment_assigns_in_place 1%positive _ _ H)).
Defined.

(** C7 as stated fails: the frame passed in has five more columns after
    the call, and the address returned is the address passed in. *)
Lemma augment_changes_the_frame_it_is_given :
  fst (App.add_technical_indicators 1%positive {[ 1%positive := Sample.one_bar ]})
    = Ok 1%positive /\
  snd (App.add_technical_indicators 1%positive {[ 1%positive := Sample.one_bar ]})
    !! 1%positive = Some Sample.one_bar_stats /\
  snd (App.add_technical_indicators 1%positive {[ 1%positive := Sample.one_bar ]})
    !! 1%positive <> ({[ 1%positive := Sample.one_bar ]} : heap) !! 1%positive /\
  fst (StockAnalyzer.calculate_technical_indicators 1%positive {[ 1%positive := Sample.one_day ]})
    = Ok tt /\
  Frame.columns <$>
    (snd (StockAnalyzer.calculate_technical_indicators 1%positive
            {[ 1%positive := Sample.one_day ]}) !! 1%positive)
    = Some (Frame.columns Sample.one_day ++ StockAnalyzer.indicator_columns)%list.
Proof.
  repeat split; try (vm_compute; reflexivity).
  intros H. vm_compute in H. discriminate H.
Qed.

(** C8: when the annualized volatility of a non-empty series is zero, the
    division is skipped: the Sharpe ratio is exactly 0 (neither NaN nor
    infinite) and is reported as such. *)
Theorem zero_volatility_sharpe_zero
    (fmt_2f fmt_pct fmt_thousands : float -> string)
    (df : list Row) (symbol : string) :
  Patterns.rows_of_symbol df symbol <> [] ->
  (Summary.annualized_volatility (Patterns.rows_of_symbol df symbol) =? 0)%float = true ->
  Summary.sharpe_ratio (Patterns.rows_of_symbol df symbol) = 0%float /\
  exists summary,
    Summary.get_stock_summary fmt_2f fmt_pct fmt_thousands df symbol = Ok summary /\
    dict_get "Sharpe Ratio" summary = Some (fmt_2f 0%float).
Proof.
  intros Hne Hv.
  assert (S0 : Summary.sharpe_ratio (Patterns.rows_of_symbol df symbol) = 0%float).
  { unfold Summary.sharpe_ratio, PyFloat.ne. rewrite Hv. reflexivity. }
  split; [exact S0|].
  destruct (SummaryFacts.get_stock_summary_ok fmt_2f fmt_pct fmt_thousands df symbol Hne)
    as (last & _ & S).
  eexists. split; [exact S|]. cbv zeta. rewrite S0. reflexivity.
Qed.

Lemma zero_volatility_sharpe_zero_witness :
  Patterns.rows_of_symbol (Sample.flat 3) "S" <> [] /\
  (Summary.annualized_volatility (Patterns.rows_of_symbol (Sample.flat 3) "S") =? 0)%float
    = true /\
  Summary.sharpe_ratio (Patterns.rows_of_symbol (Sample.flat 3) "S") = 0%float /\
  exists summary,
    Summary.get_stock_summary Sample.blank Sample.blank Sample.blank
      (Sample.flat 3) "S" = Ok summary /\
    dict_get "Sharpe Ratio" summary = Some "".
Proof.
  assert (H1 : Patterns.rows_of_symbol (Sample.flat 3) "S" <> [])
    by (simpl; discriminate).
  assert (H2 : (Summary.annualized_volatility
                  (Patterns.rows_of_symbol (Sample.flat 3) "S") =? 0)%float = true)
    by (vm_compute; reflexivity).
  exact (conj H1 (conj H2
           (zero_volatility_sharpe_zero Sample.blank Sample.blank Sample.blank
              (Sample.flat 3) "S" H1 H2))).
Defined.

(** C9: in a series of more than 20 bars, the turn at index [i] stamps every
    event with the date of bar [i], which lies outside the window
    [i-20, i); the crossover tests compare the SMA cells of bars [i-2] and
    [i-1], the momentum tests read the RSI of bar [i-1], the band tests
    compare the close of bar [i] with the bands of bar [i-1]; nothing else
    of bar [i] is read, so its indicator cells never matter. *)
Theorem events_dated_with_bar_after_window
    (stock_data : list Row) (i : nat) (before last current : Row) :
  20 < length stock_data ->
  20 <= i < length stock_data ->
  nth_error stock_data (i - 2) = Some before ->
  nth_error stock_data (i - 1) = Some last ->
  nth_error stock_data i = Some current ->
  exists events,
    Patterns.patterns_at stock_data 20 i = Ok events /\
    Forall (fun e => date e = Date current) events /\
    (forall k, nth_error (Pandas.islice stock_data (i - 20) i) k =
               if (k <? 20)%nat then nth_error stock_data (i - 20 + k) else None) /\
    fired "Golden Cross" events =
      PyFloat.le (SMA_50 before) (SMA_200 before)
      && PyFloat.gt (SMA_50 last) (SMA_200 last) /\
    fired "Death Cross" events =
      PyFloat.ge (SMA_50 before) (SMA_200 before)
      && PyFloat.lt (SMA_50 last) (SMA_200 last) /\
    fired "Overbought" events = PyFloat.gt (RSI last) 70 /\
    fired "Oversold" events =
      negb (PyFloat.gt (RSI last) 70) && PyFloat.lt (RSI last) 30 /\
    fired "Above Upper Band" events = PyFloat.gt (Close current) (BB_Upper last) /\
    fired "Below Lower Band" events =
      negb (PyFloat.gt (Close current) (BB_Upper last))
      && PyFloat.lt (Close current) (BB_Lower last) /\
    (forall (other : list Row) (current' : Row),
        (forall k, i - 20 <= k < i -> nth_error other k = nth_error stock_data k) ->
        nth_error other i = Some current' ->
        Date current' = Date current ->
        Close current' = Close current ->
        Patterns.patterns_at other 20 i = Ok events).
Proof.
  intros Hlen Hi Hb Hl Hc.
  eexists. split; [apply (PatternFacts.patterns_at_eq _ 20 i before last current);
                   (assumption || lia)|].
  split; [apply PatternFacts.window_events_dates|].
  split.
  { intros k. destruct (Nat.ltb_spec k 20).
    - apply PatternFacts.islice_nth. lia.
    - apply nth_error_None. rewrite PatternFacts.islice_length; lia. }
  destruct (PatternFacts.window_events_fired
              (map Close (Pandas.islice stock_data (i - 20) i)) before last current)
    as (F1 & F2 & F3 & F4 & F5 & F6).
  do 6 (split; [assumption|]).
  intros other current' Hwin Hc' Hdate Hclose.
  assert (Hlen' : i < length other) by (apply nth_error_Some; congruence).
  rewrite (PatternFacts.patterns_at_eq other 20 i before last current');
    try (assumption || lia).
  - rewrite (PatternFacts.islice_agree stock_data other (i - 20) i);
      try (assumption || lia).
    now rewrite (PatternFacts.window_events_current _ _ _ current current').
  - rewrite Hwin by lia. assumption.
  - rewrite Hwin by lia. assumption.
Qed.

Lemma events_dated_with_bar_after_window_witness :
  20 < length (Sample.flat 22) /\
  20 <= 21 < length (Sample.flat 22) /\
  nth_error (Sample.flat 22) (21 - 2) = Some (Sample.bar 19 "S" 50) /\
  nth_error (Sample.flat 22) (21 - 1) = Some (Sample.bar 20 "S" 50) /\
  nth_error (Sample.flat 22) 21 = Some (Sample.bar 21 "S" 50) /\
  exists events,
    Patterns.patterns_at (Sample.flat 22) 20 21 = Ok events /\
    Forall (fun e => date e = Date (Sample.bar 21 "S" 50)) events /\
    (forall k, nth_error (Pandas.islice (Sample.flat 22) (21 - 20) 21) k =
               if (k <? 20)%nat then nth_error (Sample.flat 22) (21 - 20 + k) else None) /\
    fired "Golden Cross" events =
      PyFloat.le (SMA_50 (Sample.bar 19 "S" 50)) (SMA_200 (Sample.bar 19 "S" 50))
      && PyFloat.gt (SMA_50 (Sample.bar 20 "S" 50)) (SMA_200 (Sample.bar 20 "S" 50)) /\
    fired "Death Cross" events =
      PyFloat.ge (SMA_50 (Sample.bar 19 "S" 50)) (SMA_200 (Sample.bar 19 "S" 50))
      && PyFloat.lt (SMA_50 (Sample.bar 20 "S" 50)) (SMA_200 (Sample.bar 20 "S" 50)) /\
    fired "Overbought" events = PyFloat.gt (RSI (Sample.bar 20 "S" 50)) 70 /\
    fired "Oversold" events =
      negb (PyFloat.gt (RSI (Sample.bar 20 "S" 50)) 70) && PyFloat.lt (RSI (Sample.bar 20 "S" 50)) 30 /\
    fired "Above Upper Band" events = PyFloat.gt (Close (Sample.bar 21 "S" 50)) (BB_Upper (Sample.bar 20 "S" 50)) /\
    fired "Below Lower Band" events =
      negb (PyFloat.gt (Close (Sample.bar 21 "S" 50)) (BB_Upper (Sample.bar 20 "S" 50)))
      && PyFloat.lt (Close (Sample.bar 21 "S" 50)) (BB_Lower (Sample.bar 20 "S" 50)) /\
    (forall (other : list Row) (current' : Row),
        (forall k, 21 - 20 <= k < 21 -> nth_error other k = nth_error (Sample.flat 22) k) ->
        nth_error other 21 = Some current' ->
        Date current' = Date (Sample.bar 21 "S" 50) ->
        Close current' = Close (Sample.bar 21 "S" 50) ->
        Patterns.patterns_at other 20 21 = Ok events).
Proof.
  assert (H1 : 20 < length (Sample.flat 22)) by (simpl; lia).
  assert (H2 : 20 <= 21 < length (Sample.flat 22)) by (simpl; lia).
  assert (H3 : nth_error (Sample.flat 22) (21 - 2) = Some (Sample.bar 19 "S" 50))
    by reflexivity.
  assert (H4 : nth_error (Sample.flat 22) (21 - 1) = Some (Sample.bar 20 "S" 50))
    by reflexivity.
  assert (H5 : nth_error (Sample.flat 22) 21 = Some (Sample.bar 21 "S" 50))
    by reflexivity.
  exact (conj H1 (conj H2 (conj H3 (conj H4 (conj H5
    (events_dated_with_bar_after_window (Sample.flat 22) 21 _ _ _ H1 H2 H3 H4 H5)))))).
Defined.

(** C10: the entries labelled 52-week high and low are the greatest High
    and the least Low (NaN aside) over all the bars of the symbol that
    were loaded, whatever their number; no trailing window is applied. *)
Theorem high_low_over_entire_history
    (fmt_2f fmt_pct fmt_thousands : float -> string)
    (df : list Row) (symbol : string) (summary : list (string * string))
    (frame : DataFrame) (stats : list (string * string)) :
  (Summary.get_stock_summary fmt_2f fmt_pct fmt_thousands df symbol = Ok summary ->
   exists hi lo,
     dict_get "52-Week High" summary = Some ("$" ++ fmt_2f hi) /\
     dict_get "52-Week Low" summary = Some ("$" ++ fmt_2f lo) /\
     greatest_of (map High (Patterns.rows_of_symbol df symbol)) hi /\
     least_of (map Low (Patterns.rows_of_symbol df symbol)) lo) /\
  (App.calculate_statistics fmt_2f fmt_thousands frame = Ok stats ->
   exists high low hi lo,
     Frame.getfloat frame "high" = Ok high /\
     Frame.getfloat frame "low" = Ok low /\
     dict_get "52 Week High" stats = Some ("$" ++ fmt_2f hi) /\
     dict_get "52 Week Low" stats = Some ("$" ++ fmt_2f lo) /\
     greatest_of high hi /\ least_of low lo).
Proof.
  split.
  - intros S.
    assert (Hne : Patterns.rows_of_symbol df symbol <> []).
    { intros E. unfold Summary.get_stock_summary in S. rewrite E in S. discriminate S. }
    destruct (SummaryFacts.get_stock_summary_ok fmt_2f fmt_pct fmt_thousands df symbol Hne)
      as (last & _ & S').
    rewrite S' in S. injection S as <-.
    do 2 eexists. split; [reflexivity|]. split; [reflexivity|].
    split; [apply SummaryFacts.max_is_maximum | apply SummaryFacts.min_is_minimum].
  - intros S. destruct (SummaryFacts.calculate_statistics_ok _ _ _ _ S) as (high & low & H1 & H2 & H3 & H4).
    exists high, low. do 2 eexists.
    repeat (split; [eassumption|]).
    split; [apply SummaryFacts.max_is_maximum | apply SummaryFacts.min_is_minimum].
Qed.

Lemma high_low_over_entire_history_witness :
  Summary.get_stock_summary Sample.blank Sample.blank Sample.blank (Sample.flat 3) "S"
    = Ok Sample.blank_summary /\
  App.calculate_statistics Sample.blank Sample.blank Sample.one_bar_stats
    = Ok Sample.blank_stats /\
  (exists hi lo,
     dict_get "52-Week High" Sample.blank_summary = Some ("$" ++ Sample.blank hi) /\
     dict_get "52-Week Low" Sample.blank_summary = Some ("$" ++ Sample.blank lo) /\
     greatest_of (map High (Patterns.rows_of_symbol (Sample.flat 3) "S")) hi /\
     least_of (map Low (Patterns.rows_of_symbol (Sample.flat 3) "S")) lo) /\
  (exists high low hi lo,
     Frame.getfloat Sample.one_bar_stats "high" = Ok high /\
     Frame.getfloat Sample.one_bar_stats "low" = Ok low /\
     dict_get "52 Week High" Sample.blank_stats = Some ("$" ++ Sample.blank hi) /\
     dict_get "52 Week Low" Sample.blank_stats = Some ("$" ++ Sample.blank lo) /\
     greatest_of high hi /\ least_of low lo).
Proof.
  assert (H1 : Summary.get_stock_summary Sample.blank Sample.blank Sample.blank
                 (Sample.flat 3) "S" = Ok Sample.blank_summary)
    by (vm_compute; reflexivity).
  assert (H2 : App.calculate_statistics Sample.blank Sample.blank Sample.one_bar_stats
               = Ok Sample.blank_stats)
    by (vm_compute; reflexivity).
  destruct (high_low_over_entire_history Sample.blank Sample.blank Sample.blank
              (Sample.flat 3) "S" Sample.blank_summary
              Sample.one_bar_stats Sample.blank_stats) as [T1 T2].
  exact (conj H1 (conj H2 (conj (T1 H1) (T2 H2)))).
Defined.

(** Three hundred bars whose highest High is on the first day: the high
    reported is that first one. *)
Example high_of_the_first_of_300_bars :
  Pandas.max (map High (Patterns.rows_of_symbol
                          (Sample.bar 0 "S" 100 :: map (fun k => Sample.bar (Z.of_nat k) "S" 50)
                                                     (seq 1 299)) "S"))
  = 100%float.
Proof. vm_compute. reflexivity. Qed.

(** * Further properties of the code *)

(** ** Pattern detection: windows, bounds and NaN *)

(** X1: for a window of 0 or 1 rows and a series longer than the window,
    detection raises IndexError. *)
Theorem narrow_window_raises (df : list Row) (symbol : string) (window : nat) :
  window < 2 ->
  window < length (Patterns.rows_of_symbol df symbol) ->
  Patterns.identify_patterns df symbol window = Raise IndexError.
Proof. apply ScanFacts.identify_patterns_narrow. Qed.

Lemma narrow_window_raises_witness :
  1 < 2 /\
  1 < length (Patterns.rows_of_symbol (Sample.flat 3) "S") /\
  Patterns.identify_patterns (Sample.flat 3) "S" 1 = Raise IndexError.
Proof.
  assert (H1 : 1 < 2) by lia.
  assert (H2 : 1 < length (Patterns.rows_of_symbol (Sample.flat 3) "S")) by (simpl; lia).
  exact (conj H1 (conj H2 (narrow_window_raises (Sample.flat 3) "S" 1 H1 H2))).
Defined.

(** X2: for every window of at least two rows and every symbol with rows,
    detection returns; it finds at most four events per bar after the
    first [window] bars, and none when there is no such bar. *)
Theorem detection_total_and_bounded (df : list Row) (symbol : string) (window : nat) :
  2 <= window ->
  Patterns.rows_of_symbol df symbol <> [] ->
  exists events,
    Patterns.identify_patterns df symbol window = Ok events /\
    length events <= 4 * (length (Patterns.rows_of_symbol df symbol) - window) /\
    (length (Patterns.rows_of_symbol df symbol) <= window -> events = []).
Proof.
  intros Hw Hne. eexists. split; [now apply PatternFacts.identify_patterns_scan|].
  set (sd := Patterns.rows_of_symbol df symbol).
  destruct (Nat.le_gt_cases window (length sd)) as [Hl|Hl].
  - split; [apply ScanFacts.scan_length; lia|].
    intros Hle. replace (length sd - window) with 0 by lia. reflexivity.
  - replace (length sd - window) with 0 by lia. split; [simpl; lia | reflexivity].
Qed.

Lemma detection_total_and_bounded_witness :
  2 <= 5 /\
  Patterns.rows_of_symbol (Sample.flat 8) "S" <> [] /\
  exists events,
    Patterns.identify_patterns (Sample.flat 8) "S" 5 = Ok events /\
    length events <= 4 * (length (Patterns.rows_of_symbol (Sample.flat 8) "S") - 5) /\
    (length (Patterns.rows_of_symbol (Sample.flat 8) "S") <= 5 -> events = []).
Proof.
  assert (H1 : 2 <= 5) by lia.
  assert (H2 : Patterns.rows_of_symbol (Sample.flat 8) "S" <> []) by (simpl; discriminate).
  exact (conj H1 (conj H2 (detection_total_and_bounded (Sample.flat 8) "S" 5 H1 H2))).
Defined.

(** X3: every event carries the date of a bar of the symbol that has at
    least [window] bars before it; the first [window] bars are never
    stamped. *)
Theorem events_dated_after_warm_up (df : list Row) (symbol : string) (window : nat)
    (events : list PatternEvent) :
  2 <= window ->
  Patterns.identify_patterns df symbol window = Ok events ->
  Forall (fun e => exists i r,
              window <= i /\
              nth_error (Patterns.rows_of_symbol df symbol) i = Some r /\
              date e = Date r) events.
Proof.
  intros Hw E.
  destruct (Patterns.rows_of_symbol df symbol) as [|r0 rest] eqn:R.
  { unfold Patterns.identify_patterns in E. rewrite R in E. discriminate E. }
  rewrite PatternFacts.identify_patterns_scan in E by (assumption || (rewrite R; discriminate)).
  injection E as <-. rewrite R.
  destruct (Nat.le_gt_cases window (length (r0 :: rest))) as [Hl|Hl].
  - eapply List.Forall_impl; [|apply ScanFacts.scan_dates; lia].
    intros e (i & r & Hi & Hr & Hd). exists i, r. repeat split; (lia || assumption).
  - replace (length (r0 :: rest) - window) with 0 by lia. constructor.
Qed.

Lemma events_dated_after_warm_up_witness :
  2 <= 20 /\
  Patterns.identify_patterns (Sample.flat 22) "S" 20 = Ok Sample.flat_events /\
  Forall (fun e => exists i r,
              20 <= i /\
              nth_error (Patterns.rows_of_symbol (Sample.flat 22) "S") i = Some r /\
              date e = Date r) Sample.flat_events.
Proof.
  assert (H1 : 2 <= 20) by lia.
  assert (H2 : Patterns.identify_patterns (Sample.flat 22) "S" 20 = Ok Sample.flat_events)
    by (vm_compute; reflexivity).
  exact (conj H1 (conj H2 (events_dated_after_warm_up (Sample.flat 22) "S" 20 _ H1 H2))).
Defined.

(** X4: an indicator that is still NaN triggers nothing: no crossover
    while an SMA of the last window row is NaN, no momentum event while
    its RSI is NaN, no band event against a NaN band. *)
Theorem nan_indicator_fires_nothing
    (stock_data : list Row) (window i : nat) (before last current : Row) :
  2 <= window <= i ->
  nth_error stock_data (i - 2) = Some before ->
  nth_error stock_data (i - 1) = Some last ->
  nth_error stock_data i = Some current ->
  exists events,
    Patterns.patterns_at stock_data window i = Ok events /\
    (PyFloat.isnan (SMA_50 last) = true \/ PyFloat.isnan (SMA_200 last) = true ->
     fired "Golden Cross" events = false /\ fired "Death Cross" events = false) /\
    (PyFloat.isnan (RSI last) = true ->
     fired "Overbought" events = false /\ fired "Oversold" events = false) /\
    (PyFloat.isnan (BB_Upper last) = true -> fired "Above Upper Band" events = false) /\
    (PyFloat.isnan (BB_Lower last) = true -> fired "Below Lower Band" events = false).
Proof.
  intros Hw Hb Hl Hc.
  eexists. split; [now apply (PatternFacts.patterns_at_eq _ window i before last current)|].
  destruct (PatternFacts.window_events_fired
              (map Close (Pandas.islice stock_data (i - window) i)) before last current)
    as (-> & -> & -> & -> & -> & ->).
  unfold PyFloat.gt, PyFloat.ge.
  split; [|split; [|split]].
  - intros [H|H]; rewrite (FloatFacts.isnan_eq _ H);
      rewrite ?NanFacts.lt_nan_l, ?NanFacts.lt_nan_r, !andb_false_r; split; reflexivity.
  - intros H. rewrite (FloatFacts.isnan_eq _ H).
    rewrite NanFacts.lt_nan_l, NanFacts.lt_nan_r, andb_false_r. split; reflexivity.
  - intros H. rewrite (FloatFacts.isnan_eq _ H). apply NanFacts.lt_nan_l.
  - intros H. rewrite (FloatFacts.isnan_eq _ H), NanFacts.lt_nan_r. apply andb_false_r.
Qed.

Lemma nan_indicator_fires_nothing_witness :
  2 <= 20 <= 21 /\
  nth_error (Cases.undefined 22) (21 - 2) = Some (Sample.bar 19 "S" nan) /\
  nth_error (Cases.undefined 22) (21 - 1) = Some (Sample.bar 20 "S" nan) /\
  nth_error (Cases.undefined 22) 21 = Some (Sample.bar 21 "S" nan) /\
  exists events,
    Patterns.patterns_at (Cases.undefined 22) 20 21 = Ok events /\
    (PyFloat.isnan (SMA_50 (Sample.bar 20 "S" nan)) = true \/
     PyFloat.isnan (SMA_200 (Sample.bar 20 "S" nan)) = true ->
     fired "Golden Cross" events = false /\ fired "Death Cross" events = false) /\
    (PyFloat.isnan (RSI (Sample.bar 20 "S" nan)) = true ->
     fired "Overbought" events = false /\ fired "Oversold" events = false) /\
    (PyFloat.isnan (BB_Upper (Sample.bar 20 "S" nan)) = true ->
     fired "Above Upper Band" events = false) /\
    (PyFloat.isnan (BB_Lower (Sample.bar 20 "S" nan)) = true ->
     fired "Below Lower Band" events = false).
Proof.
  assert (H0 : 2 <= 20 <= 21) by lia.
  assert (H1 : nth_error (Cases.undefined 22) (21 - 2) = Some (Sample.bar 19 "S" nan))
    by reflexivity.
  assert (H2 : nth_error (Cases.undefined 22) (21 - 1) = Some (Sample.bar 20 "S" nan))
    by reflexivity.
  assert (H3 : nth_error (Cases.undefined 22) 21 = Some (Sample.bar 21 "S" nan))
    by reflexivity.
  exact (conj H0 (conj H1 (conj H2 (conj H3
           (nan_indicator_fires_nothing (Cases.undefined 22) 20 21 _ _ _ H0 H1 H2 H3))))).
Defined.

(** X5: a window without a single defined close-to-close difference (every
    close NaN) passes the first trend test vacuously and is reported as a
    Strong Uptrend. *)
Theorem undefined_closes_reported_as_uptrend
    (stock_data : list Row) (window i : nat) :
  2 <= window <= i -> i < length stock_data ->
  (forall k r, i - window <= k < i -> nth_error stock_data k = Some r ->
               PyFloat.isnan (Close r) = true) ->
  exists events,
    Patterns.patterns_at stock_data window i = Ok events /\
    fired "Strong Uptrend" events = true.
Proof.
  intros Hw Hi Hnan.
  destruct (PatternFacts.patterns_at_ok stock_data window i) as (b & l & c & _ & _ & _ & E);
    [assumption | assumption |].
  eexists. split; [exact E|].
  assert (D : Pandas.dropna
                (Pandas.diff (map Close (Pandas.islice stock_data (i - window) i))) = []).
  { apply ScanFacts.all_nan_diff. apply List.Forall_forall. intros x Hx.
    apply in_map_iff in Hx. destruct Hx as (r & <- & Hr).
    apply In_nth_error in Hr. destruct Hr as [k Hk].
    assert (Hlt : k < window).
    { assert (k < length (Pandas.islice stock_data (i - window) i))
        by (apply nth_error_Some; congruence).
      rewrite PatternFacts.islice_length in H; lia. }
    rewrite PatternFacts.islice_nth in Hk by lia.
    apply (Hnan (i - window + k) r); [lia | assumption]. }
  unfold Turn.window_events. rewrite D. reflexivity.
Qed.

Lemma undefined_closes_reported_as_uptrend_witness :
  2 <= 20 <= 21 /\
  21 < length (Cases.undefined 22) /\
  (forall k r, 21 - 20 <= k < 21 -> nth_error (Cases.undefined 22) k = Some r ->
               PyFloat.isnan (Close r) = true) /\
  exists events,
    Patterns.patterns_at (Cases.undefined 22) 20 21 = Ok events /\
    fired "Strong Uptrend" events = true.
Proof.
  assert (H0 : 2 <= 20 <= 21) by lia.
  assert (H1 : 21 < length (Cases.undefined 22)) by (simpl; lia).
  assert (H2 : forall k r, 21 - 20 <= k < 21 ->
                           nth_error (Cases.undefined 22) k = Some r ->
                           PyFloat.isnan (Close r) = true).
  { intros k r _ E. unfold Cases.undefined in E. rewrite nth_error_map in E.
    destruct (nth_error (seq 0 22) k); [|discriminate E].
    injection E as <-. reflexivity. }
  exact (conj H0 (conj H1 (conj H2
           (undefined_closes_reported_as_uptrend (Cases.undefined 22) 20 21 H0 H1 H2)))).
Defined.

(** ** Summary statistics *)

(** X6: with fewer than three bars there is at most one daily return, its
    sample deviation is undefined, and both the annualized volatility and
    the Sharpe ratio are NaN. *)
Theorem short_history_volatility_undefined (stock_data : list Row) :
  length stock_data <= 2 ->
  Summary.annualized_volatility stock_data = nan /\
  Summary.sharpe_ratio stock_data = nan.
Proof.
  intros H.
  assert (V : Summary.annualized_volatility stock_data = nan).
  { unfold Summary.annualized_volatility.
    rewrite VolatilityFacts.std_short by now apply VolatilityFacts.few_returns.
    reflexivity. }
  split; [exact V|].
  unfold Summary.sharpe_ratio. rewrite V.
  change (PyFloat.ne nan 0) with true. cbv iota. apply FloatFacts.div_nan.
Qed.

Lemma short_history_volatility_undefined_witness :
  length (Sample.flat 2) <= 2 /\
  Summary.annualized_volatility (Sample.flat 2) = nan /\
  Summary.sharpe_ratio (Sample.flat 2) = nan.
Proof.
  assert (H : length (Sample.flat 2) <= 2) by (simpl; lia).
  exact (conj H (short_history_volatility_undefined (Sample.flat 2) H)).
Defined.

(** X7: the summary raises "No data found" exactly when the symbol has no
    bar; otherwise it is the same thirteen keys in the same order, the
    current price being the close of the symbol's last row. *)
Theorem summary_shape (fmt_2f fmt_pct fmt_thousands : float -> string)
    (df : list Row) (symbol : string) :
  (Patterns.rows_of_symbol df symbol = [] ->
   Summary.get_stock_summary fmt_2f fmt_pct fmt_thousands df symbol
     = Raise (NoDataFound symbol)) /\
  (forall earlier latest,
      Patterns.rows_of_symbol df symbol = (earlier ++ [latest])%list ->
      exists summary,
        Summary.get_stock_summary fmt_2f fmt_pct fmt_thousands df symbol = Ok summary /\
        map fst summary = summary_keys /\
        dict_get "Symbol" summary = Some symbol /\
        dict_get "Current Price" summary = Some ("$" ++ fmt_2f (Close latest)) /\
        dict_get "RSI" summary = Some (fmt_2f (RSI latest)) /\
        dict_get "MACD" summary = Some (fmt_2f (MACD latest))).
Proof.
  split.
  - intros E. unfold Summary.get_stock_summary. rewrite E. reflexivity.
  - intros earlier latest E.
    destruct (SummaryFacts.get_stock_summary_ok fmt_2f fmt_pct fmt_thousands df symbol)
      as (last & L & S).
    { rewrite E. destruct earlier; discriminate. }
    rewrite E, (VolatilityFacts.iloc_neg_last earlier latest) in L.
    injection L as <-.
    eexists. split; [exact S|]. repeat split.
Qed.

Lemma summary_shape_witness :
  Patterns.rows_of_symbol [] "S" = [] /\
  Summary.get_stock_summary Sample.blank Sample.blank Sample.blank [] "S"
    = Raise (NoDataFound "S") /\
  Patterns.rows_of_symbol (Sample.flat 3) "S"
    = (Sample.flat 2 ++ [Sample.bar 2 "S" 50])%list /\
  exists summary,
    Summary.get_stock_summary Sample.blank Sample.blank Sample.blank (Sample.flat 3) "S"
      = Ok summary /\
    map fst summary = summary_keys /\
    dict_get "Symbol" summary = Some "S" /\
    dict_get "Current Price" summary
      = Some ("$" ++ Sample.blank (Close (Sample.bar 2 "S" 50))) /\
    dict_get "RSI" summary = Some (Sample.blank (RSI (Sample.bar 2 "S" 50))) /\
    dict_get "MACD" summary = Some (Sample.blank (MACD (Sample.bar 2 "S" 50))).
Proof.
  assert (H1 : Patterns.rows_of_symbol [] "S" = []) by reflexivity.
  assert (H2 : Patterns.rows_of_symbol (Sample.flat 3) "S"
               = (Sample.flat 2 ++ [Sample.bar 2 "S" 50])%list) by reflexivity.
  exact (conj H1
           (conj (proj1 (summary_shape Sample.blank Sample.blank Sample.blank [] "S") H1)
              (conj H2
                 (proj2 (summary_shape Sample.blank Sample.blank Sample.blank
                           (Sample.flat 3) "S") _ _ H2)))).
Defined.

(** ** Loading *)

(** X8: the renaming loop of [process_data] changes labels only: every
    column keeps its data and its place, and labels that were distinct stay
    distinct (a column is never renamed onto an existing one). *)
Theorem renaming_keeps_data_and_distinct_labels (df : DataFrame) :
  List.NoDup (Frame.columns df) ->
  map snd (fold_left StockAnalyzer.rename_step StockAnalyzer.column_mapping df)
    = map snd df /\
  List.NoDup (Frame.columns
                (fold_left StockAnalyzer.rename_step StockAnalyzer.column_mapping df)).
Proof.
  intros H. split; [apply RenameFacts.renaming_data | now apply RenameFacts.renaming_distinct].
Qed.

Lemma renaming_keeps_data_and_distinct_labels_witness :
  List.NoDup (Frame.columns (Sample.quotes 2)) /\
  map snd (fold_left StockAnalyzer.rename_step StockAnalyzer.column_mapping
             (Sample.quotes 2))
    = map snd (Sample.quotes 2) /\
  List.NoDup (Frame.columns
                (fold_left StockAnalyzer.rename_step StockAnalyzer.column_mapping
                   (Sample.quotes 2))).
Proof.
  assert (H : List.NoDup (Frame.columns (Sample.quotes 2))).
  { cbn. repeat (apply List.NoDup_cons; [cbn; intuition discriminate|]).
    apply List.NoDup_nil. }
  exact (conj H (renaming_keeps_data_and_distinct_labels (Sample.quotes 2) H)).
Defined.

(** X9: sorting moves whole rows.  After a successful load one indexer, a
    rearrangement of the row positions of the file, has been applied to
    the parsed dates and to every other column read from the file; the
    dates of the frame [self.df] refers to are the parsed dates, none lost
    or repeated, in ascending order. *)
Theorem loading_sorts_without_losing_rows
    (to_datetime : Series -> option (list Z)) (r r' : loc) (h h' : heap) :
  StockAnalyzer.process_data to_datetime r h = (Ok r', h') ->
  exists df s parsed d' indexer,
    h !! r = Some df /\
    Frame.getitem (fold_left StockAnalyzer.rename_step StockAnalyzer.column_mapping df)
      "Date" = Ok s /\
    to_datetime s = Some parsed /\
    h' !! r' = Some d' /\
    Permutation indexer (seq 0 (length parsed)) /\
    Frame.getitem d' "Date" = Ok (Datetime64 (Frame.take_positions indexer parsed)) /\
    Permutation parsed (Frame.take_positions indexer parsed) /\
    Sorted Z.le (Frame.take_positions indexer parsed) /\
    forall label,
      label <> "Date" ->
      Frame.mem label StockAnalyzer.indicator_columns = false ->
      Frame.getitem d' label =
      (c ← Frame.getitem
             (fold_left StockAnalyzer.rename_step StockAnalyzer.column_mapping df) label;
       Ok (Frame.series_take indexer c)).
Proof.
  intros P.
  destruct (LoadFacts.process_data_ok_inv _ _ _ _ _ P)
    as (df & s & ts & sorted & close & high & low & Hr & _ & G & T & S & _ & _ & _ & _ & ->).
  exists df, s, ts. eexists. exists (Frame.argsort ts).
  split; [exact Hr|]. split; [exact G|]. split; [exact T|].
  split; [apply lookup_insert_eq|].
  split; [apply IndexerFacts.argsort_perm_seq|].
  pose proof (ColumnFacts.sort_values_getitem _ _ ts
                (ColumnFacts.getitem_setitem_eq _ _ _) S) as Sorted_column.
  split.
  { rewrite (LoadFacts.augmented_untouched sorted close high low "Date" eq_refl).
    rewrite Sorted_column, ColumnFacts.getitem_setitem_eq. reflexivity. }
  split; [symmetry; apply PermFacts.argsort_perm|].
  split; [apply SortFacts.argsort_sorted|].
  intros label Hd Hi.
  rewrite (LoadFacts.augmented_untouched sorted close high low label Hi).
  rewrite Sorted_column. rewrite FrameFacts.getitem_setitem_ne; [reflexivity|].
  now apply String.eqb_neq.
Qed.

Lemma loading_sorts_without_losing_rows_witness :
  StockAnalyzer.process_data Sample.already_parsed 1%positive
    {[ 1%positive := Sample.quotes 2 ]} = (Ok 2%positive, Cases.loaded_heap) /\
  exists df s parsed d' indexer,
    ({[ 1%positive := Sample.quotes 2 ]} : heap) !! 1%positive = Some df /\
    Frame.getitem (fold_left StockAnalyzer.rename_step StockAnalyzer.column_mapping df)
      "Date" = Ok s /\
    Sample.already_parsed s = Some parsed /\
    Cases.loaded_heap !! 2%positive = Some d' /\
    Permutation indexer (seq 0 (length parsed)) /\
    Frame.getitem d' "Date" = Ok (Datetime64 (Frame.take_positions indexer parsed)) /\
    Permutation parsed (Frame.take_positions indexer parsed) /\
    Sorted Z.le (Frame.take_positions indexer parsed) /\
    forall label,
      label <> "Date" ->
      Frame.mem label StockAnalyzer.indicator_columns = false ->
      Frame.getitem d' label =
      (c ← Frame.getitem
             (fold_left StockAnalyzer.rename_step StockAnalyzer.column_mapping df) label;
       Ok (Frame.series_take indexer c)).
Proof.
  assert (H : StockAnalyzer.process_data Sample.already_parsed 1%positive
                {[ 1%positive := Sample.quotes 2 ]} = (Ok 2%positive, Cases.loaded_heap))
    by (vm_compute; reflexivity).
  exact (conj H (loading_sorts_without_losing_rows _ _ _ _ _ H)).
Defined.

(** X10: a successful load leaves the indicators on a new frame object: the
    address returned was unused before and differs from that of the frame
    read from the file, no third object changes, and the new frame has the
    seven required and the fourteen indicator columns. *)
Theorem loading_builds_a_new_complete_frame
    (to_datetime : Series -> option (list Z)) (r r' : loc) (h h' : heap) :
  StockAnalyzer.process_data to_datetime r h = (Ok r', h') ->
  r' <> r /\ h !! r' = None /\
  (forall other, other <> r -> other <> r' -> h' !! other = h !! other) /\
  exists d',
    h' !! r' = Some d' /\
    Forall (fun l => Frame.mem l (Frame.columns d') = true)
           (StockAnalyzer.required_columns ++ StockAnalyzer.indicator_columns).
Proof.
  intros P.
  destruct (LoadFacts.process_data_ok_inv _ _ _ _ _ P)
    as (df & s & ts & sorted & close & high & low & Hr & M & G & T & S & _ & _ & _ & -> & ->).
  set (d2 := Frame.setitem _ "Date" (Datetime64 ts)) in *.
  set (h0 := <[r := d2]> h) in *. set (r0 := fresh (dom h0)) in *.
  assert (F : h0 !! r0 = None) by (apply not_elem_of_dom, is_fresh).
  assert (Hne : r0 <> r).
  { intros E. rewrite E in F. unfold h0 in F. rewrite lookup_insert_eq in F.
    discriminate F. }
  split; [exact Hne|].
  split; [unfold h0 in F; rewrite lookup_insert_ne in F by congruence; exact F|].
  split.
  { intros other H1 H2. unfold h0. rewrite !lookup_insert_ne by congruence.
    reflexivity. }
  eexists. split; [apply lookup_insert_eq|].
  apply List.Forall_app. split; [|apply LoadFacts.augmented_present].
  eapply List.Forall_impl; [|apply (LoadFacts.missing_nil_present _ M)].
  intros l Hl. apply LoadFacts.augmented_keeps.
  rewrite (ColumnFacts.sort_values_columns _ _ _ S).
  now apply FrameFacts.mem_setitem_mono.
Qed.

Lemma loading_builds_a_new_complete_frame_witness :
  StockAnalyzer.process_data Sample.already_parsed 1%positive
    {[ 1%positive := Sample.quotes 2 ]} = (Ok 2%positive, Cases.loaded_heap) /\
  2%positive <> 1%positive /\
  ({[ 1%positive := Sample.quotes 2 ]} : heap) !! 2%positive = None /\
  (forall other, other <> 1%positive -> other <> 2%positive ->
                 Cases.loaded_heap !! other
                 = ({[ 1%positive := Sample.quotes 2 ]} : heap) !! other) /\
  exists d',
    Cases.loaded_heap !! 2%positive = Some d' /\
    Forall (fun l => Frame.mem l (Frame.columns d') = true)
           (StockAnalyzer.required_columns ++ StockAnalyzer.indicator_columns).
Proof.
  assert (H : StockAnalyzer.process_data Sample.already_parsed 1%positive
                {[ 1%positive := Sample.quotes 2 ]} = (Ok 2%positive, Cases.loaded_heap))
    by (vm_compute; reflexivity).
  exact (conj H (loading_builds_a_new_complete_frame _ _ _ _ _ H)).
Defined.

(** X11: loading succeeds whenever the header is accepted, the dates parse
    and the renamed frame has numeric Close, High and Low columns. *)
Theorem loading_succeeds
    (to_datetime : Series -> option (list Z)) (r : loc) (h : heap) (df : DataFrame)
    (s : Series) (parsed : list Z) (close high low : list float) :
  h !! r = Some df ->
  header_accepted (Frame.columns df) = true ->
  Frame.getitem (fold_left StockAnalyzer.rename_step StockAnalyzer.column_mapping df)
    "Date" = Ok s ->
  to_datetime s = Some parsed ->
  Frame.getfloat (fold_left StockAnalyzer.rename_step StockAnalyzer.column_mapping df)
    "Close" = Ok close ->
  Frame.getfloat (fold_left StockAnalyzer.rename_step StockAnalyzer.column_mapping df)
    "High" = Ok high ->
  Frame.getfloat (fold_left StockAnalyzer.rename_step StockAnalyzer.column_mapping df)
    "Low" = Ok low ->
  exists r' h', StockAnalyzer.process_data to_datetime r h = (Ok r', h').
Proof.
  intros Hr Ha G T EC EH EL.
  exact (LoadFacts.process_data_ok to_datetime r h df s parsed close high low
           Hr Ha G T EC EH EL).
Qed.

Lemma loading_succeeds_witness :
  ({[ 1%positive := Sample.quotes 2 ]} : heap) !! 1%positive = Some (Sample.quotes 2) /\
  header_accepted (Frame.columns (Sample.quotes 2)) = true /\
  Frame.getitem (fold_left StockAnalyzer.rename_step StockAnalyzer.column_mapping
                   (Sample.quotes 2)) "Date"
    = Ok (Datetime64 (map Z.of_nat (seq 1 20))) /\
  Sample.already_parsed (Datetime64 (map Z.of_nat (seq 1 20)))
    = Some (map Z.of_nat (seq 1 20)) /\
  Frame.getfloat (fold_left StockAnalyzer.rename_step StockAnalyzer.column_mapping
                    (Sample.quotes 2)) "Close"
    = Ok (repeat 2%float 19 ++ [1%float])%list /\
  Frame.getfloat (fold_left StockAnalyzer.rename_step StockAnalyzer.column_mapping
                    (Sample.quotes 2)) "High"
    = Ok (repeat 2%float 19 ++ [1%float])%list /\
  Frame.getfloat (fold_left StockAnalyzer.rename_step StockAnalyzer.column_mapping
                    (Sample.quotes 2)) "Low"
    = Ok (repeat 2%float 19 ++ [1%float])%list /\
  exists r' h',
    StockAnalyzer.process_data Sample.already_parsed 1%positive
      {[ 1%positive := Sample.quotes 2 ]} = (Ok r', h').
Proof.
  assert (H1 : ({[ 1%positive := Sample.quotes 2 ]} : heap) !! 1%positive
               = Some (Sample.quotes 2)) by reflexivity.
  assert (H2 : header_accepted (Frame.columns (Sample.quotes 2)) = true) by reflexivity.
  assert (H3 : Frame.getitem
                 (fold_left StockAnalyzer.rename_step StockAnalyzer.column_mapping
                    (Sample.quotes 2)) "Date"
               = Ok (Datetime64 (map Z.of_nat (seq 1 20)))) by reflexivity.
  assert (H4 : Sample.already_parsed (Datetime64 (map Z.of_nat (seq 1 20)))
               = Some (map Z.of_nat (seq 1 20))) by reflexivity.
  assert (H5 : Frame.getfloat
                 (fold_left StockAnalyzer.rename_step StockAnalyzer.column_mapping
                    (Sample.quotes 2)) "Close"
               = Ok (repeat 2%float 19 ++ [1%float])%list) by reflexivity.
  assert (H6 : Frame.getfloat
                 (fold_left StockAnalyzer.rename_step StockAnalyzer.column_mapping
                    (Sample.quotes 2)) "High"
               = Ok (repeat 2%float 19 ++ [1%float])%list) by reflexivity.
  assert (H7 : Frame.getfloat
                 (fold_left StockAnalyzer.rename_step StockAnalyzer.column_mapping
                    (Sample.quotes 2)) "Low"
               = Ok (repeat 2%float 19 ++ [1%float])%list) by reflexivity.
  exact (conj H1 (conj H2 (conj H3 (conj H4 (conj H5 (conj H6 (conj H7
           (loading_succeeds Sample.already_parsed 1%positive _ _ _ _ _ _ _
              H1 H2 H3 H4 H5 H6 H7)))))))).
Defined.

(** X12: loading never creates a column labelled Symbol, so after loading a
    file that has none the lookup [analyzer.df['Symbol']] on which
    [analyze_stocks.main] starts raises KeyError. *)
Theorem symbol_lookup_fails_after_loading
    (to_datetime : Series -> option (list Z)) (r r' : loc) (h h' : heap)
    (df : DataFrame) :
  h !! r = Some df ->
  Frame.mem "Symbol" (Frame.columns df) = false ->
  StockAnalyzer.process_data to_datetime r h = (Ok r', h') ->
  exists d', h' !! r' = Some d' /\
             Frame.getitem d' "Symbol" = Raise (KeyError "Symbol").
Proof.
  intros Hr Hs P.
  exact (LoadFacts.symbol_missing to_datetime r r' h h' df Hr Hs P).
Qed.

Lemma symbol_lookup_fails_after_loading_witness :
  ({[ 1%positive := Sample.quotes 2 ]} : heap) !! 1%positive = Some (Sample.quotes 2) /\
  Frame.mem "Symbol" (Frame.columns (Sample.quotes 2)) = false /\
  StockAnalyzer.process_data Sample.already_parsed 1%positive
    {[ 1%positive := Sample.quotes 2 ]} = (Ok 2%positive, Cases.loaded_heap) /\
  exists d', Cases.loaded_heap !! 2%positive = Some d' /\
             Frame.getitem d' "Symbol" = Raise (KeyError "Symbol").
Proof.
  assert (H1 : ({[ 1%positive := Sample.quotes 2 ]} : heap) !! 1%positive
               = Some (Sample.quotes 2)) by reflexivity.
  assert (H2 : Frame.mem "Symbol" (Frame.columns (Sample.quotes 2)) = false)
    by reflexivity.
  assert (H3 : StockAnalyzer.process_data Sample.already_parsed 1%positive
                 {[ 1%positive := Sample.quotes 2 ]} = (Ok 2%positive, Cases.loaded_heap))
    by (vm_compute; reflexivity).
  exact (conj H1 (conj H2 (conj H3
           (symbol_lookup_fails_after_loading _ _ _ _ _ _ H1 H2 H3)))).
Defined.

(** X13: loading keeps the frame rectangular.  When the frame read from the
    file has [n] rows in every column and date parsing returns one
    timestamp per cell, the frame [self.df] refers to after [process_data]
    has [n] rows in every column as well, the fourteen indicator columns
    included: sorting drops or repeats no row and every indicator has one
    value (possibly NaN) per row. *)
Theorem loading_keeps_the_frame_rectangular
    (to_datetime : Series -> option (list Z)) (r r' : loc) (h h' : heap)
    (df : DataFrame) (n : nat) :
  (forall s ts, to_datetime s = Some ts -> length ts = Frame.series_len s) ->
  h !! r = Some df ->
  rectangular n df ->
  StockAnalyzer.process_data to_datetime r h = (Ok r', h') ->
  exists d', h' !! r' = Some d' /\ rectangular n d'.
Proof.
  intros Hparse Hr Hn P.
  destruct (LoadFacts.process_data_ok_inv _ _ _ _ _ P)
    as (df' & s & ts & sorted & close & high & low
        & Hr' & _ & G & T & S & EC & EH & EL & _ & ->).
  assert (df' = df) by congruence. subst df'.
  eexists. split; [apply lookup_insert_eq|].
  assert (R1 : rectangular n
                 (fold_left StockAnalyzer.rename_step StockAnalyzer.column_mapping df)).
  { eapply RectFacts.rectangular_data; [|exact Hn].
    symmetry. apply RenameFacts.renaming_data. }
  assert (R2 : rectangular n sorted).
  { eapply RectFacts.rectangular_sort; [|exact S].
    apply RectFacts.rectangular_setitem; [exact R1|]. cbn [Frame.series_len].
    rewrite (Hparse _ _ T). exact (RectFacts.rectangular_getitem _ _ _ _ R1 G). }
  apply RectFacts.rectangular_augmented;
    [ exact R2 | exact (RectFacts.rectangular_getfloat _ _ _ _ R2 EC)
    | exact (RectFacts.rectangular_getfloat _ _ _ _ R2 EH)
    | exact (RectFacts.rectangular_getfloat _ _ _ _ R2 EL) ].
Qed.

Lemma loading_keeps_the_frame_rectangular_witness :
  (forall s ts, Sample.already_parsed s = Some ts -> length ts = Frame.series_len s) /\
  ({[ 1%positive := History.rising 30 ]} : heap) !! 1%positive
    = Some (History.rising 30) /\
  rectangular 30 (History.rising 30) /\
  StockAnalyzer.process_data Sample.already_parsed 1%positive
    {[ 1%positive := History.rising 30 ]} = (Ok 2%positive, History.loaded_heap) /\
  exists d', History.loaded_heap !! 2%positive = Some d' /\ rectangular 30 d'.
Proof.
  assert (H1 : forall s ts, Sample.already_parsed s = Some ts ->
                            length ts = Frame.series_len s).
  { intros [| |xs] ts E; try discriminate E. now injection E as <-. }
  assert (H2 : ({[ 1%positive := History.rising 30 ]} : heap) !! 1%positive
               = Some (History.rising 30)) by reflexivity.
  assert (H3 : rectangular 30 (History.rising 30)).
  { unfold rectangular, History.rising. cbv zeta.
    repeat (apply List.Forall_cons; [reflexivity|]). apply List.Forall_nil. }
  assert (H4 : StockAnalyzer.process_data Sample.already_parsed 1%positive
                 {[ 1%positive := History.rising 30 ]}
               = (Ok 2%positive, History.loaded_heap))
    by (vm_compute; reflexivity).
  exact (conj H1 (conj H2 (conj H3 (conj H4
           (loading_keeps_the_frame_rectangular Sample.already_parsed
              1%positive 2%positive _ _ _ 30 H1 H2 H3 H4))))).
Defined.

(** ** Indicators and detection *)

(** X14: crossovers need 200 rows.  [calculate_technical_indicators] leaves
    SMA_200 undefined on the first 199 rows of the frame, and a crossover
    compares against the SMA_200 of the last window row; so on a loaded
    frame of fewer than 200 rows detection reports neither a Golden Cross
    nor a Death Cross, for any symbol. *)
Theorem crosses_need_200_rows
    (to_datetime : Series -> option (list Z)) (r r' : loc) (h h' : heap)
    (d' : DataFrame) (rows : list Row) (symbol : string)
    (events : list PatternEvent) :
  StockAnalyzer.process_data to_datetime r h = (Ok r', h') ->
  h' !! r' = Some d' ->
  frame_rows d' = Ok rows ->
  length rows < 200 ->
  Patterns.identify_patterns rows symbol 20 = Ok events ->
  fired "Golden Cross" events = false /\ fired "Death Cross" events = false.
Proof.
  intros P L R Hlen E.
  apply (CrossFacts.identify_patterns_no_cross rows symbol); [|exact E].
  exact (WarmUpFacts.loaded_sma200_nan to_datetime r r' h h' d' rows P L R Hlen).
Qed.

Lemma crosses_need_200_rows_witness :
  StockAnalyzer.process_data Sample.already_parsed 1%positive
    {[ 1%positive := History.rising 30 ]} = (Ok 2%positive, History.loaded_heap) /\
  History.loaded_heap !! 2%positive = Some History.loaded_frame /\
  frame_rows History.loaded_frame = Ok History.loaded_rows /\
  length History.loaded_rows < 200 /\
  Patterns.identify_patterns History.loaded_rows "S" 20 = Ok History.events /\
  length History.events = 20 /\
  fired "Golden Cross" History.events = false /\
  fired "Death Cross" History.events = false.
Proof.
  assert (H1 : StockAnalyzer.process_data Sample.already_parsed 1%positive
                 {[ 1%positive := History.rising 30 ]}
               = (Ok 2%positive, History.loaded_heap))
    by (vm_compute; reflexivity).
  assert (H2 : History.loaded_heap !! 2%positive = Some History.loaded_frame)
    by (vm_compute; reflexivity).
  assert (H3 : frame_rows History.loaded_frame = Ok History.loaded_rows)
    by (vm_compute; reflexivity).
  assert (H4 : length History.loaded_rows < 200)
    by (apply Nat.ltb_lt; vm_compute; reflexivity).
  assert (H5 : Patterns.identify_patterns History.loaded_rows "S" 20 = Ok History.events)
    by (vm_compute; reflexivity).
  assert (H6 : length History.events = 20) by (vm_compute; reflexivity).
  exact (conj H1 (conj H2 (conj H3 (conj H4 (conj H5 (conj H6
           (crosses_need_200_rows Sample.already_parsed 1%positive 2%positive
              _ _ _ _ "S" _ H1 H2 H3 H4 H5))))))).
Defined.

(** ** The [/analyze] route of [app.py] *)

(** X15: the [/analyze] route works on a copy.  Whatever the ticker and
    whatever the outcome (redirect, page or exception), every frame object
    that existed before the request, the module-level dataset included,
    is unchanged afterwards; the indicator columns are assigned on the
    copy of the selection only. *)
Theorem analyze_works_on_a_copy
    (fmt_2f fmt_thousands : float -> string)
    (create_plot : DataFrame -> string -> string)
    (df : loc) (ticker : string) (h : heap) (a : loc) (x : DataFrame) :
  h !! a = Some x ->
  snd (Dashboard.analyze fmt_2f fmt_thousands create_plot df ticker h) !! a = Some x.
Proof.
  intros Ha.
  destruct (h !! df) as [d|] eqn:Hd.
  - rewrite (DashboardFacts.analyze_run _ _ _ _ _ _ _ Hd).
    destruct (Dashboard.selection d ticker) as [sd|e]; [|exact Ha].
    set (r0 := fresh (dom h)).
    assert (F : h !! r0 = None) by (apply not_elem_of_dom, is_fresh).
    assert (Hfresh : r0 <> a).
    { intros E. rewrite <- E in Ha. discriminate (eq_trans (eq_sym Ha) F). }
    destruct (Frame.empty sd); cbn [snd];
      rewrite lookup_insert_ne by exact Hfresh; exact Ha.
  - unfold Dashboard.analyze. rewrite StoreFacts.run_bind.
    unfold Store.load at 1. rewrite Hd. exact Ha.
Qed.

Lemma analyze_works_on_a_copy_witness :
  ({[ 1%positive := Sample.quotes 2 ]} : heap) !! 1%positive = Some (Sample.quotes 2) /\
  snd (Dashboard.analyze Sample.blank Sample.blank Market.no_plot 1%positive "S"
         {[ 1%positive := Sample.quotes 2 ]}) !! 1%positive = Some (Sample.quotes 2).
Proof.
  assert (H : ({[ 1%positive := Sample.quotes 2 ]} : heap) !! 1%positive
              = Some (Sample.quotes 2)) by reflexivity.
  exact (conj H (analyze_works_on_a_copy Sample.blank Sample.blank Market.no_plot
                   1%positive "S" _ 1%positive _ H)).
Defined.

(** X16: the [/analyze] route by ticker.  On a dataset with a Name column of
    strings and numeric close, high, low and volume columns: a ticker that
    names no row is answered by a redirect to the dashboard with the
    message flashed; a ticker that names a row is answered by the page,
    whose statistics are those of the rows of that ticker alone (current
    price the last close among them, extremes and mean over them). *)
Theorem analyze_by_ticker
    (fmt_2f fmt_thousands : float -> string)
    (create_plot : DataFrame -> string -> string)
    (df : loc) (ticker : string) (h : heap) (d : DataFrame) (n : nat)
    (names : list string) (close high low volume : list float) :
  h !! df = Some d ->
  rectangular n d ->
  Frame.getitem d "Name" = Ok (Object names) ->
  Frame.getfloat d "close" = Ok close ->
  Frame.getfloat d "high" = Ok high ->
  Frame.getfloat d "low" = Ok low ->
  Frame.getfloat d "volume" = Ok volume ->
  (~ In ticker names ->
   fst (Dashboard.analyze fmt_2f fmt_thousands create_plot df ticker h)
   = Ok (Dashboard.Redirect "dashboard" "No data found for the selected stock")) /\
  (In ticker names ->
   exists plot_div stats earlier latest,
     fst (Dashboard.analyze fmt_2f fmt_thousands create_plot df ticker h)
     = Ok (Dashboard.Render plot_div ticker stats) /\
     Frame.select (Frame.eq_str (Object names) ticker) close
     = (earlier ++ [latest])%list /\
     dict_get "Current Price" stats = Some ("$" ++ fmt_2f latest) /\
     dict_get "52 Week High" stats
     = Some ("$" ++ fmt_2f
               (Pandas.max (Frame.select (Frame.eq_str (Object names) ticker) high))) /\
     dict_get "52 Week Low" stats
     = Some ("$" ++ fmt_2f
               (Pandas.min (Frame.select (Frame.eq_str (Object names) ticker) low))) /\
     dict_get "Average Volume" stats
     = Some (fmt_thousands
               (Pandas.mean (Frame.select (Frame.eq_str (Object names) ticker) volume)))).
Proof.
  intros Hd Hn G EC EH EL EV.
  rewrite (DashboardFacts.analyze_run _ _ _ _ _ _ _ Hd).
  unfold Dashboard.selection. rewrite G. cbn [mbind result_bind].
  set (mask := Frame.eq_str (Object names) ticker).
  split.
  - intros Hnot.
    rewrite SelectFacts.empty_getmask_none by now apply SelectFacts.eq_str_none.
    reflexivity.
  - intros Hin.
    assert (Hmask : length mask = n).
    { unfold mask. rewrite SelectFacts.eq_str_length.
      exact (RectFacts.rectangular_getitem _ _ _ _ Hn G). }
    assert (Hsome : 0 < selected mask) by now apply SelectFacts.eq_str_some.
    assert (Hrect : rectangular (selected mask) (Frame.getmask d mask))
      by exact (SelectFacts.rectangular_getmask n d mask Hn Hmask).
    assert (Em : Frame.empty (Frame.getmask d mask) = false).
    { eapply SelectFacts.rectangular_empty; [exact Hrect | | exact Hsome].
      rewrite SelectFacts.getitem_getmask, G. reflexivity. }
    rewrite Em.
    assert (Hclose : Frame.select mask close <> []).
    { intros E. apply (f_equal (@length float)) in E.
      rewrite SelectFacts.select_length in E; [cbn [length] in E; lia|].
      rewrite Hmask. exact (RectFacts.rectangular_getfloat _ _ _ _ Hn EC). }
    destruct (exists_last Hclose) as (earlier & latest & Hlast).
    destruct (DashboardFacts.statistics_of_selection fmt_2f fmt_thousands
                (Frame.getmask d mask) _ _ _ _ latest earlier Em
                (SelectFacts.getfloat_getmask _ mask _ _ EC)
                (SelectFacts.getfloat_getmask _ mask _ _ EH)
                (SelectFacts.getfloat_getmask _ mask _ _ EL)
                (SelectFacts.getfloat_getmask _ mask _ _ EV) Hlast)
      as (last_rsi & last_macd & _ & _ & S).
    rewrite S. cbn [fst mbind result_bind].
    do 2 eexists. exists earlier, latest.
    split; [reflexivity|]. split; [exact Hlast|].
    repeat split.
Qed.

Lemma analyze_by_ticker_witness :
  ({[ 1%positive := Sample.quotes 2 ]} : heap) !! 1%positive = Some (Sample.quotes 2) /\
  rectangular 20 (Sample.quotes 2) /\
  Frame.getitem (Sample.quotes 2) "Name" = Ok (Object Market.names) /\
  Frame.getfloat (Sample.quotes 2) "close" = Ok Market.prices /\
  Frame.getfloat (Sample.quotes 2) "high" = Ok Market.prices /\
  Frame.getfloat (Sample.quotes 2) "low" = Ok Market.prices /\
  Frame.getfloat (Sample.quotes 2) "volume" = Ok Market.prices /\
  ~ In "X" Market.names /\
  In "S" Market.names /\
  fst (Dashboard.analyze Sample.blank Sample.blank Market.no_plot 1%positive "X"
         {[ 1%positive := Sample.quotes 2 ]})
  = Ok (Dashboard.Redirect "dashboard" "No data found for the selected stock") /\
  exists plot_div stats earlier latest,
    fst (Dashboard.analyze Sample.blank Sample.blank Market.no_plot 1%positive "S"
           {[ 1%positive := Sample.quotes 2 ]})
    = Ok (Dashboard.Render plot_div "S" stats) /\
    Frame.select (Frame.eq_str (Object Market.names) "S") Market.prices
    = (earlier ++ [latest])%list /\
    dict_get "Current Price" stats = Some ("$" ++ Sample.blank latest) /\
    dict_get "52 Week High" stats
    = Some ("$" ++ Sample.blank
              (Pandas.max (Frame.select (Frame.eq_str (Object Market.names) "S")
                             Market.prices))) /\
    dict_get "52 Week Low" stats
    = Some ("$" ++ Sample.blank
              (Pandas.min (Frame.select (Frame.eq_str (Object Market.names) "S")
                             Market.prices))) /\
    dict_get "Average Volume" stats
    = Some (Sample.blank
              (Pandas.mean (Frame.select (Frame.eq_str (Object Market.names) "S")
                              Market.prices))).
Proof.
  assert (H1 : ({[ 1%positive := Sample.quotes 2 ]} : heap) !! 1%positive
               = Some (Sample.quotes 2)) by reflexivity.
  assert (H2 : rectangular 20 (Sample.quotes 2)).
  { unfold rectangular, Sample.quotes. cbv zeta.
    repeat (apply List.Forall_cons; [reflexivity|]). apply List.Forall_nil. }
  assert (H3 : Frame.getitem (Sample.quotes 2) "Name" = Ok (Object Market.names))
    by reflexivity.
  assert (H4 : Frame.getfloat (Sample.quotes 2) "close" = Ok Market.prices)
    by reflexivity.
  assert (H5 : Frame.getfloat (Sample.quotes 2) "high" = Ok Market.prices)
    by reflexivity.
  assert (H6 : Frame.getfloat (Sample.quotes 2) "low" = Ok Market.prices)
    by reflexivity.
  assert (H7 : Frame.getfloat (Sample.quotes 2) "volume" = Ok Market.prices)
    by reflexivity.
  assert (H8 : ~ In "X" Market.names).
  { unfold Market.names. intros H. apply in_app_or in H.
    destruct H as [H|[H|[]]]; [apply repeat_spec in H|]; discriminate H. }
  assert (H9 : In "S" Market.names).
  { unfold Market.names. apply in_or_app. right. left. reflexivity. }
  exact (conj H1 (conj H2 (conj H3 (conj H4 (conj H5 (conj H6 (conj H7 (conj H8 (conj H9
           (conj
              (proj1 (analyze_by_ticker Sample.blank Sample.blank Market.no_plot
                        1%positive "X" _ _ 20 _ _ _ _ _ H1 H2 H3 H4 H5 H6 H7) H8)
              (proj2 (analyze_by_ticker Sample.blank Sample.blank Market.no_plot
                        1%positive "S" _ _ 20 _ _ _ _ _ H1 H2 H3 H4 H5 H6 H7) H9))))))))))).
Defined.



(** ** The indicator helpers when a column cannot be read *)

(** X18: [add_technical_indicators] swallows its errors and is all or
    nothing.  On an empty frame, or when the close column cannot be read,
    it returns the frame it was given with nothing assigned and raises
    nothing; otherwise all five indicator columns are there afterwards. *)
Theorem add_indicators_all_or_nothing (r : loc) (h : heap) (d : DataFrame) :
  h !! r = Some d ->
  (Frame.empty d = true \/ (exists e, Frame.getfloat d "close" = Raise e) ->
   App.add_technical_indicators r h = (Ok r, h)) /\
  (Frame.empty d = false -> (exists close, Frame.getfloat d "close" = Ok close) ->
   exists d',
     App.add_technical_indicators r h = (Ok r, <[r := d']> h) /\
     Forall (fun l => Frame.mem l (Frame.columns d') = true) App.indicator_columns).
Proof.
  intros H. rewrite (DashboardFacts.add_technical_indicators_frame r h d H).
  unfold with_indicators. split.
  - intros [Em|[e E]].
    + rewrite Em. now rewrite insert_id.
    + rewrite E. destruct (Frame.empty d); now rewrite insert_id.
  - intros Em [close E]. rewrite Em, E. cbn [fold_left fst snd].
    eexists. split; [reflexivity|]. AugmentFacts.present.
Qed.

Lemma add_indicators_all_or_nothing_witness :
  ({[ 1%positive := Broken.no_close ]} : heap) !! 1%positive = Some Broken.no_close /\
  (Frame.empty Broken.no_close = true \/
   (exists e, Frame.getfloat Broken.no_close "close" = Raise e)) /\
  App.add_technical_indicators 1%positive {[ 1%positive := Broken.no_close ]}
  = (Ok 1%positive, {[ 1%positive := Broken.no_close ]}) /\
  ({[ 1%positive := Sample.one_bar ]} : heap) !! 1%positive = Some Sample.one_bar /\
  Frame.empty Sample.one_bar = false /\
  (exists close, Frame.getfloat Sample.one_bar "close" = Ok close) /\
  exists d',
    App.add_technical_indicators 1%positive {[ 1%positive := Sample.one_bar ]}
    = (Ok 1%positive, <[1%positive := d']> {[ 1%positive := Sample.one_bar ]}) /\
    Forall (fun l => Frame.mem l (Frame.columns d') = true) App.indicator_columns.
Proof.
  assert (H1 : ({[ 1%positive := Broken.no_close ]} : heap) !! 1%positive
               = Some Broken.no_close) by reflexivity.
  assert (H2 : Frame.empty Broken.no_close = true \/
               (exists e, Frame.getfloat Broken.no_close "close" = Raise e))
    by (right; eexists; reflexivity).
  assert (H3 : ({[ 1%positive := Sample.one_bar ]} : heap) !! 1%positive
               = Some Sample.one_bar) by reflexivity.
  assert (H4 : Frame.empty Sample.one_bar = false) by reflexivity.
  assert (H5 : exists close, Frame.getfloat Sample.one_bar "close" = Ok close)
    by (eexists; reflexivity).
  exact (conj H1 (conj H2
           (conj (proj1 (add_indicators_all_or_nothing 1%positive _ _ H1) H2)
              (conj H3 (conj H4 (conj H5
                 (proj2 (add_indicators_all_or_nothing 1%positive _ _ H3) H4 H5))))))).
Defined.

(** X19: [calculate_technical_indicators] is not atomic.  When Close cannot
    be read it raises with the frame as it was.  When Close can be read
    but High or Low cannot, it raises only after the twelve columns derived
    from Close have been assigned: the frame keeps them, and Stoch_K and
    Stoch_D are as they were. *)
Theorem calculate_indicators_not_atomic (r : loc) (h : heap) (d : DataFrame) :
  h !! r = Some d ->
  (forall e, Frame.getfloat d "Close" = Raise e ->
             StockAnalyzer.calculate_technical_indicators r h = (Raise e, h)) /\
  (forall close e,
      Frame.getfloat d "Close" = Ok close ->
      Frame.getfloat d "High" = Raise e \/
      (exists high, Frame.getfloat d "High" = Ok high) /\
      Frame.getfloat d "Low" = Raise e ->
      exists d',
        StockAnalyzer.calculate_technical_indicators r h = (Raise e, <[r := d']> h) /\
        Forall (fun l => Frame.mem l (Frame.columns d') = true)
               close_indicator_columns /\
        Frame.getitem d' "Stoch_K" = Frame.getitem d "Stoch_K" /\
        Frame.getitem d' "Stoch_D" = Frame.getitem d "Stoch_D").
Proof.
  intros H. split.
  - intros e EC. unfold StockAnalyzer.calculate_technical_indicators.
    AugmentFacts.run_statement. rewrite EC. reflexivity.
  - intros close e EC [EH|[[high EH] EL]];
      unfold StockAnalyzer.calculate_technical_indicators;
      repeat (AugmentFacts.run_statement; rewrite ?EC, ?EH, ?EL; cbv beta iota);
      (eexists; split; [reflexivity|]; split; [AugmentFacts.present|];
       split; rewrite !FrameFacts.getitem_setitem_ne by reflexivity; reflexivity).
Qed.

Lemma calculate_indicators_not_atomic_witness :
  ({[ 1%positive := Broken.text_high ]} : heap) !! 1%positive = Some Broken.text_high /\
  Frame.getfloat Broken.text_high "Close" = Ok [1%float] /\
  (Frame.getfloat Broken.text_high "High" = Raise LibraryError \/
   (exists high, Frame.getfloat Broken.text_high "High" = Ok high) /\
   Frame.getfloat Broken.text_high "Low" = Raise LibraryError) /\
  exists d',
    StockAnalyzer.calculate_technical_indicators 1%positive
      {[ 1%positive := Broken.text_high ]}
    = (Raise LibraryError, <[1%positive := d']> {[ 1%positive := Broken.text_high ]}) /\
    Forall (fun l => Frame.mem l (Frame.columns d') = true) close_indicator_columns /\
    Frame.getitem d' "Stoch_K" = Frame.getitem Broken.text_high "Stoch_K" /\
    Frame.getitem d' "Stoch_D" = Frame.getitem Broken.text_high "Stoch_D".
Proof.
  assert (H1 : ({[ 1%positive := Broken.text_high ]} : heap) !! 1%positive
               = Some Broken.text_high) by reflexivity.
  assert (H2 : Frame.getfloat Broken.text_high "Close" = Ok [1%float]) by reflexivity.
  assert (H3 : Frame.getfloat Broken.text_high "High" = Raise LibraryError \/
               (exists high, Frame.getfloat Broken.text_high "High" = Ok high) /\
               Frame.getfloat Broken.text_high "Low" = Raise LibraryError)
    by (left; reflexivity).
  exact (conj H1 (conj H2 (conj H3
           (proj2 (calculate_indicators_not_atomic 1%positive _ _ H1) _ _ H2 H3)))).
Defined.

(** X20: an error swallowed by [add_technical_indicators] resurfaces.  When
    the dataset has rows for the ticker but no close column, the helper
    returns the selection without indicators, and the [/analyze] route then
    fails in [calculate_statistics] with the KeyError for close. *)
Theorem analyze_without_close_raises
    (fmt_2f fmt_thousands : float -> string)
    (create_plot : DataFrame -> string -> string)
    (df : loc) (ticker : string) (h : heap) (d : DataFrame) (n : nat)
    (names : list string) :
  h !! df = Some d ->
  rectangular n d ->
  Frame.getitem d "Name" = Ok (Object names) ->
  In ticker names ->
  Frame.mem "close" (Frame.columns d) = false ->
  fst (Dashboard.analyze fmt_2f fmt_thousands create_plot df ticker h)
  = Raise (KeyError "close").
Proof.
  intros Hd Hn G Hin Hc.
  rewrite (DashboardFacts.analyze_run _ _ _ _ _ _ _ Hd).
  unfold Dashboard.selection. rewrite G. cbn [mbind result_bind].
  set (mask := Frame.eq_str (Object names) ticker).
  assert (Hmask : length mask = n).
  { unfold mask. rewrite SelectFacts.eq_str_length.
    exact (RectFacts.rectangular_getitem _ _ _ _ Hn G). }
  assert (Em : Frame.empty (Frame.getmask d mask) = false).
  { eapply SelectFacts.rectangular_empty;
      [exact (SelectFacts.rectangular_getmask n d mask Hn Hmask) | |
       now apply SelectFacts.eq_str_some].
    rewrite SelectFacts.getitem_getmask, G. reflexivity. }
  rewrite Em.
  assert (E : Frame.getfloat (Frame.getmask d mask) "close" = Raise (KeyError "close")).
  { unfold Frame.getfloat. rewrite SelectFacts.getitem_getmask.
    now rewrite ColumnFacts.getitem_none. }
  unfold with_indicators. rewrite Em, E.
  unfold App.calculate_statistics. rewrite E. reflexivity.
Qed.

Lemma analyze_without_close_raises_witness :
  ({[ 1%positive := Broken.no_close ]} : heap) !! 1%positive = Some Broken.no_close /\
  rectangular 1 Broken.no_close /\
  Frame.getitem Broken.no_close "Name" = Ok (Object ["S"]) /\
  In "S" ["S"] /\
  Frame.mem "close" (Frame.columns Broken.no_close) = false /\
  fst (Dashboard.analyze Sample.blank Sample.blank Market.no_plot 1%positive "S"
         {[ 1%positive := Broken.no_close ]})
  = Raise (KeyError "close").
Proof.
  assert (H1 : ({[ 1%positive := Broken.no_close ]} : heap) !! 1%positive
               = Some Broken.no_close) by reflexivity.
  assert (H2 : rectangular 1 Broken.no_close).
  { unfold rectangular, Broken.no_close.
    repeat (apply List.Forall_cons; [reflexivity|]). apply List.Forall_nil. }
  assert (H3 : Frame.getitem Broken.no_close "Name" = Ok (Object ["S"])) by reflexivity.
  assert (H4 : In "S" ["S"]) by (left; reflexivity).
  assert (H5 : Frame.mem "close" (Frame.columns Broken.no_close) = false)
    by reflexivity.
  exact (conj H1 (conj H2 (conj H3 (conj H4 (conj H5
           (analyze_without_close_raises Sample.blank Sample.blank Market.no_plot
              1%positive "S" _ _ 1 _ H1 H2 H3 H4 H5)))))).
Defined.

(** ** The figure and the [/results] route of [src/app.py] *)

(** X21: the traces of the figure share one time axis.  For a symbol with
    bars and date bounds pandas can compare, [plot_stock_trend] returns a
    figure of ten traces; each has as time axis the dates of the symbol's
    bars within the bounds, in the order of the table, and as many values
    in each of its series as there are dates.  A window that contains no
    bar gives a figure with empty traces, not an error. *)
Theorem plot_shares_one_time_axis
    (df : list Row) (symbol : string) (start_date end_date : bound) :
  start_date <> Unparsable -> end_date <> Unparsable ->
  Patterns.rows_of_symbol df symbol <> [] ->
  exists fig x,
    Plot.plot_stock_trend df symbol start_date end_date = Ok fig /\
    x = map Date (List.filter (fun r => within start_date end_date (Date r))
                    (Patterns.rows_of_symbol df symbol)) /\
    Forall (fun t => within start_date end_date t = true) x /\
    length (traces fig) = 10 /\
    Forall (fun t => trace_x (fst t) = x /\
                     Forall (fun y => length y = length x) (trace_ys (fst t)))
           (traces fig).
Proof.
  intros Hs He Hne. unfold Plot.plot_stock_trend. cbv zeta.
  destruct (Patterns.rows_of_symbol df symbol) as [|r rows] eqn:R; [congruence|].
  pose proof (PlotFacts.window_rows start_date end_date (r :: rows) Hs He) as W.
  destruct (Plot.from start_date (r :: rows)) as [rows1|e1]; [|discriminate W].
  cbn [mbind result_bind] in W |- *. rewrite W. cbn [mbind result_bind].
  do 2 eexists. split; [reflexivity|]. split; [reflexivity|].
  split.
  { apply List.Forall_forall. intros t Ht. apply in_map_iff in Ht.
    destruct Ht as (row & <- & Hrow). apply filter_In in Hrow. apply Hrow. }
  split; [reflexivity|]. cbn [traces].
  repeat (apply List.Forall_cons;
          [cbn [fst trace_x trace_ys]; split; [reflexivity|];
           repeat (apply List.Forall_cons; [now rewrite !length_map|]);
           apply List.Forall_nil|]).
  apply List.Forall_nil.
Qed.

Lemma plot_shares_one_time_axis_witness :
  At 100 <> Unparsable /\
  Unbounded <> Unparsable /\
  Patterns.rows_of_symbol (Sample.flat 3) "S" <> [] /\
  exists fig x,
    Plot.plot_stock_trend (Sample.flat 3) "S" (At 100) Unbounded = Ok fig /\
    x = map Date (List.filter (fun r => within (At 100) Unbounded (Date r))
                    (Patterns.rows_of_symbol (Sample.flat 3) "S")) /\
    Forall (fun t => within (At 100) Unbounded t = true) x /\
    length (traces fig) = 10 /\
    Forall (fun t => trace_x (fst t) = x /\
                     Forall (fun y => length y = length x) (trace_ys (fst t)))
           (traces fig).
Proof.
  assert (H1 : At 100 <> Unparsable) by discriminate.
  assert (H2 : Unbounded <> Unparsable) by discriminate.
  assert (H3 : Patterns.rows_of_symbol (Sample.flat 3) "S" <> [])
    by (simpl; discriminate).
  exact (conj H1 (conj H2 (conj H3
           (plot_shares_one_time_axis (Sample.flat 3) "S" _ _ H1 H2 H3)))).
Defined.

(** X22: the [/results] route.  For a symbol without a bar the three
    analyzer calls stop at the first one and the route redirects to the
    index with the message "No data found for symbol: ..." flashed.  For a
    symbol with bars and date bounds pandas can compare it renders the
    page with the summary, the figure and the last ten pattern events (all
    of them when there are fewer); with a bound pandas cannot compare the
    exception of the plot is flashed instead. *)
Theorem results_page_or_redirect
    (fmt_2f fmt_pct fmt_thousands : float -> string)
    (to_html : Figure -> string) (library_message : exn -> string)
    (df : list Row) (symbol : string) (start_date end_date : bound) :
  (Patterns.rows_of_symbol df symbol = [] ->
   Site.results fmt_2f fmt_pct fmt_thousands to_html library_message
     df symbol start_date end_date
   = Site.Redirect "index" ("No data found for symbol: " ++ symbol)) /\
  (Patterns.rows_of_symbol df symbol <> [] ->
   start_date <> Unparsable -> end_date <> Unparsable ->
   exists summary events fig earlier table,
     Summary.get_stock_summary fmt_2f fmt_pct fmt_thousands df symbol = Ok summary /\
     Patterns.identify_patterns df symbol 20 = Ok events /\
     Plot.plot_stock_trend df symbol start_date end_date = Ok fig /\
     Site.results fmt_2f fmt_pct fmt_thousands to_html library_message
       df symbol start_date end_date
     = Site.Render symbol summary table (to_html fig) /\
     events = (earlier ++ table)%list /\
     length table = Nat.min 10 (length events)) /\
  (Patterns.rows_of_symbol df symbol <> [] ->
   start_date = Unparsable \/ end_date = Unparsable ->
   Site.results fmt_2f fmt_pct fmt_thousands to_html library_message
     df symbol start_date end_date
   = Site.Redirect "index" (library_message LibraryError)).
Proof.
  split; [|split].
  - intros R. unfold Site.results, Summary.get_stock_summary. rewrite R. reflexivity.
  - intros Hne Hs He.
    destruct (SummaryFacts.get_stock_summary_ok fmt_2f fmt_pct fmt_thousands df symbol Hne)
      as (last & _ & S).
    pose proof (PatternFacts.identify_patterns_scan df symbol 20
                  ltac:(lia) Hne) as I.
    assert (P : exists fig, Plot.plot_stock_trend df symbol start_date end_date = Ok fig).
    { unfold Plot.plot_stock_trend. cbv zeta.
      destruct (Patterns.rows_of_symbol df symbol) as [|r rows]; [congruence|].
      pose proof (PlotFacts.window_rows start_date end_date (r :: rows) Hs He) as W.
      destruct (Plot.from start_date (r :: rows)) as [rows1|e1]; [|discriminate W].
      cbn [mbind result_bind] in W |- *. rewrite W. cbn [mbind result_bind]. eauto. }
    destruct P as [fig P].
    destruct (SiteFacts.tail_suffix 10
                (concat (map (Turn.turn_events (Patterns.rows_of_symbol df symbol) 20)
                           (seq 20 (length (Patterns.rows_of_symbol df symbol) - 20)))))
      as (earlier & Hsplit & Hlen).
    eexists. eexists. exists fig, earlier. eexists.
    split; [exact S|]. split; [exact I|]. split; [exact P|].
    split; [|split; [exact Hsplit | exact Hlen]].
    unfold Site.results. rewrite S, I, P. cbn [mbind result_bind]. cbv zeta.
    destruct (concat _); reflexivity.
  - intros Hne Hb.
    destruct (SummaryFacts.get_stock_summary_ok fmt_2f fmt_pct fmt_thousands df symbol Hne)
      as (last & _ & S).
    pose proof (PatternFacts.identify_patterns_scan df symbol 20
                  ltac:(lia) Hne) as I.
    unfold Site.results. rewrite S, I. cbn [mbind result_bind].
    unfold Plot.plot_stock_trend. cbv zeta.
    destruct (Patterns.rows_of_symbol df symbol) as [|r rows]; [congruence|].
    destruct Hb as [-> | ->]; [reflexivity|].
    destruct start_date; reflexivity.
Qed.

Lemma results_page_or_redirect_witness :
  Patterns.rows_of_symbol History.loaded_rows "X" = [] /\
  Site.results Sample.blank Sample.blank Sample.blank Pages.title_only Pages.silent
    History.loaded_rows "X" Unbounded Unbounded
  = Site.Redirect "index" "No data found for symbol: X" /\
  Patterns.rows_of_symbol History.loaded_rows "S" <> [] /\
  (exists summary events fig earlier table,
     Summary.get_stock_summary Sample.blank Sample.blank Sample.blank
       History.loaded_rows "S" = Ok summary /\
     Patterns.identify_patterns History.loaded_rows "S" 20 = Ok events /\
     Plot.plot_stock_trend History.loaded_rows "S" (At 5) Unbounded = Ok fig /\
     Site.results Sample.blank Sample.blank Sample.blank Pages.title_only Pages.silent
       History.loaded_rows "S" (At 5) Unbounded
     = Site.Render "S" summary table (Pages.title_only fig) /\
     events = (earlier ++ table)%list /\
     length table = Nat.min 10 (length events)) /\
  Site.results Sample.blank Sample.blank Sample.blank Pages.title_only Pages.silent
    History.loaded_rows "S" Unparsable Unbounded
  = Site.Redirect "index" (Pages.silent LibraryError).
Proof.
  assert (H1 : Patterns.rows_of_symbol History.loaded_rows "X" = [])
    by (vm_compute; reflexivity).
  assert (H2 : Patterns.rows_of_symbol History.loaded_rows "S" <> [])
    by (vm_compute; discriminate).
  assert (H3 : At 5 <> Unparsable) by discriminate.
  assert (H4 : Unbounded <> Unparsable) by discriminate.
  exact (conj
           H1
           (conj
              (proj1 (results_page_or_redirect Sample.blank Sample.blank Sample.blank
                        Pages.title_only Pages.silent History.loaded_rows "X"
                        Unbounded Unbounded) H1)
              (conj
                 H2
                 (conj
                    (proj1 (proj2 (results_page_or_redirect Sample.blank Sample.blank
                                     Sample.blank Pages.title_only Pages.silent
                                     History.loaded_rows "S" (At 5) Unbounded))
                       H2 H3 H4)
                    (proj2 (proj2 (results_page_or_redirect Sample.blank Sample.blank
                                     Sample.blank Pages.title_only Pages.silent
                                     History.loaded_rows "S" Unparsable Unbounded))
                       H2 (or_introl eq_refl)))))).
Defined.

(** ** The sample-data generator *)

(** X23: the generated bars are consistent.  For a date range that is not
    empty [generate_stock_data] returns a frame with the columns date,
    open, close, high, low, volume and Name, one row per business day;
    open and close are the same column and start at the initial price, and
    on every row whose price is a number the fix-up leaves
    low <= open = close <= high.  It makes 4n - 1 draws for n days. *)
Theorem generated_bars_are_consistent
    (normal : nat -> float -> float -> float) (to_int : float -> float)
    (symbol : string) (date_range : list Z) (initial_price volatility : float)
    (drawn : nat) :
  date_range <> [] ->
  exists df prices high low,
    Generator.generate_stock_data normal to_int symbol date_range initial_price
      volatility drawn
    = (Ok df, drawn + (length date_range - 1) + 3 * length date_range) /\
    Frame.columns df = ["date"; "open"; "close"; "high"; "low"; "volume"; "Name"] /\
    rectangular (length date_range) df /\
    Frame.getitem df "date" = Ok (Datetime64 date_range) /\
    Frame.getitem df "Name" = Ok (Object (repeat symbol (length date_range))) /\
    Frame.getfloat df "open" = Ok prices /\
    Frame.getfloat df "close" = Ok prices /\
    Frame.getfloat df "high" = Ok high /\
    Frame.getfloat df "low" = Ok low /\
    nth_error prices 0 = Some initial_price /\
    forall i p hi lo,
      nth_error prices i = Some p ->
      nth_error high i = Some hi ->
      nth_error low i = Some lo ->
      PyFloat.isnan p = false ->
      PyFloat.le lo p = true /\ PyFloat.le p hi = true.
Proof.
  intros Hne.
  destruct (GeneratorFacts.generate_ok normal to_int symbol date_range initial_price
              volatility drawn Hne)
    as (prices & high & low & volume & Hp & Hh & Hl & Hv & H0 & Hrow & E).
  eexists. exists prices, high, low.
  split; [exact E|]. split; [reflexivity|].
  split.
  { unfold rectangular.
    repeat (apply List.Forall_cons;
            [cbn [snd Frame.series_len];
             first [reflexivity | assumption | apply repeat_length]|]).
    apply List.Forall_nil. }
  do 6 (split; [reflexivity|]).
  split; [exact H0|].
  intros i p hi lo Hi Hhi Hlo Hnan.
  destruct (Hrow i p Hi) as (h0 & l0 & Eh & El).
  rewrite Eh in Hhi. rewrite El in Hlo. injection Hhi as <-. injection Hlo as <-.
  split.
  - apply (proj1 (SummaryFacts.min_is_minimum [p; p; l0]) p); [now left | exact Hnan].
  - apply (proj1 (SummaryFacts.max_is_maximum [p; p; h0]) p); [now left | exact Hnan].
Qed.

Lemma generated_bars_are_consistent_witness :
  [1; 2; 3]%Z <> [] /\
  exists df prices high low,
    Generator.generate_stock_data Draws.tenth Draws.keep "S" [1; 2; 3]%Z 100 0.02 0
    = (Ok df, 0 + (length [1; 2; 3]%Z - 1) + 3 * length [1; 2; 3]%Z) /\
    Frame.columns df = ["date"; "open"; "close"; "high"; "low"; "volume"; "Name"] /\
    rectangular (length [1; 2; 3]%Z) df /\
    Frame.getitem df "date" = Ok (Datetime64 [1; 2; 3]%Z) /\
    Frame.getitem df "Name" = Ok (Object (repeat "S" (length [1; 2; 3]%Z))) /\
    Frame.getfloat df "open" = Ok prices /\
    Frame.getfloat df "close" = Ok prices /\
    Frame.getfloat df "high" = Ok high /\
    Frame.getfloat df "low" = Ok low /\
    nth_error prices 0 = Some 100%float /\
    forall i p hi lo,
      nth_error prices i = Some p ->
      nth_error high i = Some hi ->
      nth_error low i = Some lo ->
      PyFloat.isnan p = false ->
      PyFloat.le lo p = true /\ PyFloat.le p hi = true.
Proof.
  assert (H : [1; 2; 3]%Z <> []) by discriminate.
  exact (conj H (generated_bars_are_consistent Draws.tenth Draws.keep "S" [1; 2; 3]%Z
                   100 0.02 0 H)).
Defined.

(** X24: an empty date range is an error.  The price list starts with the
    initial price whatever the number of days, so for a range without a
    business day the columns have different lengths and building the frame
    raises; three draws have been made by then. *)
Theorem empty_date_range_raises
    (normal : nat -> float -> float -> float) (to_int : float -> float)
    (symbol : string) (initial_price volatility : float) (drawn : nat) :
  Generator.generate_stock_data normal to_int symbol [] initial_price volatility drawn
  = (Raise LibraryError, drawn + 3).
Proof. apply GeneratorFacts.generate_empty. Qed.

(** X25: generated data loads, and has no Symbol column.  A frame
    [generate_stock_data] returns passes [process_data] when its dates
    parse, and the loaded frame has no column labelled Symbol: the lookup
    [analyzer.df['Symbol']] of [analyze_stocks.main] raises KeyError on the
    project's own sample data. *)
Theorem generated_data_loads_without_symbol
    (normal : nat -> float -> float -> float) (to_int : float -> float)
    (to_datetime : Series -> option (list Z))
    (symbol : string) (date_range : list Z) (initial_price volatility : float)
    (drawn : nat) (df : DataFrame) (r : loc) (h : heap) (parsed : list Z) :
  fst (Generator.generate_stock_data normal to_int symbol date_range initial_price
         volatility drawn) = Ok df ->
  h !! r = Some df ->
  to_datetime (Datetime64 date_range) = Some parsed ->
  exists r' h' d',
    StockAnalyzer.process_data to_datetime r h = (Ok r', h') /\
    h' !! r' = Some d' /\
    Frame.getitem d' "Symbol" = Raise (KeyError "Symbol").
Proof.
  intros G Hr T.
  destruct date_range as [|day days].
  { rewrite GeneratorFacts.generate_empty in G. discriminate G. }
  destruct (GeneratorFacts.generate_ok normal to_int symbol (day :: days) initial_price
              volatility drawn ltac:(discriminate))
    as (prices & high & low & volume & _ & _ & _ & _ & _ & _ & E).
  rewrite E in G. cbn [fst] in G. injection G as <-.
  destruct (LoadFacts.process_data_ok to_datetime r h _ (Datetime64 (day :: days))
              parsed prices high low Hr eq_refl eq_refl T eq_refl eq_refl eq_refl)
    as (r' & h' & P).
  destruct (LoadFacts.symbol_missing to_datetime r r' h h' _ Hr eq_refl P)
    as (d' & L & S).
  exists r', h', d'. split; [exact P|]. split; [exact L | exact S].
Qed.

Lemma generated_data_loads_without_symbol_witness :
  fst (Generator.generate_stock_data Draws.tenth Draws.keep "S" [1; 2; 3]%Z 100 0.02 0)
  = Ok Draws.three_days /\
  ({[ 1%positive := Draws.three_days ]} : heap) !! 1%positive = Some Draws.three_days /\
  Sample.already_parsed (Datetime64 [1; 2; 3]%Z) = Some [1; 2; 3]%Z /\
  exists r' h' d',
    StockAnalyzer.process_data Sample.already_parsed 1%positive
      {[ 1%positive := Draws.three_days ]} = (Ok r', h') /\
    h' !! r' = Some d' /\
    Frame.getitem d' "Symbol" = Raise (KeyError "Symbol").
Proof.
  assert (H1 : fst (Generator.generate_stock_data Draws.tenth Draws.keep "S"
                      [1; 2; 3]%Z 100 0.02 0) = Ok Draws.three_days)
    by (vm_compute; reflexivity).
  assert (H2 : ({[ 1%positive := Draws.three_days ]} : heap) !! 1%positive
               = Some Draws.three_days) by reflexivity.
  assert (H3 : Sample.already_parsed (Datetime64 [1; 2; 3]%Z) = Some [1; 2; 3]%Z)
    by reflexivity.
  exact (conj H1 (conj H2 (conj H3
           (generated_data_loads_without_symbol Draws.tenth Draws.keep
              Sample.already_parsed "S" [1; 2; 3]%Z 100 0.02 0 _ 1%positive _ _
              H1 H2 H3)))).
Defined.

(** ** Pattern detection: what it reads *)

(** X26: detection reads eight cells of a row.  Two tables that agree, row by
    row, on Date, Name, Close, SMA_50, SMA_200, RSI, BB_Upper and BB_Lower
    get the same result from [identify_patterns], events or exception,
    whatever their other columns hold: volume (whose change the function
    computes and never uses), the open, high and low prices, SMA_20, the
    EMAs, the MACD columns, BB_Middle and the stochastic oscillator have no
    influence on the patterns reported. *)
Theorem detection_reads_eight_cells
    (df1 df2 : list Row) (symbol : string) (window : nat) :
  2 <= window ->
  map detection_inputs df1 = map detection_inputs df2 ->
  Patterns.identify_patterns df1 symbol window
  = Patterns.identify_patterns df2 symbol window.
Proof.
  intros Hw E. now apply InputFacts.identify_patterns_inputs.
Qed.

Lemma detection_reads_eight_cells_witness :
  2 <= 20 /\
  map detection_inputs (Sample.flat 22) = map detection_inputs (Quiet.flat 22) /\
  Sample.flat 22 <> Quiet.flat 22 /\
  Patterns.identify_patterns (Sample.flat 22) "S" 20
  = Patterns.identify_patterns (Quiet.flat 22) "S" 20.
Proof.
  assert (H1 : 2 <= 20) by lia.
  assert (H2 : map detection_inputs (Sample.flat 22)
               = map detection_inputs (Quiet.flat 22)) by reflexivity.
  assert (H3 : Sample.flat 22 <> Quiet.flat 22) by discriminate.
  exact (conj H1 (conj H2 (conj H3
           (detection_reads_eight_cells (Sample.flat 22) (Quiet.flat 22) "S" 20 H1 H2)))).
Defined.

(** X27: detection never looks ahead.  The events reported for a table are
    the first events reported for the table with more rows appended: a
    turn of the loop reads the current bar and the window before it, so
    bars that arrive later add events and change none. *)
Theorem detection_never_looks_ahead
    (df later : list Row) (symbol : string) (window : nat) :
  2 <= window ->
  Patterns.rows_of_symbol df symbol <> [] ->
  exists events more,
    Patterns.identify_patterns df symbol window = Ok events /\
    Patterns.identify_patterns (df ++ later) symbol window = Ok (events ++ more)%list.
Proof.
  intros Hw Hne. now apply PrefixFacts.identify_patterns_app.
Qed.

Lemma detection_never_looks_ahead_witness :
  2 <= 20 /\
  Patterns.rows_of_symbol (Sample.flat 21) "S" <> [] /\
  exists events more,
    Patterns.identify_patterns (Sample.flat 21) "S" 20 = Ok events /\
    Patterns.identify_patterns (Sample.flat 21 ++ [Sample.bar 21 "S" 50]) "S" 20
    = Ok (events ++ more)%list.
Proof.
  assert (H1 : 2 <= 20) by lia.
  assert (H2 : Patterns.rows_of_symbol (Sample.flat 21) "S" <> [])
    by (simpl; discriminate).
  exact (conj H1 (conj H2
           (detection_never_looks_ahead (Sample.flat 21) [Sample.bar 21 "S" 50] "S" 20
              H1 H2))).
Defined.

(** ** Loading: a rejected header *)

(** X28: what a rejected header leaves behind.  When the header is not
    accepted, [process_data] raises the missing-columns error naming
    exactly the required columns for which the header has none of the
    accepted labels, in the order of [required_columns]; the frame object
    read from the file has by then been renamed in place, and nothing else
    in the heap has changed (no date parsed, no frame allocated). *)
Theorem rejected_header_names_what_is_missing
    (to_datetime : Series -> option (list Z)) (r : loc) (h : heap) (df : DataFrame) :
  h !! r = Some df ->
  header_accepted (Frame.columns df) = false ->
  StockAnalyzer.process_data to_datetime r h
  = (Raise (MissingColumns (unnamed_columns (Frame.columns df))),
     <[r := fold_left StockAnalyzer.rename_step StockAnalyzer.column_mapping df]> h) /\
  unnamed_columns (Frame.columns df) <> [].
Proof.
  intros H Hno.
  pose proof (LoadingFacts.process_data_missing to_datetime r h df H) as P.
  cbv zeta in P. rewrite RejectFacts.missing_columns_unnamed in P.
  assert (Hne : unnamed_columns (Frame.columns df) <> []).
  { rewrite <- RejectFacts.missing_columns_unnamed. intros E.
    apply HeaderFacts.missing_columns_nil in E. congruence. }
  split; [|exact Hne].
  destruct (unnamed_columns (Frame.columns df)); [congruence | exact P].
Qed.

Lemma rejected_header_names_what_is_missing_witness :
  ({[ 1%positive := Broken.no_close ]} : heap) !! 1%positive = Some Broken.no_close /\
  header_accepted (Frame.columns Broken.no_close) = false /\
  unnamed_columns (Frame.columns Broken.no_close) = ["Date"; "Close"] /\
  StockAnalyzer.process_data Sample.already_parsed 1%positive
    {[ 1%positive := Broken.no_close ]}
  = (Raise (MissingColumns (unnamed_columns (Frame.columns Broken.no_close))),
     <[1%positive := fold_left StockAnalyzer.rename_step StockAnalyzer.column_mapping
                       Broken.no_close]> {[ 1%positive := Broken.no_close ]}) /\
  unnamed_columns (Frame.columns Broken.no_close) <> [].
Proof.
  assert (H1 : ({[ 1%positive := Broken.no_close ]} : heap) !! 1%positive
               = Some Broken.no_close) by reflexivity.
  assert (H2 : header_accepted (Frame.columns Broken.no_close) = false) by reflexivity.
  assert (H3 : unnamed_columns (Frame.columns Broken.no_close) = ["Date"; "Close"])
    by reflexivity.
  exact (conj H1 (conj H2 (conj H3
           (rejected_header_names_what_is_missing Sample.already_parsed 1%positive
              _ _ H1 H2)))).
Defined.
